(** * arch/arm64/kernel/smp.c: secondary bring-up, hotplug teardown and IPIs

    A shallow embedding of the C translation unit.  Kernel globals live in
    one record [kstate] that every function threads explicitly; logical CPU
    numbers, bitmaps and machine integers are [Z]; calls that leave this
    file and only produce output (printk, stack dumps, the interrupt
    controller's cross-call, ...) are appended to the log [klog] in program
    order.  Platform hooks of [struct cpu_operations] act on an abstract
    firmware state.  What other cores do while the caller sleeps or
    busy-waits is supplied by [externals]. *)

From Stdlib Require Import ZArith List Bool Lia String.
Import ListNotations.
Open Scope Z_scope.

(** ** Declarations the translation unit takes from headers *)

(** Macro values of <linux/errno.h>, <asm/smp.h>, <asm/cputype.h>,
    <asm/hardirq.h>, <asm/thread_info.h>, <linux/threads.h> and
    <acpi/actbl1.h>.  None of these headers is part of the translation unit,
    so the values are kept abstract. *)
Class kernel_headers : Type := {
  EIO : Z;
  EOPNOTSUPP : Z;
  ENOSYS : Z;
  CPU_MMU_OFF : Z;
  CPU_BOOT_SUCCESS : Z;
  CPU_KILL_ME : Z;
  CPU_STUCK_IN_KERNEL : Z;
  CPU_PANIC_KERNEL : Z;
  THREAD_START_SP : Z;
  NR_CPUS : Z;
  NR_IPI : Z;
  MPIDR_HWID_BITMASK : Z;
  INVALID_HWID : Z;
  ACPI_MADT_ENABLED : Z
}.

(** The preprocessor symbols the file tests with #ifdef / IS_ENABLED. *)
Class kernel_config : Type := {
  CONFIG_HOTPLUG_CPU : bool;
  CONFIG_ARM64_52BIT_VA : bool;
  CONFIG_GENERIC_CLOCKEVENTS_BROADCAST : bool;
  CONFIG_IRQ_WORK : bool
}.

(** [enum ipi_msg_type], numbered by the compiler from zero. *)
Definition IPI_RESCHEDULE : Z := 0.
Definition IPI_CALL_FUNC : Z := 1.
Definition IPI_CPU_STOP : Z := 2.
Definition IPI_TIMER : Z := 3.
Definition IPI_IRQ_WORK : Z := 4.
Definition IPI_WAKEUP : Z := 5.
Definition IPI_CPU_BACKTRACE : Z := 6.

(** [enum system_states] of <linux/kernel.h>. *)
Inductive system_states : Type :=
| SYSTEM_BOOTING
| SYSTEM_RUNNING
| SYSTEM_HALT
| SYSTEM_POWER_OFF
| SYSTEM_RESTART.

(** [struct pt_regs]: the trapped register file. *)
Record pt_regs : Type := {
  regs : list Z;
  sp : Z;
  pc : Z;
  pstate : Z
}.

(** What [__cpu_up] reads of the idle [struct task_struct]: its address and
    the base of its stack page. *)
Record task_struct : Type := {
  task_addr : Z;
  task_stack_page : Z
}.

(** [struct secondary_data]; a pointer is [None] when NULL. *)
Record secondary_data_t : Type := {
  task : option Z;
  stack : option Z;
  status : Z
}.

(** [struct acpi_madt_generic_interrupt], the fields read here. *)
Record acpi_madt_generic_interrupt : Type := {
  arm_mpidr : Z;
  flags : Z
}.

(** [struct device_node] of type "cpu": its name and the value of its "reg"
    property, [None] when the property is missing. *)
Record device_node : Type := {
  full_name : string;
  reg : option Z
}.

Inductive loglevel : Type :=
| KERN_CRIT | KERN_ERR | KERN_WARNING | KERN_INFO | KERN_DEBUG.

Inductive lock_id : Type := stop_lock | backtrace_lock.

(** A printk argument: an integer, or a string for a %s directive. *)
Inductive printk_arg : Type :=
| arg_int (z : Z)
| arg_str (s : string).

(** Calls that leave the file, in the order they are made. *)
Inductive event : Type :=
| ev_printk (lvl : loglevel) (fmt : string) (args : list printk_arg)
| ev_panic (fmt : string) (args : list printk_arg)
| ev_dump_stack
| ev_show_regs (r : pt_regs)
| ev_dump_stack_minidump (sp : Z)
| ev_smp_cross_call (target : Z) (ipinr : Z)
| ev_trace_ipi_raise (target : Z) (ipinr : Z)
| ev_trace_ipi_entry (ipinr : Z)
| ev_trace_ipi_exit (ipinr : Z)
| ev_irq_enter
| ev_irq_exit
| ev_irq_migrate_all_off_this_cpu (cpu : Z)
| ev_flush_cache_all
| ev_local_irq_disable
| ev_cpu_relax
| ev_raw_spin_lock (l : lock_id)
| ev_raw_spin_unlock (l : lock_id)
| ev_flush_dcache_secondary_data
| ev_early_map_cpu_to_node (cpu : Z)
| ev_acpi_set_mailbox_entry (cpu : Z)
| ev_update_ipi_history (cpu : Z).

(** A [cpumask_t] is a bitmap: bit [c] stands for logical CPU [c]. *)
Definition cpumask_t : Type := Z.

(** Wrap-around of [int] and [unsigned int] arithmetic. *)
Definition wrap_int (z : Z) : Z := (z + 2 ^ 31) mod 2 ^ 32 - 2 ^ 31.
Definition wrap_uint (z : Z) : Z := z mod 2 ^ 32.
(** [~x] on a 64-bit [unsigned long]. *)
Definition not_u64 (x : Z) : Z := Z.lxor x (Z.ones 64).

Section Kernel.

Context {hdr : kernel_headers} {cfg : kernel_config}.
Context {firmware : Type}.

(** [struct cpu_operations]: a NULL hook is [None].  Hooks talk to the
    firmware and return an errno-style [int]. *)
Record cpu_operations : Type := {
  cpu_init : Z -> firmware -> Z * firmware;
  cpu_prepare : Z -> firmware -> Z * firmware;
  cpu_boot : option (Z -> firmware -> Z * firmware);
  cpu_postboot : option (firmware -> firmware);
  cpu_disable : option (Z -> firmware -> Z * firmware);
  cpu_die : option (Z -> firmware -> firmware);
  cpu_kill : option (Z -> firmware -> Z * firmware)
}.

(** ** Kernel state *)

Record kstate : Type := mk_kstate {
  secondary_data : secondary_data_t;
  __early_cpu_boot_status : Z;
  cpus_stuck_in_kernel : Z;
    va52mismatch : bool;
  nr_cpu_ids : Z;
  cpu_possible_mask : cpumask_t;
  cpu_online_mask : cpumask_t;
  cpu_active_mask : cpumask_t;
  __cpu_logical_map : Z -> Z;
  bootcpu_valid : bool;
  cpu_count : Z;
  pending_ipi : Z -> bool;
  ipi_irqs : Z -> Z -> Z;
  regs_before_stop : Z -> option pt_regs;
  __irq_regs : Z -> option pt_regs;
  backtrace_mask : cpumask_t;
  backtrace_flag : Z;
  system_state : system_states;
  firmware_state : firmware;
  klog : list event
}.

Definition with_secondary_data (v : secondary_data_t) (st : kstate) : kstate :=
  mk_kstate v (__early_cpu_boot_status st) (cpus_stuck_in_kernel st)
    (va52mismatch st) (nr_cpu_ids st) (cpu_possible_mask st)
    (cpu_online_mask st) (cpu_active_mask st) (__cpu_logical_map st)
    (bootcpu_valid st) (cpu_count st) (pending_ipi st) (ipi_irqs st)
    (regs_before_stop st) (__irq_regs st) (backtrace_mask st)
    (backtrace_flag st) (system_state st) (firmware_state st) (klog st).
Definition with_early_cpu_boot_status (v : Z) (st : kstate) : kstate :=
  mk_kstate (secondary_data st) v (cpus_stuck_in_kernel st)
    (va52mismatch st) (nr_cpu_ids st) (cpu_possible_mask st)
    (cpu_online_mask st) (cpu_active_mask st) (__cpu_logical_map st)
    (bootcpu_valid st) (cpu_count st) (pending_ipi st) (ipi_irqs st)
    (regs_before_stop st) (__irq_regs st) (backtrace_mask st)
    (backtrace_flag st) (system_state st) (firmware_state st) (klog st).
Definition with_cpus_stuck_in_kernel (v : Z) (st : kstate) : kstate :=
  mk_kstate (secondary_data st) (__early_cpu_boot_status st) v
    (va52mismatch st) (nr_cpu_ids st) (cpu_possible_mask st)
    (cpu_online_mask st) (cpu_active_mask st) (__cpu_logical_map st)
    (bootcpu_valid st) (cpu_count st) (pending_ipi st) (ipi_irqs st)
    (regs_before_stop st) (__irq_regs st) (backtrace_mask st)
    (backtrace_flag st) (system_state st) (firmware_state st) (klog st).
Definition with_cpu_online_mask (v : cpumask_t) (st : kstate) : kstate :=
  mk_kstate (secondary_data st) (__early_cpu_boot_status st)
    (cpus_stuck_in_kernel st) (va52mismatch st) (nr_cpu_ids st)
    (cpu_possible_mask st) v (cpu_active_mask st) (__cpu_logical_map st)
    (bootcpu_valid st) (cpu_count st) (pending_ipi st) (ipi_irqs st)
    (regs_before_stop st) (__irq_regs st) (backtrace_mask st)
    (backtrace_flag st) (system_state st) (firmware_state st) (klog st).
Definition with_cpu_active_mask (v : cpumask_t) (st : kstate) : kstate :=
  mk_kstate (secondary_data st) (__early_cpu_boot_status st)
    (cpus_stuck_in_kernel st) (va52mismatch st) (nr_cpu_ids st)
    (cpu_possible_mask st) (cpu_online_mask st) v (__cpu_logical_map st)
    (bootcpu_valid st) (cpu_count st) (pending_ipi st) (ipi_irqs st)
    (regs_before_stop st) (__irq_regs st) (backtrace_mask st)
    (backtrace_flag st) (system_state st) (firmware_state st) (klog st).
Definition with_cpu_logical_map (v : Z -> Z) (st : kstate) : kstate :=
  mk_kstate (secondary_data st) (__early_cpu_boot_status st)
    (cpus_stuck_in_kernel st) (va52mismatch st) (nr_cpu_ids st)
    (cpu_possible_mask st) (cpu_online_mask st) (cpu_active_mask st) v
    (bootcpu_valid st) (cpu_count st) (pending_ipi st) (ipi_irqs st)
    (regs_before_stop st) (__irq_regs st) (backtrace_mask st)
    (backtrace_flag st) (system_state st) (firmware_state st) (klog st).
Definition with_bootcpu_valid (v : bool) (st : kstate) : kstate :=
  mk_kstate (secondary_data st) (__early_cpu_boot_status st)
    (cpus_stuck_in_kernel st) (va52mismatch st) (nr_cpu_ids st)
    (cpu_possible_mask st) (cpu_online_mask st) (cpu_active_mask st)
    (__cpu_logical_map st) v (cpu_count st) (pending_ipi st) (ipi_irqs st)
    (regs_before_stop st) (__irq_regs st) (backtrace_mask st)
    (backtrace_flag st) (system_state st) (firmware_state st) (klog st).
Definition with_cpu_count (v : Z) (st : kstate) : kstate :=
  mk_kstate (secondary_data st) (__early_cpu_boot_status st)
    (cpus_stuck_in_kernel st) (va52mismatch st) (nr_cpu_ids st)
    (cpu_possible_mask st) (cpu_online_mask st) (cpu_active_mask st)
    (__cpu_logical_map st) (bootcpu_valid st) v (pending_ipi st)
    (ipi_irqs st) (regs_before_stop st) (__irq_regs st) (backtrace_mask st)
    (backtrace_flag st) (system_state st) (firmware_state st) (klog st).
Definition with_pending_ipi (v : Z -> bool) (st : kstate) : kstate :=
  mk_kstate (secondary_data st) (__early_cpu_boot_status st)
    (cpus_stuck_in_kernel st) (va52mismatch st) (nr_cpu_ids st)
    (cpu_possible_mask st) (cpu_online_mask st) (cpu_active_mask st)
    (__cpu_logical_map st) (bootcpu_valid st) (cpu_count st) v
    (ipi_irqs st) (regs_before_stop st) (__irq_regs st) (backtrace_mask st)
    (backtrace_flag st) (system_state st) (firmware_state st) (klog st).
Definition with_ipi_irqs (v : Z -> Z -> Z) (st : kstate) : kstate :=
  mk_kstate (secondary_data st) (__early_cpu_boot_status st)
    (cpus_stuck_in_kernel st) (va52mismatch st) (nr_cpu_ids st)
    (cpu_possible_mask st) (cpu_online_mask st) (cpu_active_mask st)
    (__cpu_logical_map st) (bootcpu_valid st) (cpu_count st)
    (pending_ipi st) v (regs_before_stop st) (__irq_regs st)
    (backtrace_mask st) (backtrace_flag st) (system_state st)
    (firmware_state st) (klog st).
Definition with_regs_before_stop (v : Z -> option pt_regs) (st : kstate) : kstate :=
  mk_kstate (secondary_data st) (__early_cpu_boot_status st)
    (cpus_stuck_in_kernel st) (va52mismatch st) (nr_cpu_ids st)
    (cpu_possible_mask st) (cpu_online_mask st) (cpu_active_mask st)
    (__cpu_logical_map st) (bootcpu_valid st) (cpu_count st)
    (pending_ipi st) (ipi_irqs st) v (__irq_regs st) (backtrace_mask st)
    (backtrace_flag st) (system_state st) (firmware_state st) (klog st).
Definition with_irq_regs (v : Z -> option pt_regs) (st : kstate) : kstate :=
  mk_kstate (secondary_data st) (__early_cpu_boot_status st)
    (cpus_stuck_in_kernel st) (va52mismatch st) (nr_cpu_ids st)
    (cpu_possible_mask st) (cpu_online_mask st) (cpu_active_mask st)
    (__cpu_logical_map st) (bootcpu_valid st) (cpu_count st)
    (pending_ipi st) (ipi_irqs st) (regs_before_stop st) v
    (backtrace_mask st) (backtrace_flag st) (system_state st)
    (firmware_state st) (klog st).
Definition with_backtrace_mask (v : cpumask_t) (st : kstate) : kstate :=
  mk_kstate (secondary_data st) (__early_cpu_boot_status st)
    (cpus_stuck_in_kernel st) (va52mismatch st) (nr_cpu_ids st)
    (cpu_possible_mask st) (cpu_online_mask st) (cpu_active_mask st)
    (__cpu_logical_map st) (bootcpu_valid st) (cpu_count st)
    (pending_ipi st) (ipi_irqs st) (regs_before_stop st) (__irq_regs st) v
    (backtrace_flag st) (system_state st) (firmware_state st) (klog st).
Definition with_backtrace_flag (v : Z) (st : kstate) : kstate :=
  mk_kstate (secondary_data st) (__early_cpu_boot_status st)
    (cpus_stuck_in_kernel st) (va52mismatch st) (nr_cpu_ids st)
    (cpu_possible_mask st) (cpu_online_mask st) (cpu_active_mask st)
    (__cpu_logical_map st) (bootcpu_valid st) (cpu_count st)
    (pending_ipi st) (ipi_irqs st) (regs_before_stop st) (__irq_regs st)
    (backtrace_mask st) v (system_state st) (firmware_state st) (klog st).
Definition with_firmware_state (v : firmware) (st : kstate) : kstate :=
  mk_kstate (secondary_data st) (__early_cpu_boot_status st)
    (cpus_stuck_in_kernel st) (va52mismatch st) (nr_cpu_ids st)
    (cpu_possible_mask st) (cpu_online_mask st) (cpu_active_mask st)
    (__cpu_logical_map st) (bootcpu_valid st) (cpu_count st)
    (pending_ipi st) (ipi_irqs st) (regs_before_stop st) (__irq_regs st)
    (backtrace_mask st) (backtrace_flag st) (system_state st) v (klog st).
Definition with_klog (v : list event) (st : kstate) : kstate :=
  mk_kstate (secondary_data st) (__early_cpu_boot_status st)
    (cpus_stuck_in_kernel st) (va52mismatch st) (nr_cpu_ids st)
    (cpu_possible_mask st) (cpu_online_mask st) (cpu_active_mask st)
    (__cpu_logical_map st) (bootcpu_valid st) (cpu_count st)
    (pending_ipi st) (ipi_irqs st) (regs_before_stop st) (__irq_regs st)
    (backtrace_mask st) (backtrace_flag st) (system_state st)
    (firmware_state st) v.

(** Append one event to the log. *)
Definition emit (e : event) (st : kstate) : kstate :=
  with_klog (klog st ++ [e]) st.

(** Array or per-CPU slot update. *)
Definition upd {A : Type} (f : Z -> A) (i : Z) (v : A) : Z -> A :=
  fun j => if j =? i then v else f j.

(** How a call ends: it returns a value, or control never comes back
    because of [panic], because the core spins in an endless loop (the
    fuel given to the loop ran out), or because a NULL entry of [cpu_ops]
    was dereferenced. *)
Inductive outcome (A : Type) : Type :=
| Returns (a : A) (st : kstate)
| Panics (st : kstate)
| Spins (st : kstate)
| Faults (st : kstate).

#[global] Arguments Returns {A} a st.
#[global] Arguments Panics {A} st.
#[global] Arguments Spins {A} st.
#[global] Arguments Faults {A} st.

Definition bind {A B : Type} (m : outcome A)
  (k : A -> kstate -> outcome B) : outcome B :=
  match m with
  | Returns a st => k a st
  | Panics st => Panics st
  | Spins st => Spins st
  | Faults st => Faults st
  end.

Definition final_state {A : Type} (m : outcome A) : kstate :=
  match m with
  | Returns _ st | Panics st | Spins st | Faults st => st
  end.

Notation "'call' ( x , s ) <- m ; k" := (bind m (fun x s => k))
  (at level 10, x name, s name, k at level 200).

(** What the rest of the system does to the shared state while this file
    is not in control: the callbacks run from IPI context, and the other
    cores during a sleep or a delay. *)
Record externals : Type := {
  scheduler_ipi : kstate -> kstate;
  generic_smp_call_function_interrupt : kstate -> kstate;
  tick_receive_broadcast : kstate -> kstate;
  irq_work_run : kstate -> kstate;
  wait_for_completion_timeout : kstate -> kstate;
  mdelay : nat -> kstate -> kstate
}.

Variable cpu_ops : Z -> option cpu_operations.
Variable ext : externals.

(** ** Kernel helpers used by the file *)

Definition pr_crit (fmt : string) (args : list printk_arg) : kstate -> kstate :=
  emit (ev_printk KERN_CRIT fmt args).
Definition pr_err (fmt : string) (args : list printk_arg) : kstate -> kstate :=
  emit (ev_printk KERN_ERR fmt args).
Definition pr_warn (fmt : string) (args : list printk_arg) : kstate -> kstate :=
  emit (ev_printk KERN_WARNING fmt args).
Definition pr_info (fmt : string) (args : list printk_arg) : kstate -> kstate :=
  emit (ev_printk KERN_INFO fmt args).
Definition pr_debug (fmt : string) (args : list printk_arg) : kstate -> kstate :=
  emit (ev_printk KERN_DEBUG fmt args).

(** Modelled from the spec: the bitmap helpers of <linux/cpumask.h> are not
    part of the translation unit.  A mask has one bit per core; the walk
    [for_each_cpu] visits the set bits below [nr_cpu_ids] in rising
    order. *)
Definition cpumask_test_cpu (cpu : Z) (m : cpumask_t) : bool :=
  Z.testbit m cpu.
Definition cpumask_set_cpu (cpu : Z) (m : cpumask_t) : cpumask_t :=
  Z.setbit m cpu.
Definition cpumask_clear_cpu (cpu : Z) (m : cpumask_t) : cpumask_t :=
  Z.clearbit m cpu.
Definition cpumask_empty (m : cpumask_t) : bool := m =? 0.
Definition cpumask_of (cpu : Z) : cpumask_t := Z.setbit 0 cpu.
Definition cpu_range (n : Z) : list Z := map Z.of_nat (seq 0 (Z.to_nat n)).
Definition cpumask_weight (n : Z) (m : cpumask_t) : Z :=
  Z.of_nat (List.length (filter (fun c => cpumask_test_cpu c m) (cpu_range n))).
Definition for_each_cpu (m : cpumask_t) (body : Z -> kstate -> kstate)
  (st : kstate) : kstate :=
  fold_left (fun s c => if cpumask_test_cpu c m then body c s else s)
    (cpu_range (nr_cpu_ids st)) st.

Definition cpu_online (cpu : Z) (st : kstate) : bool :=
  cpumask_test_cpu cpu (cpu_online_mask st).
Definition cpu_active (cpu : Z) (st : kstate) : bool :=
  cpumask_test_cpu cpu (cpu_active_mask st).
Definition set_cpu_online (cpu : Z) (online : bool) (st : kstate) : kstate :=
  with_cpu_online_mask
    (if online then cpumask_set_cpu cpu (cpu_online_mask st)
     else cpumask_clear_cpu cpu (cpu_online_mask st)) st.
Definition set_cpu_active (cpu : Z) (active : bool) (st : kstate) : kstate :=
  with_cpu_active_mask
    (if active then cpumask_set_cpu cpu (cpu_active_mask st)
     else cpumask_clear_cpu cpu (cpu_active_mask st)) st.
Definition num_possible_cpus (st : kstate) : Z :=
  cpumask_weight (nr_cpu_ids st) (cpu_possible_mask st).

(** Modelled from the spec: [update_cpu_boot_status] is an inline of
    <asm/smp.h>; it stores the new BootStatus in the boot-status word of
    the handoff block. *)
Definition update_cpu_boot_status (val : Z) (st : kstate) : kstate :=
  with_secondary_data
    {| task := task (secondary_data st);
       stack := stack (secondary_data st);
       status := val |} st.

(** ** Bring-up orchestrator *)

(** [op_cpu_kill]: the CONFIG_HOTPLUG_CPU body, else the inline stub. *)
Definition op_cpu_kill (cpu : Z) (st : kstate) : outcome Z :=
  if CONFIG_HOTPLUG_CPU then
    match cpu_ops cpu with
    | None => Faults st
    | Some ops =>
        match cpu_kill ops with
        | None => Returns 0 st
        | Some kill =>
            let (ret, fw) := kill cpu (firmware_state st) in
            Returns ret (with_firmware_state fw st)
        end
    end
  else Returns (- ENOSYS) st.

Definition boot_secondary (cpu : Z) (idle : task_struct) (st : kstate)
  : outcome Z :=
  match cpu_ops cpu with
  | None => Faults st
  | Some ops =>
      match cpu_boot ops with
      | Some boot =>
          let (ret, fw) := boot cpu (firmware_state st) in
          Returns ret (with_firmware_state fw st)
      | None => Returns (- EOPNOTSUPP) st
      end
  end.

(** [__cpu_up], lines 156-159: fill the handoff block and publish it. *)
Definition secondary_data_publish (idle : task_struct) (st : kstate)
  : kstate :=
  let st := with_secondary_data
              {| task := Some (task_addr idle);
                 stack := Some (task_stack_page idle + THREAD_START_SP);
                 status := status (secondary_data st) |} st in
  let st := update_cpu_boot_status CPU_MMU_OFF st in
  emit ev_flush_dcache_secondary_data st.

(** [__cpu_up], lines 173-180: the core did not come online. *)
Definition failed_to_come_online (cpu : Z) (st : kstate) : kstate :=
  let st := pr_crit "CPU%u: failed to come online\n" [arg_int cpu] st in
  if CONFIG_ARM64_52BIT_VA && va52mismatch st
  then pr_crit "CPU%u: does not support 52-bit VAs\n" [arg_int cpu] st
  else st.

(** [__cpu_up], lines 186-187. *)
Definition secondary_data_clear (st : kstate) : kstate :=
  with_secondary_data
    {| task := None; stack := None;
       status := status (secondary_data st) |} st.

(** The value the switch of [__cpu_up] dispatches on (lines 188-192): the
    boot-status word, or the early word while the former reads
    CPU_MMU_OFF. *)
Definition boot_status_readback (st : kstate) : Z :=
  let status := status (secondary_data st) in
  if status =? CPU_MMU_OFF then __early_cpu_boot_status st else status.

(** [__cpu_up], lines 188-215: classify the failure and return [ret]. *)
Definition cpu_up_classify (cpu : Z) (ret : Z) (st : kstate) : outcome Z :=
  let status := status (secondary_data st) in
  if negb (ret =? 0) && negb (status =? 0) then
    let status := boot_status_readback st in
    if status =? CPU_KILL_ME then
      call (killed, st) <- op_cpu_kill cpu st;
      if killed =? 0 then
        Returns ret (pr_crit "CPU%u: died during early boot\n" [arg_int cpu] st)
      else
        let st := pr_crit "CPU%u: may not have shut down cleanly\n" [arg_int cpu] st in
        let st := pr_crit "CPU%u: is stuck in kernel\n" [arg_int cpu] st in
        Returns ret
          (with_cpus_stuck_in_kernel
             (wrap_int (cpus_stuck_in_kernel st + 1)) st)
    else if status =? CPU_STUCK_IN_KERNEL then
      let st := pr_crit "CPU%u: is stuck in kernel\n" [arg_int cpu] st in
      Returns ret
        (with_cpus_stuck_in_kernel
           (wrap_int (cpus_stuck_in_kernel st + 1)) st)
    else if status =? CPU_PANIC_KERNEL then
      Panics (emit (ev_panic "CPU%u detected unsupported configuration\n"
                      [arg_int cpu]) st)
    else
      Returns ret
        (pr_err "CPU%u: failed in unknown state : 0x%lx\n" [arg_int cpu; arg_int status] st)
  else Returns ret st.

Definition __cpu_up (cpu : Z) (idle : task_struct) (st : kstate)
  : outcome Z :=
  let st := secondary_data_publish idle st in
  call (ret, st) <- boot_secondary cpu idle st;
  if ret =? 0 then
    let st := wait_for_completion_timeout ext st in
    if negb (cpu_online cpu st) then
      let st := failed_to_come_online cpu st in
      let ret := - EIO in
      cpu_up_classify cpu ret (secondary_data_clear st)
    else
      cpu_up_classify cpu ret (secondary_data_clear st)
  else
    Returns ret (pr_err "CPU%u: failed to boot: %d\n" [arg_int cpu; arg_int ret] st).

(** ** Hotplug controller (CONFIG_HOTPLUG_CPU) *)

Definition op_cpu_disable (cpu : Z) (st : kstate) : outcome Z :=
  match cpu_ops cpu with
  | None => Returns (- EOPNOTSUPP) st
  | Some ops =>
      match cpu_die ops with
      | None => Returns (- EOPNOTSUPP) st
      | Some _ =>
          match cpu_disable ops with
          | Some disable =>
              let (ret, fw) := disable cpu (firmware_state st) in
              Returns ret (with_firmware_state fw st)
          | None => Returns 0 st
          end
      end
  end.

(** [__cpu_disable] runs on the core to be shut down: [this_cpu] is what
    [smp_processor_id] answers there. *)
Definition __cpu_disable (this_cpu : Z) (st : kstate) : outcome Z :=
  let cpu := this_cpu in
  call (ret, st) <- op_cpu_disable cpu st;
  if negb (ret =? 0) then Returns ret st
  else
    let st := set_cpu_online cpu false st in
    let st := emit (ev_irq_migrate_all_off_this_cpu cpu) st in
    Returns 0 st.

(** ** Topology enumeration *)

Definition cpu_logical_map (cpu : Z) (st : kstate) : Z :=
  __cpu_logical_map st cpu.

Definition of_get_cpu_mpidr (dn : device_node) (st : kstate) : Z * kstate :=
  match reg dn with
  | None =>
      (INVALID_HWID,
       pr_err "%s: missing reg property\n" [arg_str (full_name dn)] st)
  | Some hwid =>
      if negb (Z.land hwid (not_u64 MPIDR_HWID_BITMASK) =? 0) then
        (INVALID_HWID,
         pr_err "%s: invalid reg property\n" [arg_str (full_name dn)] st)
      else (hwid, st)
  end.

(** The loop of [is_mpidr_duplicate], entered with counter [i]; it makes
    fewer than NR_CPUS iterations. *)
Fixpoint is_mpidr_duplicate_loop (fuel : nat) (i cpu hwid : Z)
  (st : kstate) : bool :=
  match fuel with
  | O => false
  | S fuel' =>
      if (i <? cpu) && (i <? NR_CPUS) then
        if cpu_logical_map i st =? hwid then true
        else is_mpidr_duplicate_loop fuel' (i + 1) cpu hwid st
      else false
  end.

Definition is_mpidr_duplicate (cpu hwid : Z) (st : kstate) : bool :=
  is_mpidr_duplicate_loop (Z.to_nat NR_CPUS) 1 cpu hwid st.

Definition acpi_map_gic_cpu_interface
  (processor : acpi_madt_generic_interrupt) (st : kstate) : kstate :=
  let hwid := arm_mpidr processor in
  if Z.land (flags processor) ACPI_MADT_ENABLED =? 0 then
    pr_debug "skipping disabled CPU entry with 0x%llx MPIDR\n" [arg_int hwid] st
  else if negb (Z.land hwid (not_u64 MPIDR_HWID_BITMASK) =? 0)
          || (hwid =? INVALID_HWID) then
    pr_err "skipping CPU entry with invalid MPIDR 0x%llx\n" [arg_int hwid] st
  else if is_mpidr_duplicate (cpu_count st) hwid st then
    pr_err "duplicate CPU MPIDR 0x%llx in MADT\n" [arg_int hwid] st
  else if cpu_logical_map 0 st =? hwid then
    if bootcpu_valid st then
      pr_err "duplicate boot CPU MPIDR: 0x%llx in MADT\n" [arg_int hwid] st
    else
      let st := with_bootcpu_valid true st in
      emit (ev_early_map_cpu_to_node 0) st
  else if cpu_count st >=? NR_CPUS then st
  else
    let st :=
      with_cpu_logical_map (upd (__cpu_logical_map st) (cpu_count st) hwid)
        st in
    let st := emit (ev_acpi_set_mailbox_entry (cpu_count st)) st in
    let st := emit (ev_early_map_cpu_to_node (cpu_count st)) st in
    with_cpu_count (wrap_uint (cpu_count st + 1)) st.

(** Modelled from the spec: the MADT walker [acpi_table_parse_madt] is not
    part of the translation unit; it hands the records to the callback one
    by one, in table order. *)
Definition acpi_table_parse_madt
  (madt : list acpi_madt_generic_interrupt) (st : kstate) : kstate :=
  fold_left (fun s processor => acpi_map_gic_cpu_interface processor s)
    madt st.

(** One turn of the while loop of [of_parse_and_init_cpus]. *)
Definition of_parse_cpu_node (dn : device_node) (st : kstate) : kstate :=
  let next (st : kstate) := with_cpu_count (wrap_uint (cpu_count st + 1)) st in
  let (hwid, st) := of_get_cpu_mpidr dn st in
  if hwid =? INVALID_HWID then next st
  else if is_mpidr_duplicate (cpu_count st) hwid st then
    next (pr_err "%s: duplicate cpu reg properties in the DT\n"
            [arg_str (full_name dn)] st)
  else if hwid =? cpu_logical_map 0 st then
    if bootcpu_valid st then
      next (pr_err "%s: duplicate boot cpu reg property in DT\n"
              [arg_str (full_name dn)] st)
    else
      let st := with_bootcpu_valid true st in
      emit (ev_early_map_cpu_to_node 0) st
  else if cpu_count st >=? NR_CPUS then next st
  else
    let st := pr_debug "cpu logical map 0x%llx\n" [arg_int hwid] st in
    let st :=
      with_cpu_logical_map (upd (__cpu_logical_map st) (cpu_count st) hwid)
        st in
    let st := emit (ev_early_map_cpu_to_node (cpu_count st)) st in
    next st.

(** [of_parse_and_init_cpus]; [cpus] are the device-tree nodes of type
    "cpu" in the order [of_find_node_by_type] yields them. *)
Definition of_parse_and_init_cpus (cpus : list device_node) (st : kstate)
  : kstate :=
  fold_left (fun s dn => of_parse_cpu_node dn s) cpus st.

(** ** IPI dispatch engine *)

(** [__smp_cross_call] is the hook the interrupt controller registers with
    [set_smp_cross_call]; invoking it is logged. *)
Definition smp_cross_call (target : cpumask_t) (ipinr : Z) (st : kstate)
  : kstate :=
  let st := emit (ev_trace_ipi_raise target ipinr) st in
  emit (ev_smp_cross_call target ipinr) st.

Definition smp_cross_call_common (cpumask : cpumask_t) (func : Z)
  (st : kstate) : kstate :=
  let st :=
    for_each_cpu cpumask
      (fun cpu s => with_pending_ipi (upd (pending_ipi s) cpu true) s) st in
  smp_cross_call cpumask func st.

Definition arch_send_call_function_ipi_mask (mask : cpumask_t)
  : kstate -> kstate :=
  smp_cross_call_common mask IPI_CALL_FUNC.

Definition arch_send_call_function_single_ipi (cpu : Z)
  : kstate -> kstate :=
  smp_cross_call_common (cpumask_of cpu) IPI_CALL_FUNC.

Definition arch_send_wakeup_ipi_mask (mask : cpumask_t)
  : kstate -> kstate :=
  smp_cross_call_common mask IPI_WAKEUP.

(** CONFIG_GENERIC_CLOCKEVENTS_BROADCAST. *)
Definition tick_broadcast (mask : cpumask_t) : kstate -> kstate :=
  smp_cross_call_common mask IPI_TIMER.

(** [BUG_ON] stops the caller for good. *)
Definition smp_send_reschedule (cpu : Z) (st : kstate) : outcome unit :=
  if negb (cpu_online cpu st) then
    Panics (emit (ev_panic "BUG" []) st)
  else
    let st := emit (ev_update_ipi_history cpu) st in
    Returns tt (smp_cross_call_common (cpumask_of cpu) IPI_RESCHEDULE st).

(** [while (1) cpu_relax();] has no exit: whatever fuel it is given, it
    uses up. *)
Fixpoint cpu_relax_forever (fuel : nat) (st : kstate) : outcome unit :=
  match fuel with
  | O => Spins st
  | S fuel' => cpu_relax_forever fuel' (emit ev_cpu_relax st)
  end.

Definition ipi_cpu_stop (fuel : nat) (cpu : Z) (r : pt_regs) (st : kstate)
  : outcome unit :=
  let st :=
    match system_state st with
    | SYSTEM_BOOTING | SYSTEM_RUNNING =>
        let st :=
          with_regs_before_stop (upd (regs_before_stop st) cpu (Some r))
            st in
        let st := emit (ev_raw_spin_lock stop_lock) st in
        let st := pr_crit "CPU%u: stopping\n" [arg_int cpu] st in
        let st := emit (ev_show_regs r) st in
        let st := emit ev_dump_stack st in
        let st := emit (ev_dump_stack_minidump (sp r)) st in
        emit (ev_raw_spin_unlock stop_lock) st
    | _ => st
    end in
  let st := set_cpu_active cpu false st in
  let st := emit ev_flush_cache_all st in
  let st := emit ev_local_irq_disable st in
  cpu_relax_forever fuel st.

(** The wait loop of [smp_send_all_cpu_backtrace]: [n] iterations are
    left and [i] is the loop counter. *)
Fixpoint backtrace_wait (n i : nat) (st : kstate) : kstate :=
  match n with
  | O => st
  | S n' =>
      if cpumask_empty (backtrace_mask st) then st
      else backtrace_wait n' (S i) (mdelay ext i st)
  end.

(** The state [k] delays of one millisecond later, the first of them being
    delay number [i]. *)
Fixpoint backtrace_delays (k i : nat) (st : kstate) : kstate :=
  match k with
  | O => st
  | S k' => backtrace_delays k' (S i) (mdelay ext i st)
  end.

(** [smp_send_all_cpu_backtrace], lines 880-888: everything between taking
    the token and the wait loop. *)
Definition backtrace_request (this_cpu : Z) (st : kstate) : kstate :=
  let st := with_backtrace_mask (cpu_online_mask st) st in
  let st :=
    with_backtrace_mask (cpumask_clear_cpu this_cpu (backtrace_mask st))
      st in
  let st :=
    pr_info "Backtrace for cpu %d (current):\n" [arg_int this_cpu] st in
  let st := emit ev_dump_stack st in
  let st := pr_info "\nsending IPI to all other CPUs:\n" [] st in
  if negb (cpumask_empty (backtrace_mask st)) then
    smp_cross_call (backtrace_mask st) IPI_CPU_BACKTRACE st
  else st.

(** [test_and_set_bit] sets bit 0 of the token and answers its old value;
    the closing [smp_mb__after_atomic] is a barrier and leaves the state as
    it is. *)
Definition smp_send_all_cpu_backtrace (this_cpu : Z) (st : kstate)
  : kstate :=
  let old := Z.testbit (backtrace_flag st) 0 in
  let st := with_backtrace_flag (Z.setbit (backtrace_flag st) 0) st in
  if old then st
  else
    let st := backtrace_request this_cpu st in
    let st := backtrace_wait (10 * 1000) 0 st in
    with_backtrace_flag (Z.clearbit (backtrace_flag st) 0) st.

Definition ipi_cpu_backtrace (cpu : Z) (r : pt_regs) (st : kstate)
  : kstate :=
  if cpumask_test_cpu cpu (backtrace_mask st) then
    let st := emit (ev_raw_spin_lock backtrace_lock) st in
    let st := pr_warn "IPI backtrace for cpu %d\n" [arg_int cpu] st in
    let st := emit (ev_show_regs r) st in
    let st := emit (ev_raw_spin_unlock backtrace_lock) st in
    with_backtrace_mask (cpumask_clear_cpu cpu (backtrace_mask st)) st
  else st.

(** The switch of [handle_IPI]. *)
Definition handle_IPI_dispatch (fuel : nat) (cpu ipinr : Z) (r : pt_regs)
  (st : kstate) : outcome unit :=
  if ipinr =? IPI_RESCHEDULE then Returns tt (scheduler_ipi ext st)
  else if ipinr =? IPI_CALL_FUNC then
    let st := emit ev_irq_enter st in
    let st := generic_smp_call_function_interrupt ext st in
    Returns tt (emit ev_irq_exit st)
  else if ipinr =? IPI_CPU_STOP then
    let st := emit ev_irq_enter st in
    call (_u, st) <- ipi_cpu_stop fuel cpu r st;
    Returns tt (emit ev_irq_exit st)
  else if CONFIG_GENERIC_CLOCKEVENTS_BROADCAST && (ipinr =? IPI_TIMER) then
    let st := emit ev_irq_enter st in
    let st := tick_receive_broadcast ext st in
    Returns tt (emit ev_irq_exit st)
  else if CONFIG_IRQ_WORK && (ipinr =? IPI_IRQ_WORK) then
    let st := emit ev_irq_enter st in
    let st := irq_work_run ext st in
    Returns tt (emit ev_irq_exit st)
  else if ipinr =? IPI_WAKEUP then Returns tt st
  else if ipinr =? IPI_CPU_BACKTRACE then
    Returns tt (ipi_cpu_backtrace cpu r st)
  else
    Returns tt
      (pr_crit "CPU%u: Unknown IPI message 0x%x\n"
         [arg_int cpu; arg_int ipinr] st).

(** [handle_IPI] runs on the core that took the interrupt, [this_cpu]. *)
Definition handle_IPI (fuel : nat) (this_cpu : Z) (ipinr : Z) (r : pt_regs)
  (st : kstate) : outcome unit :=
  let cpu := this_cpu in
  let old_regs := __irq_regs st cpu in
  let st := with_irq_regs (upd (__irq_regs st) cpu (Some r)) st in
  let st :=
    if wrap_uint ipinr <? NR_IPI then
      let st := emit (ev_trace_ipi_entry ipinr) st in
      with_ipi_irqs
        (upd (ipi_irqs st) cpu
           (upd (ipi_irqs st cpu) ipinr
              (wrap_uint (ipi_irqs st cpu ipinr + 1)))) st
    else st in
  call (_u, st) <- handle_IPI_dispatch fuel cpu ipinr r st;
  let st :=
    if wrap_uint ipinr <? NR_IPI then emit (ev_trace_ipi_exit ipinr) st
    else st in
  let st := with_pending_ipi (upd (pending_ipi st) cpu false) st in
  Returns tt (with_irq_regs (upd (__irq_regs st) cpu old_regs) st).

(** ** Stuck-core query *)

Definition have_cpu_die (this_cpu : Z) : bool :=
  if CONFIG_HOTPLUG_CPU then
    let any_cpu := this_cpu in
    match cpu_ops any_cpu with
    | Some ops =>
        match cpu_die ops with
        | Some _ => true
        | None => false
        end
    | None => false
    end
  else false.

Definition cpus_are_stuck_in_kernel (this_cpu : Z) (st : kstate) : bool :=
  let smp_spin_tables :=
    (num_possible_cpus st >? 1) && negb (have_cpu_die this_cpu) in
  negb (cpus_stuck_in_kernel st =? 0) || smp_spin_tables.

End Kernel.

Notation "'call' ( x , s ) <- m ; k" := (bind m (fun x s => k))
  (at level 10, x name, s name, k at level 200).

(** ** Assumptions on the header values *)

(** What the code relies on: errno values are positive, the switch labels
    of [__cpu_up] are distinct (C requires it), and zero is the status of a
    successful boot, distinct from every other BootStatus. *)
Definition headers_sane {hdr : kernel_headers} : Prop :=
  0 < EIO /\ 0 < EOPNOTSUPP /\ 0 < ENOSYS /\
  CPU_BOOT_SUCCESS = 0 /\
  CPU_MMU_OFF <> 0 /\ CPU_KILL_ME <> 0 /\
  CPU_STUCK_IN_KERNEL <> 0 /\ CPU_PANIC_KERNEL <> 0 /\
  CPU_KILL_ME <> CPU_MMU_OFF /\ CPU_STUCK_IN_KERNEL <> CPU_MMU_OFF /\
  CPU_PANIC_KERNEL <> CPU_MMU_OFF /\
  CPU_KILL_ME <> CPU_STUCK_IN_KERNEL /\ CPU_KILL_ME <> CPU_PANIC_KERNEL /\
  CPU_STUCK_IN_KERNEL <> CPU_PANIC_KERNEL.

(** A hardware identifier the enumerators accept. *)
Definition valid_hwid {hdr : kernel_headers} (hwid : Z) : Prop :=
  Z.land hwid (not_u64 MPIDR_HWID_BITMASK) = 0 /\ hwid <> INVALID_HWID.

(** ** Failure reports of the bring-up orchestrator *)

Definition DiedDuringBoot (cpu : Z) : event :=
  ev_printk KERN_CRIT "CPU%u: died during early boot\n" [arg_int cpu].
Definition MayNotHaveShutDownCleanly (cpu : Z) : event :=
  ev_printk KERN_CRIT "CPU%u: may not have shut down cleanly\n"
    [arg_int cpu].
Definition StuckInKernel (cpu : Z) : event :=
  ev_printk KERN_CRIT "CPU%u: is stuck in kernel\n" [arg_int cpu].
Definition BootRefused (cpu ret : Z) : event :=
  ev_printk KERN_ERR "CPU%u: failed to boot: %d\n"
    [arg_int cpu; arg_int ret].

(** ** Concrete platforms used to run the model *)

(** The values the macros have in the 4.9 arm64 tree. *)
Definition arm64_headers : kernel_headers := {|
  EIO := 5;
  EOPNOTSUPP := 95;
  ENOSYS := 38;
  CPU_MMU_OFF := -1;
  CPU_BOOT_SUCCESS := 0;
  CPU_KILL_ME := 1;
  CPU_STUCK_IN_KERNEL := 2;
  CPU_PANIC_KERNEL := 3;
  THREAD_START_SP := 16384 - 16;
  NR_CPUS := 8;
  NR_IPI := 7;
  MPIDR_HWID_BITMASK := 0xff00ffffff;
  INVALID_HWID := 2 ^ 64 - 1;
  ACPI_MADT_ENABLED := 1
|}.

Definition hotplug_config : kernel_config := {|
  CONFIG_HOTPLUG_CPU := true;
  CONFIG_ARM64_52BIT_VA := false;
  CONFIG_GENERIC_CLOCKEVENTS_BROADCAST := true;
  CONFIG_IRQ_WORK := true
|}.

(** A firmware that only counts the calls it receives. *)
Definition fw_call (ret : Z) (cpu : Z) (calls : nat) : Z * nat :=
  (ret, S calls).

(** Every hook present and succeeding, as with a firmware-call method. *)
Definition firmware_call_ops : @cpu_operations nat := {|
  cpu_init := fw_call 0;
  cpu_prepare := fw_call 0;
  cpu_boot := Some (fw_call 0);
  cpu_postboot := None;
  cpu_disable := Some (fw_call 0);
  cpu_die := Some (fun _ calls => S calls);
  cpu_kill := Some (fw_call 0)
|}.

(** No hotplug hooks at all, as with the spin-table method. *)
Definition spin_table_ops : @cpu_operations nat := {|
  cpu_init := fw_call 0;
  cpu_prepare := fw_call 0;
  cpu_boot := Some (fw_call 0);
  cpu_postboot := None;
  cpu_disable := None;
  cpu_die := None;
  cpu_kill := None
|}.

(** The firmware refuses to release the core (-EINVAL). *)
Definition refusing_ops : @cpu_operations nat := {|
  cpu_init := fw_call 0;
  cpu_prepare := fw_call 0;
  cpu_boot := Some (fw_call (-22));
  cpu_postboot := None;
  cpu_disable := Some (fw_call 0);
  cpu_die := Some (fun _ calls => S calls);
  cpu_kill := Some (fw_call 0)
|}.

(** The kill confirmation fails (-ETIMEDOUT). *)
Definition kill_failing_ops : @cpu_operations nat := {|
  cpu_init := fw_call 0;
  cpu_prepare := fw_call 0;
  cpu_boot := Some (fw_call 0);
  cpu_postboot := None;
  cpu_disable := Some (fw_call (-16));
  cpu_die := Some (fun _ calls => S calls);
  cpu_kill := Some (fw_call (-110))
|}.

Definition all_cpus (ops : @cpu_operations nat) (cpu : Z)
  : option (@cpu_operations nat) := Some ops.

(** Core 0 uses the spin-table hooks, the others the firmware calls. *)
Definition mixed_cpu_ops (cpu : Z) : option (@cpu_operations nat) :=
  if cpu =? 0 then Some spin_table_ops else Some firmware_call_ops.

(** Callbacks that do nothing, and other cores that do [others] while
    the caller waits. *)
Definition quiet_externals (others : @kstate nat -> @kstate nat)
  : @externals nat := {|
  scheduler_ipi := fun st => st;
  generic_smp_call_function_interrupt := fun st => st;
  tick_receive_broadcast := fun st => st;
  irq_work_run := fun st => st;
  wait_for_completion_timeout := others;
  mdelay := fun _ => others
|}.

(** A running system with two possible cores, [online] of them online,
    whose boot core has hardware identifier [boot_hwid]. *)
Definition two_core_state (online : cpumask_t) (boot_hwid invalid : Z)
  : @kstate nat :=
  mk_kstate {| task := None; stack := None; status := 0 |} 0 0 false
    2 3 online online
    (fun cpu => if cpu =? 0 then boot_hwid else invalid)
    false 1 (fun _ => false) (fun _ _ => 0) (fun _ => None) (fun _ => None)
    0 0 SYSTEM_RUNNING O [].

(** The enumeration scenario: three records, the third repeating the
    first, as MADT entries with the given flags and as device-tree
    nodes. *)
Definition madt_records (madt_flags : Z) : list acpi_madt_generic_interrupt :=
  [ {| arm_mpidr := 0xA; flags := madt_flags |};
    {| arm_mpidr := 0xB; flags := madt_flags |};
    {| arm_mpidr := 0xA; flags := madt_flags |} ].

Definition dt_cpu_nodes : list device_node :=
  [ {| full_name := "/cpus/cpu@a"; reg := Some 0xA |};
    {| full_name := "/cpus/cpu@b"; reg := Some 0xB |};
    {| full_name := "/cpus/cpu@a2"; reg := Some 0xA |} ].

Definition idle_task : task_struct :=
  {| task_addr := 0xffffffc000100000; task_stack_page := 0xffffffc000200000 |}.

Definition no_regs : pt_regs := {| regs := []; sp := 0; pc := 0; pstate := 0 |}.

(** * The rest of the file *)

Section KernelRest.

Context {hdr : kernel_headers} {cfg : kernel_config} {firmware : Type}.
Variable cpu_ops : Z -> option (@cpu_operations firmware).

Definition with_cpu_possible_mask (v : cpumask_t) (st : @kstate firmware)
  : @kstate firmware :=
  mk_kstate (secondary_data st) (__early_cpu_boot_status st)
    (cpus_stuck_in_kernel st) (va52mismatch st) (nr_cpu_ids st) v
    (cpu_online_mask st) (cpu_active_mask st) (__cpu_logical_map st)
    (bootcpu_valid st) (cpu_count st) (pending_ipi st) (ipi_irqs st)
    (regs_before_stop st) (__irq_regs st) (backtrace_mask st)
    (backtrace_flag st) (system_state st) (firmware_state st) (klog st).

Definition set_cpu_possible (cpu : Z) (possible : bool)
  (st : @kstate firmware) : @kstate firmware :=
  with_cpu_possible_mask
    (if possible then cpumask_set_cpu cpu (cpu_possible_mask st)
     else cpumask_clear_cpu cpu (cpu_possible_mask st)) st.

Definition cpu_possible (cpu : Z) (st : @kstate firmware) : bool :=
  cpumask_test_cpu cpu (cpu_possible_mask st).

(** ** Setting up the enumerated cores *)

(** ENODEV of <linux/errno.h>, and whether ACPI support is built in. *)
Variable ENODEV : Z.
Variable CONFIG_ACPI : bool.

(** Modelled from the spec: [cpu_read_ops] lives in cpu_ops.c; it selects
    the bring-up operations of a core from its enable method and answers
    zero on success.  [cpu_ops] is the table it fills: the entry of a core
    is read only after [cpu_read_ops] succeeded for it. *)
Variable cpu_read_ops : Z -> Z.

Definition smp_cpu_setup (cpu : Z) (st : @kstate firmware) : outcome Z :=
  if negb (cpu_read_ops cpu =? 0) then Returns (- ENODEV) st
  else
    match cpu_ops cpu with
    | None => Faults st
    | Some ops =>
        let (ret, fw) := cpu_init ops cpu (firmware_state st) in
        let st := with_firmware_state fw st in
        if negb (ret =? 0) then Returns (- ENODEV) st
        else Returns 0 (set_cpu_possible cpu true st)
    end.

(** One turn of the for loop of [smp_init_cpus]. *)
Definition smp_init_cpu (i : Z) (st : @kstate firmware) : outcome unit :=
  if negb (cpu_logical_map i st =? INVALID_HWID) then
    call (ret, st) <- smp_cpu_setup i st;
    if negb (ret =? 0) then
      Returns tt
        (with_cpu_logical_map (upd (__cpu_logical_map st) i INVALID_HWID)
           st)
    else Returns tt st
  else Returns tt st.

Fixpoint smp_init_cpus_loop (cpus : list Z) (st : @kstate firmware)
  : outcome unit :=
  match cpus with
  | [] => Returns tt st
  | i :: rest =>
      call (_u, st) <- smp_init_cpu i st;
      smp_init_cpus_loop rest st
  end.

(** The values [i] takes in [for (i = 1; i < nr_cpu_ids; i++)]. *)
Definition secondary_range (n : Z) : list Z :=
  map Z.of_nat (seq 1 (Z.to_nat n - 1)).

(** [smp_init_cpus]; [acpi_disabled] chooses the walk, [cpus] and [madt]
    are what the device tree and the MADT hold.  Without CONFIG_ACPI the
    MADT walk is an empty macro. *)
Definition smp_init_cpus (acpi_disabled : bool) (cpus : list device_node)
  (madt : list acpi_madt_generic_interrupt) (st : @kstate firmware)
  : outcome unit :=
  let st :=
    if acpi_disabled then of_parse_and_init_cpus cpus st
    else if CONFIG_ACPI then acpi_table_parse_madt madt st
    else st in
  let st :=
    if cpu_count st >? nr_cpu_ids st then
      pr_warn
        "Number of cores (%d) exceeds configured maximum of %d - clipping\n"
        [arg_int (cpu_count st); arg_int (nr_cpu_ids st)] st
    else st in
  if negb (bootcpu_valid st) then
    Returns tt
      (pr_err "missing boot CPU MPIDR, not enabling secondaries\n" [] st)
  else smp_init_cpus_loop (secondary_range (nr_cpu_ids st)) st.

(** ** Waiting for a core to die *)

(** Modelled from the spec: [cpu_wait_death] lives in kernel/smpboot.c; it
    waits up to the given number of seconds for the core to report its
    death and answers whether it did. *)
Variable cpu_wait_death : Z -> Z -> @kstate firmware -> bool * @kstate firmware.

(** [__cpu_die] (CONFIG_HOTPLUG_CPU). *)
Definition __cpu_die (cpu : Z) (st : @kstate firmware) : outcome unit :=
  let (died, st) := cpu_wait_death cpu 5 st in
  if negb died then
    Returns tt (pr_crit "CPU%u: cpu didn't die\n" [arg_int cpu] st)
  else
    let st := pr_debug "CPU%u: shutdown\n" [arg_int cpu] st in
    call (err, st) <- op_cpu_kill cpu_ops cpu st;
    if negb (err =? 0) then
      Returns tt
        (pr_warn "CPU%d may not have shut down cleanly: %d\n"
           [arg_int cpu; arg_int err] st)
    else Returns tt st.

(** ** Stopping the other cores *)

Definition num_online_cpus (st : @kstate firmware) : Z :=
  cpumask_weight (nr_cpu_ids st) (cpu_online_mask st).
Definition num_active_cpus (st : @kstate firmware) : Z :=
  cpumask_weight (nr_cpu_ids st) (cpu_active_mask st).

Definition num_other_online_cpus (this_cpu : Z) (st : @kstate firmware)
  : Z :=
  let this_cpu_online := if cpu_online this_cpu st then 1 else 0 in
  wrap_uint (num_online_cpus st - this_cpu_online).

Definition num_other_active_cpus (this_cpu : Z) (st : @kstate firmware)
  : Z :=
  let this_cpu_active := if cpu_active this_cpu st then 1 else 0 in
  wrap_uint (num_active_cpus st - this_cpu_active).

(** USEC_PER_SEC of <linux/time64.h>, and what the other cores do during
    the [i]-th [udelay(1)]. *)
Variable USEC_PER_SEC : Z.
Variable udelay : nat -> @kstate firmware -> @kstate firmware.

(** [smp_send_stop], lines 1028-1038: the broadcast. *)
Definition smp_send_stop_request (this_cpu : Z) (st : @kstate firmware)
  : @kstate firmware :=
  if negb (num_other_online_cpus this_cpu st =? 0) then
    let mask := cpu_online_mask st in
    let mask := cpumask_clear_cpu this_cpu mask in
    let st :=
      match system_state st with
      | SYSTEM_BOOTING | SYSTEM_RUNNING =>
          pr_crit "SMP: stopping secondary CPUs\n" [] st
      | _ => st
      end in
    smp_cross_call_common mask IPI_CPU_STOP st
  else st.

(** [while (num_other_active_cpus() && timeout--) udelay(1);] with
    [timeout] delays left, [i] being the number of delays made. *)
Fixpoint smp_send_stop_wait (this_cpu : Z) (timeout i : nat)
  (st : @kstate firmware) : @kstate firmware :=
  if num_other_active_cpus this_cpu st =? 0 then st
  else
    match timeout with
    | O => st
    | S timeout' =>
        smp_send_stop_wait this_cpu timeout' (S i) (udelay i st)
    end.

(** The state [k] delays of one microsecond later. *)
Fixpoint stop_delays (k i : nat) (st : @kstate firmware)
  : @kstate firmware :=
  match k with
  | O => st
  | S k' => stop_delays k' (S i) (udelay i st)
  end.

Definition smp_send_stop (this_cpu : Z) (st : @kstate firmware)
  : @kstate firmware :=
  let st := smp_send_stop_request this_cpu st in
  let st := smp_send_stop_wait this_cpu (Z.to_nat USEC_PER_SEC) 0 st in
  if negb (num_other_active_cpus this_cpu st =? 0) then
    pr_warn "SMP: failed to stop secondary CPUs %*pbl\n"
      [arg_int (nr_cpu_ids st); arg_int (cpu_online_mask st)] st
  else st.

(** ** Interrupt statistics *)

(** [smp_irq_stat_cpu]: the u64 sum of the IPI counters of one core. *)
Definition smp_irq_stat_cpu (cpu : Z) (st : @kstate firmware) : Z :=
  fold_left (fun sum i => (sum + ipi_irqs st cpu i) mod 2 ^ 64)
    (cpu_range NR_IPI) 0.

End KernelRest.

(** ** What the enumerators maintain *)

(** From index 1 on, the logical map holds assigned identifiers below
    [cpu_count] only, and an assigned identifier occurs nowhere at a
    smaller index, index 0 included. *)
Definition logical_map_unique {hdr : kernel_headers} {firmware : Type}
  (st : @kstate firmware) : Prop :=
  1 <= cpu_count st /\
  (forall i, cpu_count st <= i -> cpu_logical_map i st = INVALID_HWID) /\
  (forall i j, 0 <= i < j -> cpu_logical_map j st <> INVALID_HWID ->
               cpu_logical_map i st <> cpu_logical_map j st).

(** A MADT record the enumerator does not skip outright. *)
Definition madt_usable {hdr : kernel_headers}
  (processor : acpi_madt_generic_interrupt) : Prop :=
  Z.land (flags processor) ACPI_MADT_ENABLED <> 0 /\
  valid_hwid (arm_mpidr processor).

(** ** More concrete inputs *)

(** Reading the operations succeeds for every core but core 2. *)
Definition read_ops_but_2 (cpu : Z) : Z := if cpu =? 2 then -2 else 0.

(** A system with four possible core numbers, only the boot core known. *)
Definition four_core_state (online active : cpumask_t) : @kstate nat :=
  mk_kstate {| task := None; stack := None; status := 0 |} 0 0 false
    4 1 online active
    (fun cpu => if cpu =? 0 then 0xA else 2 ^ 64 - 1)
    false 1 (fun _ => false) (fun _ _ => 0) (fun _ => None) (fun _ => None)
    0 0 SYSTEM_RUNNING O [].

(** Operations without a boot hook. *)
Definition no_boot_ops : @cpu_operations nat := {|
  cpu_init := fw_call 0;
  cpu_prepare := fw_call 0;
  cpu_boot := None;
  cpu_postboot := None;
  cpu_disable := None;
  cpu_die := None;
  cpu_kill := None
|}.

(** The dying core reports its death, or not, without delay. *)
Definition death_reported (died : bool) (cpu seconds : Z) (st : @kstate nat)
  : bool * @kstate nat := (died, st).

(** * Properties *)

Section BringUp.

Context {hdr : kernel_headers} {cfg : kernel_config} {firmware : Type}.
Variable cpu_ops : Z -> option (@cpu_operations firmware).
Variable ext : @externals firmware.


(** Logging and clearing the handoff pointers leave the status words, the
    counter and the firmware alone. *)
Lemma failed_to_come_online_frame cpu (st : @kstate firmware) :
  let st' := failed_to_come_online cpu st in
  status (secondary_data st') = status (secondary_data st) /\
  __early_cpu_boot_status st' = __early_cpu_boot_status st /\
  firmware_state st' = firmware_state st /\
  cpus_stuck_in_kernel st' = cpus_stuck_in_kernel st.
Proof.
  unfold failed_to_come_online.
  destruct (CONFIG_ARM64_52BIT_VA && _); cbn; auto.
Qed.

Lemma boot_status_readback_failed cpu (st : @kstate firmware) :
  boot_status_readback (secondary_data_clear (failed_to_come_online cpu st))
  = boot_status_readback st.
Proof.
  destruct (failed_to_come_online_frame cpu st) as (Hs & He & _).
  unfold boot_status_readback, secondary_data_clear; cbn.
  now rewrite Hs, He.
Qed.

(** [boot_secondary] only returns when the core has an operations table. *)
Lemma boot_secondary_returns cpu idle (st st' : @kstate firmware) ret :
  boot_secondary cpu_ops cpu idle st = Returns ret st' ->
  exists ops, cpu_ops cpu = Some ops.
Proof.
  unfold boot_secondary.
  destruct (cpu_ops cpu) as [ops|]; [eauto | discriminate].
Qed.

(** With an operations table the kill confirmation always answers. *)
Lemma op_cpu_kill_returns cpu ops (st : @kstate firmware) :
  cpu_ops cpu = Some ops ->
  exists killed st', op_cpu_kill cpu_ops cpu st = Returns killed st'.
Proof.
  intros Hops. unfold op_cpu_kill. rewrite Hops.
  destruct CONFIG_HOTPLUG_CPU; [|eauto].
  destruct (cpu_kill ops) as [kill|]; [|eauto].
  destruct (kill cpu (firmware_state st)); eauto.
Qed.

(** The path of [__cpu_up] once the platform has released the core. *)
Lemma cpu_up_released cpu idle (st st_b : @kstate firmware) :
  boot_secondary cpu_ops cpu idle (secondary_data_publish idle st) = Returns 0 st_b ->
  __cpu_up cpu_ops ext cpu idle st =
  let st_w := wait_for_completion_timeout ext st_b in
  if cpu_online cpu st_w
  then cpu_up_classify cpu_ops cpu 0 (secondary_data_clear st_w)
  else cpu_up_classify cpu_ops cpu (- EIO)
         (secondary_data_clear (failed_to_come_online cpu st_w)).
Proof.
  intros Hboot. unfold __cpu_up. rewrite Hboot. cbn.
  now destruct (cpu_online cpu _).
Qed.

(** The path of [__cpu_up] when the platform refuses. *)
Lemma cpu_up_refused cpu idle (st st_b : @kstate firmware) ret :
  boot_secondary cpu_ops cpu idle (secondary_data_publish idle st) = Returns ret st_b ->
  ret <> 0 ->
  __cpu_up cpu_ops ext cpu idle st =
  Returns ret
    (pr_err "CPU%u: failed to boot: %d\n" [arg_int cpu; arg_int ret] st_b).
Proof.
  intros Hboot Hret. unfold __cpu_up. rewrite Hboot. cbn.
  apply Z.eqb_neq in Hret. now rewrite Hret.
Qed.

Lemma cpu_up_classify_success cpu (st : @kstate firmware) :
  cpu_up_classify cpu_ops cpu 0 st = Returns 0 st.
Proof. reflexivity. Qed.

(** The KillMe arm of the switch. *)
Lemma cpu_up_classify_kill_me cpu ret (st : @kstate firmware) :
  headers_sane -> ret <> 0 ->
  boot_status_readback st = CPU_KILL_ME ->
  cpu_up_classify cpu_ops cpu ret st =
  call (killed, st) <- op_cpu_kill cpu_ops cpu st;
  if killed =? 0 then
    Returns ret (pr_crit "CPU%u: died during early boot\n" [arg_int cpu] st)
  else
    let st :=
      pr_crit "CPU%u: may not have shut down cleanly\n" [arg_int cpu] st in
    let st := pr_crit "CPU%u: is stuck in kernel\n" [arg_int cpu] st in
    Returns ret
      (with_cpus_stuck_in_kernel (wrap_int (cpus_stuck_in_kernel st + 1)) st).
Proof.
  intros Hsane Hret Hrb. unfold cpu_up_classify.
  apply Z.eqb_neq in Hret. rewrite Hret. cbn [negb andb].
  assert (Hst : status (secondary_data st) <> 0).
  { unfold boot_status_readback in Hrb. unfold headers_sane in Hsane.
    destruct (Z.eqb_spec (status (secondary_data st)) CPU_MMU_OFF); lia. }
  apply Z.eqb_neq in Hst. rewrite Hst. cbn [negb].
  rewrite Hrb, Z.eqb_refl. reflexivity.
Qed.

(** Neither the kill confirmation nor the classification touches the
    handoff block. *)
Lemma op_cpu_kill_frame cpu (st : @kstate firmware) :
  let st' := final_state (op_cpu_kill cpu_ops cpu st) in
  secondary_data st' = secondary_data st /\ klog st' = klog st /\
  cpus_stuck_in_kernel st' = cpus_stuck_in_kernel st.
Proof.
  unfold op_cpu_kill.
  destruct CONFIG_HOTPLUG_CPU; [|cbn; auto].
  destruct (cpu_ops cpu) as [ops|]; [|cbn; auto].
  destruct (cpu_kill ops) as [kill|]; [|cbn; auto].
  destruct (kill cpu (firmware_state st)); cbn; auto.
Qed.

Lemma cpu_up_classify_secondary_data cpu ret (st : @kstate firmware) :
  secondary_data (final_state (cpu_up_classify cpu_ops cpu ret st))
  = secondary_data st.
Proof.
  unfold cpu_up_classify.
  destruct (negb (ret =? 0) && _); [|reflexivity].
  destruct (_ =? CPU_KILL_ME).
  - pose proof (op_cpu_kill_frame cpu st) as (Hsd & _).
    destruct (op_cpu_kill cpu_ops cpu st) as [killed st1|st1|st1|st1];
      cbn in *; try assumption.
    destruct (killed =? 0); cbn; assumption.
  - destruct (_ =? CPU_STUCK_IN_KERNEL); [reflexivity|].
    destruct (_ =? CPU_PANIC_KERNEL); reflexivity.
Qed.

Lemma boot_secondary_secondary_data cpu idle (st st' : @kstate firmware) ret :
  boot_secondary cpu_ops cpu idle st = Returns ret st' ->
  secondary_data st' = secondary_data st.
Proof.
  unfold boot_secondary.
  destruct (cpu_ops cpu) as [ops|]; [|discriminate].
  destruct (cpu_boot ops) as [boot|].
  - destruct (boot cpu (firmware_state st)).
    intros [= _ <-]. reflexivity.
  - intros [= _ <-]. reflexivity.
Qed.

(** A failed attempt ends in the return of [ret] or in [panic]; it panics
    exactly when the status read back is CPU_PANIC_KERNEL. *)
Lemma cpu_up_classify_failure cpu ops ret (st : @kstate firmware) :
  headers_sane -> ret <> 0 -> cpu_ops cpu = Some ops ->
  if negb (status (secondary_data st) =? 0)
     && (boot_status_readback st =? CPU_PANIC_KERNEL)
  then exists st', cpu_up_classify cpu_ops cpu ret st = Panics st'
  else exists st', cpu_up_classify cpu_ops cpu ret st = Returns ret st'.
Proof.
  intros Hsane Hret Hops. unfold cpu_up_classify.
  apply Z.eqb_neq in Hret. rewrite Hret. cbn [negb andb].
  destruct (status (secondary_data st) =? 0); cbn [negb andb]; [eauto|].
  unfold headers_sane in Hsane.
  destruct (Z.eqb_spec (boot_status_readback st) CPU_PANIC_KERNEL) as [->|Hp].
  - destruct (Z.eqb_spec CPU_PANIC_KERNEL CPU_KILL_ME); [lia|].
    destruct (Z.eqb_spec CPU_PANIC_KERNEL CPU_STUCK_IN_KERNEL); [lia|].
    eauto.
  - destruct (_ =? CPU_KILL_ME).
    + destruct (op_cpu_kill_returns cpu ops st Hops) as (killed & st1 & ->).
      cbn. destruct (killed =? 0); eauto.
    + destruct (_ =? CPU_STUCK_IN_KERNEL); eauto.
Qed.

(** The whole KillMe path of an attempt that timed out, shared by the
    statements below. *)
Lemma cpu_up_kill_me cpu idle (st st_b : @kstate firmware) :
  headers_sane ->
  boot_secondary cpu_ops cpu idle (secondary_data_publish idle st)
  = Returns 0 st_b ->
  cpu_online cpu (wait_for_completion_timeout ext st_b) = false ->
  boot_status_readback (wait_for_completion_timeout ext st_b)
  = CPU_KILL_ME ->
  exists killed st_k,
    op_cpu_kill cpu_ops cpu
      (secondary_data_clear
         (failed_to_come_online cpu (wait_for_completion_timeout ext st_b)))
    = Returns killed st_k /\
    exists st',
      __cpu_up cpu_ops ext cpu idle st = Returns (- EIO) st' /\
      if killed =? 0 then
        klog st' = klog st_k ++ [DiedDuringBoot cpu] /\
        cpus_stuck_in_kernel st' = cpus_stuck_in_kernel st_k
      else
        klog st' =
        klog st_k ++ [MayNotHaveShutDownCleanly cpu; StuckInKernel cpu] /\
        cpus_stuck_in_kernel st' = wrap_int (cpus_stuck_in_kernel st_k + 1).
Proof.
  intros Hsane Hboot Hoff Hrb.
  destruct (boot_secondary_returns _ _ _ _ _ Hboot) as [ops Hops].
  rewrite (cpu_up_released _ _ _ _ Hboot). cbv zeta. rewrite Hoff.
  rewrite cpu_up_classify_kill_me;
    [ | assumption | unfold headers_sane in Hsane; lia
      | now rewrite boot_status_readback_failed ].
  destruct (op_cpu_kill_returns cpu ops
              (secondary_data_clear
                 (failed_to_come_online cpu
                    (wait_for_completion_timeout ext st_b))) Hops)
    as (killed & st_k & Hkill).
  exists killed, st_k. split; [assumption|].
  rewrite Hkill. cbn [bind].
  destruct (killed =? 0); eexists; (split; [reflexivity|]); cbn.
  - split; reflexivity.
  - split; [now rewrite <- app_assoc | reflexivity].
Qed.

(** C1 (amended).  When a bring-up attempt times out and the BootStatus
    read back is KillMe, [__cpu_up] attempts the firmware-assisted kill and
    returns -EIO.  If the kill SUCCEEDS (returns 0) the only report is
    DiedDuringBoot and the stuck-core counter is unchanged; if the kill
    FAILS the reports are MayNotHaveShutDownCleanly followed by
    StuckInKernel, and the stuck-core counter is incremented. *)
Theorem cpu_up_kill_me_reports cpu idle (st st_b : @kstate firmware) :
  headers_sane ->
  boot_secondary cpu_ops cpu idle (secondary_data_publish idle st)
  = Returns 0 st_b ->
  cpu_online cpu (wait_for_completion_timeout ext st_b) = false ->
  boot_status_readback (wait_for_completion_timeout ext st_b)
  = CPU_KILL_ME ->
  exists killed st_k st',
    op_cpu_kill cpu_ops cpu
      (secondary_data_clear
         (failed_to_come_online cpu (wait_for_completion_timeout ext st_b)))
    = Returns killed st_k /\
    __cpu_up cpu_ops ext cpu idle st = Returns (- EIO) st' /\
    (killed = 0 ->
     klog st' = klog st_k ++ [DiedDuringBoot cpu] /\
     cpus_stuck_in_kernel st' = cpus_stuck_in_kernel st_k) /\
    (killed <> 0 ->
     klog st' =
     klog st_k ++ [MayNotHaveShutDownCleanly cpu; StuckInKernel cpu] /\
     cpus_stuck_in_kernel st' = wrap_int (cpus_stuck_in_kernel st_k + 1)).
Proof.
  intros Hsane Hboot Hoff Hrb.
  destruct (cpu_up_kill_me cpu idle st st_b Hsane Hboot Hoff Hrb)
    as (killed & st_k & Hkill & st' & Hup & Hrep).
  exists killed, st_k, st'.
  split; [assumption|]. split; [assumption|]. split.
  - intros ->. exact Hrep.
  - intros Hk. apply Z.eqb_neq in Hk. rewrite Hk in Hrep. exact Hrep.
Qed.

(** C10.  With CONFIG_HOTPLUG_CPU, [op_cpu_kill] on a core whose
    operations have no kill hook reports success (0) and changes nothing;
    consequently a timed-out attempt on such a core whose BootStatus reads
    KillMe is reported as DiedDuringBoot only, and the stuck-core counter
    keeps the value it had when the wait ended. *)
Theorem op_cpu_kill_without_hook cpu ops idle (st st_b : @kstate firmware) :
  headers_sane ->
  CONFIG_HOTPLUG_CPU = true ->
  cpu_ops cpu = Some ops ->
  cpu_kill ops = None ->
  (forall s : @kstate firmware, op_cpu_kill cpu_ops cpu s = Returns 0 s) /\
  (boot_secondary cpu_ops cpu idle (secondary_data_publish idle st)
   = Returns 0 st_b ->
   cpu_online cpu (wait_for_completion_timeout ext st_b) = false ->
   boot_status_readback (wait_for_completion_timeout ext st_b)
   = CPU_KILL_ME ->
   exists st',
     __cpu_up cpu_ops ext cpu idle st = Returns (- EIO) st' /\
     klog st' =
     klog (failed_to_come_online cpu (wait_for_completion_timeout ext st_b))
     ++ [DiedDuringBoot cpu] /\
     cpus_stuck_in_kernel st' =
     cpus_stuck_in_kernel (wait_for_completion_timeout ext st_b)).
Proof.
  intros Hsane Hcfg Hops Hnokill.
  assert (Hkill : forall s : @kstate firmware,
             op_cpu_kill cpu_ops cpu s = Returns 0 s).
  { intros s. unfold op_cpu_kill. now rewrite Hcfg, Hops, Hnokill. }
  split; [exact Hkill|].
  intros Hboot Hoff Hrb.
  destruct (cpu_up_kill_me cpu idle st st_b Hsane Hboot Hoff Hrb)
    as (killed & st_k & Hk & st' & Hup & Hrep).
  rewrite Hkill in Hk. injection Hk as <- <-.
  exists st'. split; [assumption|]. cbn in Hrep.
  destruct Hrep as [Hlog Hcnt]. split; [exact Hlog|].
  rewrite Hcnt. cbn.
  apply (failed_to_come_online_frame cpu).
Qed.

(** C7 (amended).  After the platform boot operation succeeds, [__cpu_up]
    returns success if and only if the target core's online flag is set
    when the bounded wait ends.  Otherwise it returns the failure -EIO,
    except when the BootStatus read back is PanicKernel: then it calls
    [panic] and does not return at all. *)
Theorem cpu_up_success_iff_online cpu idle (st st_b : @kstate firmware) :
  headers_sane ->
  boot_secondary cpu_ops cpu idle (secondary_data_publish idle st)
  = Returns 0 st_b ->
  let st_w := wait_for_completion_timeout ext st_b in
  (cpu_online cpu st_w = true <->
   exists st', __cpu_up cpu_ops ext cpu idle st = Returns 0 st') /\
  (cpu_online cpu st_w = false ->
   if negb (status (secondary_data st_w) =? 0)
      && (boot_status_readback st_w =? CPU_PANIC_KERNEL)
   then exists st', __cpu_up cpu_ops ext cpu idle st = Panics st'
   else exists st', __cpu_up cpu_ops ext cpu idle st = Returns (- EIO) st').
Proof.
  intros Hsane Hboot st_w.
  destruct (boot_secondary_returns _ _ _ _ _ Hboot) as [ops Hops].
  assert (Hio : - EIO <> 0) by (unfold headers_sane in Hsane; lia).
  assert (Hfail : cpu_online cpu st_w = false ->
    if negb (status (secondary_data st_w) =? 0)
       && (boot_status_readback st_w =? CPU_PANIC_KERNEL)
    then exists st', __cpu_up cpu_ops ext cpu idle st = Panics st'
    else exists st', __cpu_up cpu_ops ext cpu idle st = Returns (- EIO) st').
  { intros Hoff. rewrite (cpu_up_released _ _ _ _ Hboot). cbv zeta.
    fold st_w. rewrite Hoff.
    pose proof (cpu_up_classify_failure cpu ops (- EIO)
                  (secondary_data_clear (failed_to_come_online cpu st_w))
                  Hsane Hio Hops) as H.
    rewrite boot_status_readback_failed in H.
    destruct (failed_to_come_online_frame cpu st_w) as (Hs & _).
    cbn [secondary_data_clear with_secondary_data secondary_data status] in H.
    rewrite Hs in H. exact H. }
  split; [split|exact Hfail].
  - intros Hon. rewrite (cpu_up_released _ _ _ _ Hboot). cbv zeta.
    fold st_w. rewrite Hon. eexists. apply cpu_up_classify_success.
  - intros [st' Hup]. destruct (cpu_online cpu st_w) eqn:Hon; [reflexivity|].
    specialize (Hfail eq_refl).
    destruct (negb _ && _); destruct Hfail as [st2 H2];
      rewrite H2 in Hup; [discriminate|].
    injection Hup as Hz _. lia.
Qed.

(** C2 (amended).  Whenever the platform boot operation released the core,
    the task and stack fields of [secondary_data] are cleared when
    [__cpu_up] ends, whether the core came online or not.  When the boot
    operation refuses, [__cpu_up] returns the refusal code right away and
    the two fields still hold the idle task and its stack. *)
Theorem cpu_up_handoff_cleared cpu idle (st st_b : @kstate firmware) ret :
  boot_secondary cpu_ops cpu idle (secondary_data_publish idle st)
  = Returns ret st_b ->
  let sd := secondary_data (final_state (__cpu_up cpu_ops ext cpu idle st)) in
  (ret = 0 -> task sd = None /\ stack sd = None) /\
  (ret <> 0 ->
   __cpu_up cpu_ops ext cpu idle st
   = Returns ret (emit (BootRefused cpu ret) st_b) /\
   task sd = Some (task_addr idle) /\
   stack sd = Some (task_stack_page idle + THREAD_START_SP)).
Proof.
  intros Hboot sd. split.
  - intros ->. subst sd. rewrite (cpu_up_released _ _ _ _ Hboot). cbv zeta.
    destruct (cpu_online cpu _);
      rewrite cpu_up_classify_secondary_data; split; reflexivity.
  - intros Hret. subst sd. rewrite (cpu_up_refused _ _ _ _ _ Hboot Hret).
    split; [reflexivity|]. cbn.
    rewrite (boot_secondary_secondary_data _ _ _ _ _ Hboot).
    split; reflexivity.
Qed.

End BringUp.

(** ** The bring-up statements on concrete platforms *)

Lemma arm64_headers_sane : headers_sane (hdr := arm64_headers).
Proof. unfold headers_sane; cbn; lia. Qed.

(** C1, counterexample to the claim as worded: the kill confirmation
    succeeds, and the report is DiedDuringBoot, not
    MayNotHaveShutDownCleanly. *)
Lemma cpu_up_kill_success_reports_died :
  (forall s, op_cpu_kill (hdr := arm64_headers) (cfg := hotplug_config)
               (all_cpus firmware_call_ops) 1 s
             = Returns 0 (with_firmware_state (S (firmware_state s)) s)) /\
  exists st',
    __cpu_up (hdr := arm64_headers) (cfg := hotplug_config)
      (all_cpus firmware_call_ops)
      (quiet_externals (update_cpu_boot_status 1))
      1 idle_task (two_core_state 1 0xA (2 ^ 64 - 1))
    = Returns (-5) st' /\
    klog st' =
    [ev_flush_dcache_secondary_data;
     ev_printk KERN_CRIT "CPU%u: failed to come online\n" [arg_int 1];
     DiedDuringBoot 1] /\
    ~ In (MayNotHaveShutDownCleanly 1) (klog st') /\
    cpus_stuck_in_kernel st' = 0.
Proof.
  split; [reflexivity|].
  eexists. split; [vm_compute; reflexivity|]. split; [reflexivity|].
  split; [|reflexivity].
  cbn [klog In]. intros [H|[H|[H|[]]]]; discriminate H.
Qed.

(** C1 on a platform whose kill confirmation fails. *)
Lemma cpu_up_kill_me_reports_witness :
  exists st_b killed st_k st',
    boot_secondary (hdr := arm64_headers) (all_cpus kill_failing_ops)
      1 idle_task
      (secondary_data_publish (hdr := arm64_headers) idle_task
         (two_core_state 1 0xA (2 ^ 64 - 1)))
    = Returns 0 st_b /\
    op_cpu_kill (hdr := arm64_headers) (cfg := hotplug_config)
      (all_cpus kill_failing_ops) 1
      (secondary_data_clear
         (failed_to_come_online (cfg := hotplug_config) 1
            (update_cpu_boot_status 1 st_b)))
    = Returns killed st_k /\
    __cpu_up (hdr := arm64_headers) (cfg := hotplug_config)
      (all_cpus kill_failing_ops)
      (quiet_externals (update_cpu_boot_status 1))
      1 idle_task (two_core_state 1 0xA (2 ^ 64 - 1))
    = Returns (-5) st' /\
    (killed = 0 ->
     klog st' = klog st_k ++ [DiedDuringBoot 1] /\
     cpus_stuck_in_kernel st' = cpus_stuck_in_kernel st_k) /\
    (killed <> 0 ->
     klog st' =
     klog st_k ++ [MayNotHaveShutDownCleanly 1; StuckInKernel 1] /\
     cpus_stuck_in_kernel st' = wrap_int (cpus_stuck_in_kernel st_k + 1)).
Proof.
  eexists.
  assert (Hboot :
    boot_secondary (hdr := arm64_headers) (all_cpus kill_failing_ops)
      1 idle_task
      (secondary_data_publish (hdr := arm64_headers) idle_task
         (two_core_state 1 0xA (2 ^ 64 - 1)))
    = Returns 0 _) by (vm_compute; reflexivity).
  destruct (cpu_up_kill_me_reports (hdr := arm64_headers)
              (cfg := hotplug_config) (all_cpus kill_failing_ops)
              (quiet_externals (update_cpu_boot_status 1))
              1 idle_task _ _ arm64_headers_sane Hboot
              ltac:(vm_compute; reflexivity) ltac:(vm_compute; reflexivity))
    as (killed & st_k & st' & H).
  exists killed, st_k, st'. split; [exact Hboot | exact H].
Defined.

(** C10 on a spin-table platform, whose operations have no kill hook. *)
Lemma op_cpu_kill_without_hook_witness :
  (forall s : @kstate nat,
     op_cpu_kill (hdr := arm64_headers) (cfg := hotplug_config)
       (all_cpus spin_table_ops) 1 s = Returns 0 s) /\
  exists st',
    __cpu_up (hdr := arm64_headers) (cfg := hotplug_config)
      (all_cpus spin_table_ops)
      (quiet_externals (update_cpu_boot_status 1))
      1 idle_task (two_core_state 1 0xA (2 ^ 64 - 1))
    = Returns (-5) st' /\
    klog st' =
    [ev_flush_dcache_secondary_data;
     ev_printk KERN_CRIT "CPU%u: failed to come online\n" [arg_int 1];
     DiedDuringBoot 1] /\
    cpus_stuck_in_kernel st' = 0.
Proof.
  destruct (op_cpu_kill_without_hook (hdr := arm64_headers)
              (cfg := hotplug_config) (all_cpus spin_table_ops)
              (quiet_externals (update_cpu_boot_status 1))
              1 spin_table_ops idle_task
              (two_core_state 1 0xA (2 ^ 64 - 1))
              (with_firmware_state 1%nat
                 (secondary_data_publish (hdr := arm64_headers) idle_task
                    (two_core_state 1 0xA (2 ^ 64 - 1))))
              arm64_headers_sane eq_refl eq_refl eq_refl)
    as [Hkill Hup].
  split; [exact Hkill|].
  destruct (Hup ltac:(vm_compute; reflexivity)
              ltac:(vm_compute; reflexivity)
              ltac:(vm_compute; reflexivity)) as (st' & H1 & H2 & H3).
  exists st'. split; [exact H1|]. split; [exact H2 | exact H3].
Defined.

(** C7, counterexample to the claim as worded: the boot operation
    succeeds, the core never comes online and reports PanicKernel, and
    [__cpu_up] returns nothing at all. *)
Lemma cpu_up_panics_instead_of_failing :
  exists st_b st',
    boot_secondary (hdr := arm64_headers) (all_cpus firmware_call_ops)
      1 idle_task
      (secondary_data_publish (hdr := arm64_headers) idle_task
         (two_core_state 1 0xA (2 ^ 64 - 1)))
    = Returns 0 st_b /\
    cpu_online 1 (update_cpu_boot_status 3 st_b) = false /\
    __cpu_up (hdr := arm64_headers) (cfg := hotplug_config)
      (all_cpus firmware_call_ops)
      (quiet_externals (update_cpu_boot_status 3))
      1 idle_task (two_core_state 1 0xA (2 ^ 64 - 1))
    = Panics st' /\
    forall ret st'',
      __cpu_up (hdr := arm64_headers) (cfg := hotplug_config)
        (all_cpus firmware_call_ops)
        (quiet_externals (update_cpu_boot_status 3))
        1 idle_task (two_core_state 1 0xA (2 ^ 64 - 1))
      <> Returns ret st''.
Proof.
  eexists. eexists.
  split; [vm_compute; reflexivity|].
  split; [vm_compute; reflexivity|].
  assert (H : forall A B : Prop, A -> (A -> B) -> A /\ B) by tauto.
  apply H; [vm_compute; reflexivity|].
  intros Hp ret st'' Hr. rewrite Hp in Hr. discriminate Hr.
Qed.

(** C7 on a platform whose secondary comes online during the wait. *)
Lemma cpu_up_success_iff_online_witness :
  exists st_b,
    boot_secondary (hdr := arm64_headers) (all_cpus firmware_call_ops)
      1 idle_task
      (secondary_data_publish (hdr := arm64_headers) idle_task
         (two_core_state 1 0xA (2 ^ 64 - 1)))
    = Returns 0 st_b /\
    cpu_online 1 (set_cpu_online 1 true (update_cpu_boot_status 0 st_b))
    = true /\
    exists st',
      __cpu_up (hdr := arm64_headers) (cfg := hotplug_config)
        (all_cpus firmware_call_ops)
        (quiet_externals
           (fun st => set_cpu_online 1 true (update_cpu_boot_status 0 st)))
        1 idle_task (two_core_state 1 0xA (2 ^ 64 - 1))
      = Returns 0 st'.
Proof.
  eexists.
  assert (Hboot :
    boot_secondary (hdr := arm64_headers) (all_cpus firmware_call_ops)
      1 idle_task
      (secondary_data_publish (hdr := arm64_headers) idle_task
         (two_core_state 1 0xA (2 ^ 64 - 1)))
    = Returns 0 _) by (vm_compute; reflexivity).
  split; [exact Hboot|].
  split; [vm_compute; reflexivity|].
  apply (cpu_up_success_iff_online (hdr := arm64_headers)
           (cfg := hotplug_config) (all_cpus firmware_call_ops)
           (quiet_externals
              (fun st => set_cpu_online 1 true (update_cpu_boot_status 0 st)))
           1 idle_task _ _ arm64_headers_sane Hboot).
  vm_compute; reflexivity.
Defined.

(** C2, counterexample to the claim as worded: the boot operation refuses,
    [__cpu_up] returns, and the handoff block still names the idle task
    and its stack. *)
Lemma cpu_up_refused_keeps_handoff :
  exists st',
    __cpu_up (hdr := arm64_headers) (cfg := hotplug_config)
      (all_cpus refusing_ops) (quiet_externals (fun st => st))
      1 idle_task (two_core_state 1 0xA (2 ^ 64 - 1))
    = Returns (-22) st' /\
    task (secondary_data st') = Some (task_addr idle_task) /\
    stack (secondary_data st') = Some (0xffffffc000200000 + 16384 - 16) /\
    task (secondary_data st') <> None /\
    stack (secondary_data st') <> None.
Proof.
  eexists. split; [vm_compute; reflexivity|].
  split; [vm_compute; reflexivity|]. split; [vm_compute; reflexivity|].
  split; discriminate.
Qed.

(** C2 on an attempt that was released and then timed out. *)
Lemma cpu_up_handoff_cleared_witness :
  let sd :=
    secondary_data
      (final_state
         (__cpu_up (hdr := arm64_headers) (cfg := hotplug_config)
            (all_cpus kill_failing_ops)
            (quiet_externals (update_cpu_boot_status 1))
            1 idle_task (two_core_state 1 0xA (2 ^ 64 - 1)))) in
  task sd = None /\ stack sd = None.
Proof.
  assert (Hboot :
    boot_secondary (hdr := arm64_headers) (all_cpus kill_failing_ops)
      1 idle_task
      (secondary_data_publish (hdr := arm64_headers) idle_task
         (two_core_state 1 0xA (2 ^ 64 - 1)))
    = Returns 0
        (with_firmware_state 1%nat
           (secondary_data_publish (hdr := arm64_headers) idle_task
              (two_core_state 1 0xA (2 ^ 64 - 1)))))
    by (vm_compute; reflexivity).
  exact (proj1 (cpu_up_handoff_cleared (hdr := arm64_headers)
                  (cfg := hotplug_config) (all_cpus kill_failing_ops)
                  (quiet_externals (update_cpu_boot_status 1))
                  1 idle_task _ _ 0 Hboot) eq_refl).
Defined.

(** ** Hotplug disable *)

Section Hotplug.

Context {hdr : kernel_headers} {firmware : Type}.
Variable cpu_ops : Z -> option (@cpu_operations firmware).

Lemma with_firmware_state_same (st : @kstate firmware) :
  with_firmware_state (firmware_state st) st = st.
Proof. now destruct st. Qed.

(** The pre-disable check always answers, and only ever touches the
    firmware. *)
Lemma op_cpu_disable_returns cpu (st : @kstate firmware) :
  exists ret st1,
    op_cpu_disable cpu_ops cpu st = Returns ret st1 /\
    st1 = with_firmware_state (firmware_state st1) st.
Proof.
  unfold op_cpu_disable.
  destruct (cpu_ops cpu) as [ops|];
    [|do 2 eexists; split; [reflexivity|];
      now rewrite with_firmware_state_same].
  destruct (cpu_die ops);
    [|do 2 eexists; split; [reflexivity|];
      now rewrite with_firmware_state_same].
  destruct (cpu_disable ops) as [disable|];
    [|do 2 eexists; split; [reflexivity|];
      now rewrite with_firmware_state_same].
  destruct (disable cpu (firmware_state st)) as [ret fw].
  do 2 eexists; split; reflexivity.
Qed.

(** C8.  [__cpu_disable] fails with -EOPNOTSUPP, a non-zero code, when the
    core it runs on has no die operation, changing nothing.  Whenever the
    pre-disable check fails, [__cpu_disable] returns that code at once:
    the online mask and the log (hence interrupt ownership) are as before,
    and the only part of the state that can differ is the firmware's, as
    left by the platform's own disable hook. *)
Theorem cpu_disable_fails_early this_cpu (st : @kstate firmware) :
  headers_sane ->
  ((forall ops, cpu_ops this_cpu = Some ops -> cpu_die ops = None) ->
   __cpu_disable cpu_ops this_cpu st = Returns (- EOPNOTSUPP) st /\
   - EOPNOTSUPP <> 0) /\
  exists ret st1,
    op_cpu_disable cpu_ops this_cpu st = Returns ret st1 /\
    (ret <> 0 ->
     __cpu_disable cpu_ops this_cpu st = Returns ret st1 /\
     st1 = with_firmware_state (firmware_state st1) st /\
     cpu_online_mask st1 = cpu_online_mask st /\
     klog st1 = klog st).
Proof.
  intros Hsane.
  assert (Hno : - EOPNOTSUPP <> 0) by (unfold headers_sane in Hsane; lia).
  split.
  - intros Hdie. split; [|exact Hno].
    unfold __cpu_disable, op_cpu_disable.
    destruct (cpu_ops this_cpu) as [ops|].
    + rewrite (Hdie ops eq_refl). cbn.
      apply Z.eqb_neq in Hno. now rewrite Hno.
    + cbn. apply Z.eqb_neq in Hno. now rewrite Hno.
  - destruct (op_cpu_disable_returns this_cpu st) as (ret & st1 & Hop & Hfw).
    exists ret, st1. split; [exact Hop|].
    intros Hret. unfold __cpu_disable. rewrite Hop. cbn.
    apply Z.eqb_neq in Hret. rewrite Hret. cbn.
    split; [reflexivity|]. split; [exact Hfw|].
    rewrite Hfw. split; reflexivity.
Qed.

End Hotplug.

(** C8 on a spin-table platform, which has no die operation. *)
Lemma cpu_disable_fails_early_witness :
  (__cpu_disable (hdr := arm64_headers) (all_cpus spin_table_ops) 1
     (two_core_state 3 0xA (2 ^ 64 - 1))
   = Returns (-95) (two_core_state 3 0xA (2 ^ 64 - 1)) /\ -95 <> 0) /\
  exists ret st1,
    op_cpu_disable (hdr := arm64_headers) (all_cpus spin_table_ops) 1
      (two_core_state 3 0xA (2 ^ 64 - 1)) = Returns ret st1 /\
    (ret <> 0 ->
     __cpu_disable (hdr := arm64_headers) (all_cpus spin_table_ops) 1
       (two_core_state 3 0xA (2 ^ 64 - 1)) = Returns ret st1 /\
     st1 = with_firmware_state (firmware_state st1)
             (two_core_state 3 0xA (2 ^ 64 - 1)) /\
     cpu_online_mask st1 = 3 /\
     klog st1 = []).
Proof.
  destruct (cpu_disable_fails_early (hdr := arm64_headers)
              (all_cpus spin_table_ops) 1
              (two_core_state 3 0xA (2 ^ 64 - 1)) arm64_headers_sane)
    as [Hnodie Hfail].
  split; [|exact Hfail].
  apply Hnodie. intros ops [= <-]. reflexivity.
Defined.

(** The hook of the platform refuses (-EBUSY): the core stays online and
    no interrupt is migrated. *)
Lemma cpu_disable_hook_refuses :
  exists st1,
    __cpu_disable (hdr := arm64_headers) (all_cpus kill_failing_ops) 1
      (two_core_state 3 0xA (2 ^ 64 - 1)) = Returns (-16) st1 /\
    cpu_online 1 st1 = true /\ klog st1 = [] /\ firmware_state st1 = 1%nat.
Proof.
  eexists. split; [vm_compute; reflexivity|].
  repeat split; vm_compute; reflexivity.
Qed.

(** A disable that goes through takes the core offline and migrates its
    interrupts. *)
Lemma cpu_disable_goes_through :
  exists st1,
    __cpu_disable (hdr := arm64_headers) (all_cpus firmware_call_ops) 1
      (two_core_state 3 0xA (2 ^ 64 - 1)) = Returns 0 st1 /\
    cpu_online 1 st1 = false /\
    klog st1 = [ev_irq_migrate_all_off_this_cpu 1].
Proof.
  eexists. split; [vm_compute; reflexivity|].
  split; vm_compute; reflexivity.
Qed.

(** ** Stuck-core query *)

Section StuckQuery.

Context {cfg : kernel_config} {firmware : Type}.
Variable cpu_ops : Z -> option (@cpu_operations firmware).

(** [have_cpu_die] looks at the calling core only. *)
Lemma have_cpu_die_false this_cpu :
  have_cpu_die cpu_ops this_cpu = false <->
  CONFIG_HOTPLUG_CPU = false \/
  (forall ops, cpu_ops this_cpu = Some ops -> cpu_die ops = None).
Proof.
  unfold have_cpu_die. destruct CONFIG_HOTPLUG_CPU; [|tauto].
  destruct (cpu_ops this_cpu) as [ops|].
  - destruct (cpu_die ops) as [die|] eqn:Hdie.
    + split; [discriminate|]. intros [H|H]; [discriminate|].
      specialize (H ops eq_refl). congruence.
    + split; [|reflexivity]. intros _. right. intros ops' [= <-]. exact Hdie.
  - split; [|reflexivity]. intros _. right. discriminate.
Qed.

(** C5 (amended).  [cpus_are_stuck_in_kernel] returns true if and only if
    the stuck-core counter is non-zero, or more than one core is possible
    and the CALLING core has no die operation (which is always so without
    CONFIG_HOTPLUG_CPU); the other cores are not inspected.  In
    particular, with CONFIG_HOTPLUG_CPU, a die operation on every core and
    zero stuck cores it returns false. *)
Theorem cpus_are_stuck_in_kernel_iff this_cpu (st : @kstate firmware) :
  (cpus_are_stuck_in_kernel cpu_ops this_cpu st = true <->
   cpus_stuck_in_kernel st <> 0 \/
   (1 < num_possible_cpus st /\
    (CONFIG_HOTPLUG_CPU = false \/
     forall ops, cpu_ops this_cpu = Some ops -> cpu_die ops = None))) /\
  (CONFIG_HOTPLUG_CPU = true ->
   (forall cpu, exists ops die,
       cpu_ops cpu = Some ops /\ cpu_die ops = Some die) ->
   cpus_stuck_in_kernel st = 0 ->
   cpus_are_stuck_in_kernel cpu_ops this_cpu st = false).
Proof.
  assert (Hiff :
    cpus_are_stuck_in_kernel cpu_ops this_cpu st = true <->
    cpus_stuck_in_kernel st <> 0 \/
    (1 < num_possible_cpus st /\ have_cpu_die cpu_ops this_cpu = false)).
  { unfold cpus_are_stuck_in_kernel.
    rewrite orb_true_iff, andb_true_iff, negb_true_iff, negb_true_iff.
    rewrite Z.eqb_neq, Z.gtb_ltb, Z.ltb_lt. tauto. }
  split.
  - rewrite Hiff, have_cpu_die_false. tauto.
  - intros Hcfg Hall Hzero.
    apply not_true_is_false. intros Hq.
    apply Hiff in Hq. destruct Hq as [Hq|[_ Hq]]; [contradiction|].
    apply have_cpu_die_false in Hq. destruct Hq as [Hq|Hq]; [congruence|].
    destruct (Hall this_cpu) as (ops & die & Hops & Hdie).
    specialize (Hq ops Hops). congruence.
Qed.

End StuckQuery.

(** C5, counterexample to the claim as worded: no core is stuck and core 1
    has a die operation, so a die operation is available somewhere, yet
    the query run on core 0, which has none, answers true. *)
Lemma stuck_query_ignores_other_cores :
  cpus_are_stuck_in_kernel (cfg := hotplug_config) mixed_cpu_ops 0
    (two_core_state 3 0xA (2 ^ 64 - 1)) = true /\
  cpus_stuck_in_kernel (two_core_state 3 0xA (2 ^ 64 - 1)) = 0 /\
  num_possible_cpus (two_core_state 3 0xA (2 ^ 64 - 1)) = 2 /\
  cpumask_test_cpu 1 (cpu_possible_mask (two_core_state 3 0xA (2 ^ 64 - 1)))
  = true /\
  exists ops die, mixed_cpu_ops 1 = Some ops /\ cpu_die ops = Some die.
Proof.
  repeat split; try (vm_compute; reflexivity).
  do 2 eexists. split; reflexivity.
Qed.

(** C5 with a die operation on every core and no stuck core. *)
Lemma cpus_are_stuck_in_kernel_iff_witness :
  cpus_are_stuck_in_kernel (cfg := hotplug_config)
    (all_cpus firmware_call_ops) 0 (two_core_state 3 0xA (2 ^ 64 - 1))
  = false.
Proof.
  apply (cpus_are_stuck_in_kernel_iff (cfg := hotplug_config)
           (all_cpus firmware_call_ops) 0
           (two_core_state 3 0xA (2 ^ 64 - 1))).
  - reflexivity.
  - intros cpu. do 2 eexists. split; reflexivity.
  - reflexivity.
Defined.

(** ** IPI handling *)

Section IpiHandler.

Context {hdr : kernel_headers} {cfg : kernel_config} {firmware : Type}.
Variable ext : @externals firmware.

Lemma cpu_relax_forever_spins fuel (st : @kstate firmware) :
  exists st',
    cpu_relax_forever fuel st = Spins st' /\
    pending_ipi st' = pending_ipi st.
Proof.
  revert st. induction fuel as [|fuel IH]; intros st; cbn.
  - eauto.
  - destruct (IH (emit ev_cpu_relax st)) as (st' & Hspin & Hp).
    exists st'. split; [exact Hspin | exact Hp].
Qed.

(** The stop handler never hands control back. *)
Lemma ipi_cpu_stop_spins fuel cpu r (st : @kstate firmware) :
  exists st',
    ipi_cpu_stop fuel cpu r st = Spins st' /\
    pending_ipi st' = pending_ipi st.
Proof.
  unfold ipi_cpu_stop.
  match goal with
  | |- exists st', cpu_relax_forever fuel ?s = _ /\ _ =>
      destruct (cpu_relax_forever_spins fuel s) as (st' & Hspin & Hp)
  end.
  exists st'. split; [exact Hspin|]. rewrite Hp.
  destruct (system_state st); reflexivity.
Qed.

Lemma handle_IPI_stop_spins fuel this_cpu r (st : @kstate firmware) :
  exists st',
    handle_IPI ext fuel this_cpu IPI_CPU_STOP r st = Spins st' /\
    pending_ipi st' = pending_ipi st.
Proof.
  unfold handle_IPI, handle_IPI_dispatch.
  change (IPI_CPU_STOP =? IPI_RESCHEDULE) with false.
  change (IPI_CPU_STOP =? IPI_CALL_FUNC) with false.
  change (IPI_CPU_STOP =? IPI_CPU_STOP) with true.
  cbv iota.
  match goal with
  | |- exists st', bind (bind (ipi_cpu_stop fuel ?c ?r ?s) _) _ = _ /\ _ =>
      destruct (ipi_cpu_stop_spins fuel c r s) as (st' & Hspin & Hp)
  end.
  exists st'. rewrite Hspin. split; [reflexivity|]. rewrite Hp.
  destruct (wrap_uint IPI_CPU_STOP <? NR_IPI); reflexivity.
Qed.

(** Every other message is dispatched to a handler that returns. *)
Lemma handle_IPI_dispatch_returns fuel cpu ipinr r (st : @kstate firmware) :
  ipinr <> IPI_CPU_STOP ->
  exists st', handle_IPI_dispatch ext fuel cpu ipinr r st = Returns tt st'.
Proof.
  intros Hstop. apply Z.eqb_neq in Hstop.
  unfold handle_IPI_dispatch. rewrite Hstop.
  destruct (ipinr =? IPI_RESCHEDULE); [eauto|].
  destruct (ipinr =? IPI_CALL_FUNC); [eauto|].
  destruct (CONFIG_GENERIC_CLOCKEVENTS_BROADCAST && _); [eauto|].
  destruct (CONFIG_IRQ_WORK && _); [eauto|].
  destruct (ipinr =? IPI_WAKEUP); [eauto|].
  destruct (ipinr =? IPI_CPU_BACKTRACE); eauto.
Qed.

Lemma handle_IPI_returns fuel this_cpu ipinr r (st : @kstate firmware) :
  ipinr <> IPI_CPU_STOP ->
  exists st',
    handle_IPI ext fuel this_cpu ipinr r st = Returns tt st' /\
    pending_ipi st' this_cpu = false.
Proof.
  intros Hstop. unfold handle_IPI.
  match goal with
  | |- exists st', bind (handle_IPI_dispatch _ _ _ _ _ ?s) _ = _ /\ _ =>
      destruct (handle_IPI_dispatch_returns fuel this_cpu ipinr r s Hstop)
        as (st1 & Hret)
  end.
  rewrite Hret. cbn [bind]. eexists. split; [reflexivity|].
  cbn. unfold upd. now rewrite Z.eqb_refl.
Qed.

(** C3 (amended).  For every IPI number other than Stop, known or not,
    [handle_IPI] returns and has cleared the pending-IPI flag of the core
    it ran on.  For Stop it never returns, however long it is left to
    run, and the flag keeps the value it had on entry. *)
Theorem handle_IPI_clears_pending_unless_stop fuel this_cpu ipinr r
  (st : @kstate firmware) :
  (ipinr <> IPI_CPU_STOP ->
   exists st',
     handle_IPI ext fuel this_cpu ipinr r st = Returns tt st' /\
     pending_ipi st' this_cpu = false) /\
  (ipinr = IPI_CPU_STOP ->
   exists st',
     handle_IPI ext fuel this_cpu ipinr r st = Spins st' /\
     pending_ipi st' this_cpu = pending_ipi st this_cpu).
Proof.
  split.
  - apply handle_IPI_returns.
  - intros ->.
    destruct (handle_IPI_stop_spins fuel this_cpu r st) as (st' & H & Hp).
    exists st'. split; [exact H | now rewrite Hp].
Qed.

End IpiHandler.

(** C3, counterexample to the claim as worded: core 1 is sent a Stop, its
    pending flag is set, and no amount of running makes the handler
    return or clear the flag. *)
Lemma handle_IPI_stop_never_clears :
  pending_ipi
    (smp_cross_call_common (cpumask_of 1) IPI_CPU_STOP
       (two_core_state 3 0xA (2 ^ 64 - 1))) 1 = true /\
  forall fuel, exists st',
    handle_IPI (hdr := arm64_headers) (cfg := hotplug_config)
      (quiet_externals (fun st => st)) fuel 1 IPI_CPU_STOP no_regs
      (smp_cross_call_common (cpumask_of 1) IPI_CPU_STOP
         (two_core_state 3 0xA (2 ^ 64 - 1)))
    = Spins st' /\
    pending_ipi st' 1 = true.
Proof.
  split; [vm_compute; reflexivity|].
  intros fuel.
  destruct (handle_IPI_stop_spins (hdr := arm64_headers)
              (cfg := hotplug_config) (quiet_externals (fun st => st))
              fuel 1 no_regs
              (smp_cross_call_common (cpumask_of 1) IPI_CPU_STOP
                 (two_core_state 3 0xA (2 ^ 64 - 1))))
    as (st' & H & Hp).
  exists st'. split; [exact H|]. rewrite Hp. vm_compute; reflexivity.
Qed.

(** C3 for a Reschedule sent to core 1. *)
Lemma handle_IPI_clears_pending_unless_stop_witness :
  exists st',
    handle_IPI (hdr := arm64_headers) (cfg := hotplug_config)
      (quiet_externals (fun st => st)) 0 1 IPI_RESCHEDULE no_regs
      (smp_cross_call_common (cpumask_of 1) IPI_RESCHEDULE
         (two_core_state 3 0xA (2 ^ 64 - 1)))
    = Returns tt st' /\
    pending_ipi st' 1 = false.
Proof.
  apply (handle_IPI_clears_pending_unless_stop (hdr := arm64_headers)
           (cfg := hotplug_config) (quiet_externals (fun st => st))
           0 1 IPI_RESCHEDULE no_regs).
  discriminate.
Defined.

(** ** IPI broadcast *)

Section IpiBroadcast.

Context {firmware : Type}.

Lemma cpu_range_In n c : In c (cpu_range n) <-> 0 <= c < n.
Proof.
  unfold cpu_range. rewrite in_map_iff. split.
  - intros (k & <- & Hk). apply in_seq in Hk. lia.
  - intros Hc. exists (Z.to_nat c). split; [lia|]. apply in_seq. lia.
Qed.

(** The loop of [smp_cross_call_common] over a list of cores. *)
Lemma mark_pending_fold mask l (st : @kstate firmware) :
  let st' :=
    fold_left
      (fun s c =>
         if cpumask_test_cpu c mask
         then with_pending_ipi (upd (pending_ipi s) c true) s else s)
      l st in
  klog st' = klog st /\
  forall cpu,
    pending_ipi st' cpu = true <->
    pending_ipi st cpu = true \/ (In cpu l /\ Z.testbit mask cpu = true).
Proof.
  revert st. induction l as [|c l IH]; intros st; cbn.
  - split; [reflexivity|]. intros cpu. tauto.
  - match goal with
    | |- context [fold_left ?f l ?s] => destruct (IH s) as [Hlog Hp]
    end.
    split.
    + rewrite Hlog. destruct (cpumask_test_cpu c mask); reflexivity.
    + intros cpu. rewrite Hp.
      unfold cpumask_test_cpu.
      destruct (Z.testbit mask c) eqn:Hc; cbn; unfold upd.
      * destruct (Z.eqb_spec cpu c) as [->|Hne].
        -- intuition.
        -- intuition congruence.
      * intuition congruence.
Qed.

(** The common broadcast path: the flag of every core in the mask is set
    in the state in which the cross-call is then made, once. *)
Lemma smp_cross_call_common_marks_pending mask func (st : @kstate firmware) :
  exists st1,
    smp_cross_call_common mask func st = smp_cross_call mask func st1 /\
    klog st1 = klog st /\
    (forall cpu,
        pending_ipi st1 cpu = true <->
        pending_ipi st cpu = true \/
        (0 <= cpu < nr_cpu_ids st /\ Z.testbit mask cpu = true)) /\
    klog (smp_cross_call mask func st1) =
    klog st ++ [ev_trace_ipi_raise mask func; ev_smp_cross_call mask func] /\
    pending_ipi (smp_cross_call mask func st1) = pending_ipi st1.
Proof.
  unfold smp_cross_call_common, for_each_cpu.
  destruct (mark_pending_fold mask (cpu_range (nr_cpu_ids st)) st)
    as [Hlog Hp].
  eexists. split; [reflexivity|]. split; [exact Hlog|]. split.
  - intros cpu. rewrite Hp, cpu_range_In. tauto.
  - split; [|reflexivity]. cbn. rewrite Hlog, <- app_assoc. reflexivity.
Qed.

(** The backtrace request raises its cross-call without going through
    that path: it leaves every pending-IPI flag as it found it. *)
Lemma backtrace_request_pending_unchanged this_cpu (st : @kstate firmware) :
  pending_ipi (backtrace_request this_cpu st) = pending_ipi st.
Proof.
  unfold backtrace_request. cbn. destruct (negb _); reflexivity.
Qed.

Variable ext : @externals firmware.

(** The wait loop stops at the first delay after which the outstanding
    set is empty, and after [n] delays at the latest. *)
Lemma backtrace_wait_bounded n i (st : @kstate firmware) :
  exists k,
    (k <= n)%nat /\
    backtrace_wait ext n i st = backtrace_delays ext k i st /\
    ((k < n)%nat -> backtrace_mask (backtrace_delays ext k i st) = 0) /\
    (forall j, (j < k)%nat ->
               backtrace_mask (backtrace_delays ext j i st) <> 0).
Proof.
  revert i st. induction n as [|n IH]; intros i st.
  - exists O. cbn. split; [lia|]. split; [reflexivity|]. split; lia.
  - cbn [backtrace_wait]. unfold cpumask_empty.
    destruct (Z.eqb_spec (backtrace_mask st) 0) as [Hz|Hnz].
    + exists O. cbn. split; [lia|]. split; [reflexivity|].
      split; [intros _; exact Hz | lia].
    + destruct (IH (S i) (mdelay ext i st)) as (k & Hk & Hw & He & Hb).
      exists (S k). cbn [backtrace_delays].
      split; [lia|]. split; [exact Hw|]. split.
      * intros Hlt. apply He. lia.
      * intros [|j] Hj; cbn [backtrace_delays]; [exact Hnz|].
        apply Hb. lia.
Qed.

Lemma test_and_set_bit_held (st : @kstate firmware) :
  Z.testbit (backtrace_flag st) 0 = true ->
  with_backtrace_flag (Z.setbit (backtrace_flag st) 0) st = st.
Proof.
  intros Hset.
  assert (Hf : Z.setbit (backtrace_flag st) 0 = backtrace_flag st).
  { apply Z.bits_inj'. intros n Hn. rewrite Z.setbit_eqb by lia.
    destruct (Z.eqb_spec 0 n) as [<-|]; [now rewrite Hset | reflexivity]. }
  rewrite Hf. now destruct st.
Qed.

(** C9.  If the single-flight token is already set, the call returns with
    the state exactly as it was: no dump, outstanding set untouched.
    Otherwise it takes the token, makes the outstanding set the online
    cores minus the caller, dumps the caller, sends Backtrace to the
    outstanding set (no signal is raised when that set is empty), waits
    until the set is empty but for no more than 10 * 1000 delays of one
    millisecond, and releases the token when that path ends. *)
Theorem smp_send_all_cpu_backtrace_single_flight this_cpu
  (st : @kstate firmware) :
  (Z.testbit (backtrace_flag st) 0 = true ->
   smp_send_all_cpu_backtrace ext this_cpu st = st) /\
  (Z.testbit (backtrace_flag st) 0 = false ->
   let st1 :=
     backtrace_request this_cpu
       (with_backtrace_flag (Z.setbit (backtrace_flag st) 0) st) in
   Z.testbit (backtrace_flag st1) 0 = true /\
   backtrace_mask st1 = cpumask_clear_cpu this_cpu (cpu_online_mask st) /\
   klog st1 =
   klog st
   ++ [ev_printk KERN_INFO "Backtrace for cpu %d (current):\n"
         [arg_int this_cpu];
       ev_dump_stack;
       ev_printk KERN_INFO "\nsending IPI to all other CPUs:\n" []]
   ++ (if cpumask_empty (backtrace_mask st1) then []
       else [ev_trace_ipi_raise (backtrace_mask st1) IPI_CPU_BACKTRACE;
             ev_smp_cross_call (backtrace_mask st1) IPI_CPU_BACKTRACE]) /\
   exists k,
     (k <= 10 * 1000)%nat /\
     ((k < 10 * 1000)%nat ->
      backtrace_mask (backtrace_delays ext k 0 st1) = 0) /\
     (forall j, (j < k)%nat ->
                backtrace_mask (backtrace_delays ext j 0 st1) <> 0) /\
     smp_send_all_cpu_backtrace ext this_cpu st =
     with_backtrace_flag
       (Z.clearbit (backtrace_flag (backtrace_delays ext k 0 st1)) 0)
       (backtrace_delays ext k 0 st1) /\
     Z.testbit
       (backtrace_flag (smp_send_all_cpu_backtrace ext this_cpu st)) 0
     = false).
Proof.
  split.
  - intros Hset. unfold smp_send_all_cpu_backtrace. rewrite Hset.
    now apply test_and_set_bit_held.
  - intros Hfree st1.
    assert (Hflag : backtrace_flag st1 = Z.setbit (backtrace_flag st) 0).
    { subst st1. unfold backtrace_request. cbn.
      destruct (negb _); reflexivity. }
    assert (Hmask :
      backtrace_mask st1 = cpumask_clear_cpu this_cpu (cpu_online_mask st)).
    { subst st1. unfold backtrace_request. cbn.
      destruct (negb _); reflexivity. }
    split; [rewrite Hflag; apply Z.setbit_eq; lia|].
    split; [exact Hmask|]. split.
    + rewrite Hmask. subst st1. unfold backtrace_request. cbn.
      destruct (cpumask_empty _); cbn;
        repeat rewrite <- app_assoc; reflexivity.
    + destruct (backtrace_wait_bounded (10 * 1000) 0 st1)
        as (k & Hk & Hw & He & Hb).
      exists k. split; [exact Hk|]. split; [exact He|]. split; [exact Hb|].
      assert (Hrun :
        smp_send_all_cpu_backtrace ext this_cpu st =
        with_backtrace_flag
          (Z.clearbit (backtrace_flag (backtrace_delays ext k 0 st1)) 0)
          (backtrace_delays ext k 0 st1)).
      { unfold smp_send_all_cpu_backtrace. rewrite Hfree. cbv zeta.
        fold st1. rewrite Hw. reflexivity. }
      split; [exact Hrun|]. rewrite Hrun.
      cbn [with_backtrace_flag backtrace_flag]. apply Z.clearbit_eq.
Qed.

End IpiBroadcast.

(** C9: a call made while the token is held, and a call answered by
    core 1. *)
Lemma smp_send_all_cpu_backtrace_single_flight_witness :
  smp_send_all_cpu_backtrace (quiet_externals (fun st => st)) 1
    (with_backtrace_flag 1 (two_core_state 3 0xA (2 ^ 64 - 1)))
  = with_backtrace_flag 1 (two_core_state 3 0xA (2 ^ 64 - 1)) /\
  Z.testbit
    (backtrace_flag
       (smp_send_all_cpu_backtrace
          (quiet_externals
             (fun st =>
                final_state
                  (handle_IPI (hdr := arm64_headers) (cfg := hotplug_config)
                     (quiet_externals (fun s => s)) 0 1 IPI_CPU_BACKTRACE
                     no_regs st)))
          0 (two_core_state 3 0xA (2 ^ 64 - 1)))) 0
  = false.
Proof.
  split.
  - apply (smp_send_all_cpu_backtrace_single_flight
             (quiet_externals (fun st => st)) 1
             (with_backtrace_flag 1 (two_core_state 3 0xA (2 ^ 64 - 1)))).
    reflexivity.
  - destruct (proj2 (smp_send_all_cpu_backtrace_single_flight
                       (quiet_externals
                          (fun st =>
                             final_state
                               (handle_IPI (hdr := arm64_headers)
                                  (cfg := hotplug_config)
                                  (quiet_externals (fun s => s)) 0 1
                                  IPI_CPU_BACKTRACE no_regs st)))
                       0 (two_core_state 3 0xA (2 ^ 64 - 1))) eq_refl)
      as (_ & _ & _ & k & _ & _ & _ & _ & H).
    exact H.
Defined.

(** Core 1 answers during the first delay: the caller's log shows its own
    dump, the broadcast and the answer; the outstanding set is empty and
    the token free again. *)
Lemma backtrace_answered_after_one_delay :
  let st' :=
    smp_send_all_cpu_backtrace
      (quiet_externals
         (fun st =>
            final_state
              (handle_IPI (hdr := arm64_headers) (cfg := hotplug_config)
                 (quiet_externals (fun s => s)) 0 1 IPI_CPU_BACKTRACE
                 no_regs st)))
      0 (two_core_state 3 0xA (2 ^ 64 - 1)) in
  klog st' =
  [ev_printk KERN_INFO "Backtrace for cpu %d (current):\n" [arg_int 0];
   ev_dump_stack;
   ev_printk KERN_INFO "\nsending IPI to all other CPUs:\n" [];
   ev_trace_ipi_raise 2 IPI_CPU_BACKTRACE;
   ev_smp_cross_call 2 IPI_CPU_BACKTRACE;
   ev_trace_ipi_entry IPI_CPU_BACKTRACE;
   ev_raw_spin_lock backtrace_lock;
   ev_printk KERN_WARNING "IPI backtrace for cpu %d\n" [arg_int 1];
   ev_show_regs no_regs;
   ev_raw_spin_unlock backtrace_lock;
   ev_trace_ipi_exit IPI_CPU_BACKTRACE] /\
  backtrace_mask st' = 0 /\ backtrace_flag st' = 0.
Proof. vm_compute. repeat split. Qed.

(** C4.  The claim run on the code: cores 0 and 1 are online and core 0
    asks for a backtrace of all cores.  The cross-call is raised once, for
    core 1, but the pending-IPI flag of core 1 is not set, neither when
    the signal is raised nor when the call ends unanswered; sending the
    same mask and kind through [smp_cross_call_common], as every other
    sender does, sets it. *)
Lemma backtrace_broadcast_leaves_pending_clear :
  let st := two_core_state 3 0xA (2 ^ 64 - 1) in
  let st1 := backtrace_request 0 (with_backtrace_flag 1 st) in
  let st' := smp_send_all_cpu_backtrace (quiet_externals (fun s => s)) 0 st in
  backtrace_mask st1 = cpumask_of 1 /\
  klog st1 =
  [ev_printk KERN_INFO "Backtrace for cpu %d (current):\n" [arg_int 0];
   ev_dump_stack;
   ev_printk KERN_INFO "\nsending IPI to all other CPUs:\n" [];
   ev_trace_ipi_raise (cpumask_of 1) IPI_CPU_BACKTRACE;
   ev_smp_cross_call (cpumask_of 1) IPI_CPU_BACKTRACE] /\
  pending_ipi st1 1 = false /\
  klog st' = klog st1 /\
  pending_ipi st' 1 = false /\
  pending_ipi (smp_cross_call_common (cpumask_of 1) IPI_CPU_BACKTRACE st) 1
  = true.
Proof. vm_compute. repeat split. Qed.

(** ** Topology enumeration *)

Section Enumeration.

Context {hdr : kernel_headers} {firmware : Type}.

Lemma is_mpidr_duplicate_loop_sound fuel i cpu hwid (st : @kstate firmware) :
  is_mpidr_duplicate_loop fuel i cpu hwid st = true ->
  exists j, i <= j < cpu /\ j < NR_CPUS /\ cpu_logical_map j st = hwid.
Proof.
  revert i. induction fuel as [|fuel IH]; intros i; cbn; [discriminate|].
  destruct (Z.ltb_spec i cpu); [|discriminate].
  destruct (Z.ltb_spec i NR_CPUS); [|discriminate]. cbn.
  destruct (Z.eqb_spec (cpu_logical_map i st) hwid) as [Heq|].
  - intros _. exists i. split; [lia|]. split; [lia | exact Heq].
  - intros Hloop. destruct (IH _ Hloop) as (j & Hj & Hn & Hm).
    exists j. split; [lia|]. split; [lia | exact Hm].
Qed.

(** No earlier secondary entry holds the identifier: not a duplicate. *)
Lemma is_mpidr_duplicate_fresh cpu hwid (st : @kstate firmware) :
  (forall j, 1 <= j < cpu -> cpu_logical_map j st <> hwid) ->
  is_mpidr_duplicate cpu hwid st = false.
Proof.
  intros Hfresh. apply not_true_is_false. intros Hdup.
  apply is_mpidr_duplicate_loop_sound in Hdup.
  destruct Hdup as (j & Hj & _ & Hm). exact (Hfresh j Hj Hm).
Qed.

Lemma valid_hwid_checks hwid :
  valid_hwid hwid ->
  (Z.land hwid (not_u64 MPIDR_HWID_BITMASK) =? 0) = true /\
  (hwid =? INVALID_HWID) = false.
Proof.
  intros [Hbits Hinv]. split; [now apply Z.eqb_eq | now apply Z.eqb_neq].
Qed.

(** The three ways an enabled, valid, fresh MADT record is treated. *)
Lemma acpi_boot_record processor (st : @kstate firmware) :
  Z.land (flags processor) ACPI_MADT_ENABLED <> 0 ->
  valid_hwid (arm_mpidr processor) ->
  is_mpidr_duplicate (cpu_count st) (arm_mpidr processor) st = false ->
  cpu_logical_map 0 st = arm_mpidr processor ->
  acpi_map_gic_cpu_interface processor st =
  if bootcpu_valid st then
    pr_err "duplicate boot CPU MPIDR: 0x%llx in MADT\n"
      [arg_int (arm_mpidr processor)] st
  else emit (ev_early_map_cpu_to_node 0) (with_bootcpu_valid true st).
Proof.
  intros Hen Hvalid Hdup Hboot. unfold acpi_map_gic_cpu_interface.
  apply Z.eqb_neq in Hen. rewrite Hen.
  destruct (valid_hwid_checks _ Hvalid) as [-> ->]. cbn [negb orb].
  rewrite Hdup, Hboot, Z.eqb_refl. reflexivity.
Qed.

Lemma acpi_secondary_record processor (st : @kstate firmware) :
  Z.land (flags processor) ACPI_MADT_ENABLED <> 0 ->
  valid_hwid (arm_mpidr processor) ->
  is_mpidr_duplicate (cpu_count st) (arm_mpidr processor) st = false ->
  cpu_logical_map 0 st <> arm_mpidr processor ->
  cpu_count st < NR_CPUS ->
  acpi_map_gic_cpu_interface processor st =
  with_cpu_count (wrap_uint (cpu_count st + 1))
    (emit (ev_early_map_cpu_to_node (cpu_count st))
       (emit (ev_acpi_set_mailbox_entry (cpu_count st))
          (with_cpu_logical_map
             (upd (__cpu_logical_map st) (cpu_count st)
                (arm_mpidr processor)) st))).
Proof.
  intros Hen Hvalid Hdup Hboot Hroom. unfold acpi_map_gic_cpu_interface.
  apply Z.eqb_neq in Hen. rewrite Hen.
  destruct (valid_hwid_checks _ Hvalid) as [-> ->]. cbn [negb orb].
  rewrite Hdup. apply Z.eqb_neq in Hboot. rewrite Hboot.
  destruct (Z.geb_spec (cpu_count st) NR_CPUS); [lia|]. reflexivity.
Qed.


(** The same for one turn of the device-tree loop. *)
Lemma of_get_cpu_mpidr_valid dn hwid (st : @kstate firmware) :
  reg dn = Some hwid -> valid_hwid hwid ->
  of_get_cpu_mpidr dn st = (hwid, st).
Proof.
  intros Hreg Hvalid. unfold of_get_cpu_mpidr. rewrite Hreg.
  destruct (valid_hwid_checks _ Hvalid) as [-> _]. reflexivity.
Qed.

Lemma of_boot_node dn hwid (st : @kstate firmware) :
  reg dn = Some hwid -> valid_hwid hwid ->
  is_mpidr_duplicate (cpu_count st) hwid st = false ->
  cpu_logical_map 0 st = hwid ->
  of_parse_cpu_node dn st =
  if bootcpu_valid st then
    with_cpu_count (wrap_uint (cpu_count st + 1))
      (pr_err "%s: duplicate boot cpu reg property in DT\n"
         [arg_str (full_name dn)] st)
  else emit (ev_early_map_cpu_to_node 0) (with_bootcpu_valid true st).
Proof.
  intros Hreg Hvalid Hdup Hboot. unfold of_parse_cpu_node.
  rewrite (of_get_cpu_mpidr_valid dn hwid st Hreg Hvalid).
  destruct (valid_hwid_checks _ Hvalid) as [_ ->].
  rewrite Hdup, Hboot, Z.eqb_refl. reflexivity.
Qed.

Lemma of_secondary_node dn hwid (st : @kstate firmware) :
  reg dn = Some hwid -> valid_hwid hwid ->
  is_mpidr_duplicate (cpu_count st) hwid st = false ->
  cpu_logical_map 0 st <> hwid ->
  cpu_count st < NR_CPUS ->
  of_parse_cpu_node dn st =
  with_cpu_count (wrap_uint (cpu_count st + 1))
    (emit (ev_early_map_cpu_to_node (cpu_count st))
       (with_cpu_logical_map
          (upd (__cpu_logical_map st) (cpu_count st) hwid)
          (pr_debug "cpu logical map 0x%llx\n" [arg_int hwid] st))).
Proof.
  intros Hreg Hvalid Hdup Hboot Hroom. unfold of_parse_cpu_node.
  rewrite (of_get_cpu_mpidr_valid dn hwid st Hreg Hvalid).
  destruct (valid_hwid_checks _ Hvalid) as [_ ->].
  rewrite Hdup.
  assert (Hb : (hwid =? cpu_logical_map 0 st) = false)
    by (apply Z.eqb_neq; congruence).
  rewrite Hb.
  destruct (Z.geb_spec (cpu_count st) NR_CPUS); [lia|]. reflexivity.
Qed.


Lemma upd_same {A : Type} (f : Z -> A) i v : upd f i v i = v.
Proof. unfold upd. now rewrite Z.eqb_refl. Qed.

Lemma upd_other {A : Type} (f : Z -> A) i v j : j <> i -> upd f i v j = f j.
Proof. unfold upd. intros H. apply Z.eqb_neq in H. now rewrite H. Qed.

(** C6.  With room for a second core, the boot core known as 0xA and
    nothing enumerated yet, the records (0xA, enabled), (0xB, enabled),
    (0xA, enabled) leave logical index 0 bound to 0xA, bind index 1 to 0xB
    and nothing else, and set [bootcpu_valid].  The third record is
    dropped: all it leaves is an error message (and, on the device-tree
    path, a count of nodes seen), and the walk goes on with whatever
    records follow.  This holds for the MADT walk and for the device-tree
    walk. *)
Theorem enumerate_duplicate_boot_record madt_flags (st : @kstate firmware) :
  1 < NR_CPUS -> valid_hwid 0xA -> valid_hwid 0xB ->
  Z.land madt_flags ACPI_MADT_ENABLED <> 0 ->
  cpu_logical_map 0 st = 0xA ->
  bootcpu_valid st = false ->
  cpu_count st = 1 ->
  let acpi := acpi_table_parse_madt (madt_records madt_flags) st in
  let dt := of_parse_and_init_cpus dt_cpu_nodes st in
  (cpu_logical_map 0 acpi = 0xA /\ cpu_logical_map 1 acpi = 0xB /\
   (forall i, i <> 1 -> cpu_logical_map i acpi = cpu_logical_map i st) /\
   bootcpu_valid acpi = true /\ cpu_count acpi = 2 /\
   acpi =
   pr_err "duplicate boot CPU MPIDR: 0x%llx in MADT\n" [arg_int 0xA]
     (acpi_table_parse_madt (firstn 2 (madt_records madt_flags)) st) /\
   forall more,
     acpi_table_parse_madt (madt_records madt_flags ++ more) st
     = acpi_table_parse_madt more acpi) /\
  (cpu_logical_map 0 dt = 0xA /\ cpu_logical_map 1 dt = 0xB /\
   (forall i, i <> 1 -> cpu_logical_map i dt = cpu_logical_map i st) /\
   bootcpu_valid dt = true /\ cpu_count dt = 3 /\
   dt =
   with_cpu_count 3
     (pr_err "%s: duplicate boot cpu reg property in DT\n"
        [arg_str "/cpus/cpu@a2"]
        (of_parse_and_init_cpus (firstn 2 dt_cpu_nodes) st)) /\
   forall more,
     of_parse_and_init_cpus (dt_cpu_nodes ++ more) st
     = of_parse_and_init_cpus more dt).
Proof.
  intros Hroom HA HB Hen Hboot Hvalid Hcount acpi dt.
  assert (Hw : wrap_uint (1 + 1) = 2) by reflexivity.
  assert (Hw3 : wrap_uint (2 + 1) = 3) by reflexivity.
  split.
  - (* MADT *)
    set (A := {| arm_mpidr := 0xA; flags := madt_flags |}).
    set (B := {| arm_mpidr := 0xB; flags := madt_flags |}).
    assert (H1 : acpi_map_gic_cpu_interface A st
                 = emit (ev_early_map_cpu_to_node 0)
                     (with_bootcpu_valid true st)).
    { rewrite acpi_boot_record; try assumption.
      - now rewrite Hvalid.
      - apply is_mpidr_duplicate_fresh. intros j Hj. lia. }
    set (st1 := emit (ev_early_map_cpu_to_node 0)
                  (with_bootcpu_valid true st)) in *.
    assert (H2 : acpi_map_gic_cpu_interface B st1
                 = with_cpu_count 2
                     (emit (ev_early_map_cpu_to_node 1)
                        (emit (ev_acpi_set_mailbox_entry 1)
                           (with_cpu_logical_map
                              (upd (__cpu_logical_map st1) 1 0xB) st1)))).
    { rewrite acpi_secondary_record; try assumption.
      - change (cpu_count st1) with (cpu_count st). rewrite Hcount, Hw.
        reflexivity.
      - apply is_mpidr_duplicate_fresh.
        change (cpu_count st1) with (cpu_count st). intros j Hj. lia.
      - change (cpu_logical_map 0 st1) with (cpu_logical_map 0 st).
        rewrite Hboot. discriminate.
      - change (cpu_count st1) with (cpu_count st). lia. }
    set (st2 := with_cpu_count 2 _) in H2.
    assert (H3 : acpi_map_gic_cpu_interface A st2
                 = pr_err "duplicate boot CPU MPIDR: 0x%llx in MADT\n"
                     [arg_int 0xA] st2).
    { rewrite acpi_boot_record; try assumption.
      - reflexivity.
      - apply is_mpidr_duplicate_fresh.
        change (cpu_count st2) with 2. intros j Hj.
        assert (j = 1) by lia. subst j.
        change (cpu_logical_map 1 st2) with (upd (__cpu_logical_map st) 1 0xB 1).
        rewrite upd_same. discriminate. }
    assert (Hacpi : acpi
                    = pr_err "duplicate boot CPU MPIDR: 0x%llx in MADT\n"
                        [arg_int 0xA] st2).
    { subst acpi. unfold acpi_table_parse_madt, madt_records.
      cbn [fold_left]. fold A B. rewrite H1, H2, H3. reflexivity. }
    rewrite Hacpi.
    split; [|split; [|split; [|split; [|split; [|split]]]]].
    + change (upd (__cpu_logical_map st) 1 0xB 0 = 0xA).
      rewrite upd_other by discriminate. exact Hboot.
    + change (upd (__cpu_logical_map st) 1 0xB 1 = 0xB). apply upd_same.
    + intros i Hi.
      change (upd (__cpu_logical_map st) 1 0xB i = __cpu_logical_map st i).
      now apply upd_other.
    + reflexivity.
    + reflexivity.
    + unfold acpi_table_parse_madt, madt_records. cbn [firstn fold_left].
      fold A B. rewrite H1, H2. reflexivity.
    + intros more. rewrite <- Hacpi. subst acpi.
      unfold acpi_table_parse_madt. apply fold_left_app.
  - (* device tree *)
    set (A := {| full_name := "/cpus/cpu@a"; reg := Some 0xA |}).
    set (B := {| full_name := "/cpus/cpu@b"; reg := Some 0xB |}).
    set (A2 := {| full_name := "/cpus/cpu@a2"; reg := Some 0xA |}).
    assert (H1 : of_parse_cpu_node A st
                 = emit (ev_early_map_cpu_to_node 0)
                     (with_bootcpu_valid true st)).
    { rewrite (of_boot_node A 0xA); try assumption; try reflexivity.
      - now rewrite Hvalid.
      - apply is_mpidr_duplicate_fresh. intros j Hj. lia. }
    set (st1 := emit (ev_early_map_cpu_to_node 0)
                  (with_bootcpu_valid true st)) in *.
    assert (H2 : of_parse_cpu_node B st1
                 = with_cpu_count 2
                     (emit (ev_early_map_cpu_to_node 1)
                        (with_cpu_logical_map
                           (upd (__cpu_logical_map st1) 1 0xB)
                           (pr_debug "cpu logical map 0x%llx\n"
                              [arg_int 0xB] st1)))).
    { rewrite (of_secondary_node B 0xB); try assumption; try reflexivity.
      - change (cpu_count st1) with (cpu_count st). rewrite Hcount, Hw.
        reflexivity.
      - apply is_mpidr_duplicate_fresh.
        change (cpu_count st1) with (cpu_count st). intros j Hj. lia.
      - change (cpu_logical_map 0 st1) with (cpu_logical_map 0 st).
        rewrite Hboot. discriminate.
      - change (cpu_count st1) with (cpu_count st). lia. }
    set (st2 := with_cpu_count 2 _) in H2.
    assert (H3 : of_parse_cpu_node A2 st2
                 = with_cpu_count 3
                     (pr_err "%s: duplicate boot cpu reg property in DT\n"
                        [arg_str "/cpus/cpu@a2"] st2)).
    { rewrite (of_boot_node A2 0xA); try assumption; try reflexivity.
      - apply is_mpidr_duplicate_fresh.
        change (cpu_count st2) with 2. intros j Hj.
        assert (j = 1) by lia. subst j.
        change (cpu_logical_map 1 st2) with (upd (__cpu_logical_map st) 1 0xB 1).
        rewrite upd_same. discriminate. }
    assert (Hdt : dt
                  = with_cpu_count 3
                      (pr_err "%s: duplicate boot cpu reg property in DT\n"
                         [arg_str "/cpus/cpu@a2"] st2)).
    { subst dt. unfold of_parse_and_init_cpus, dt_cpu_nodes.
      cbn [fold_left]. fold A B A2. rewrite H1, H2, H3. reflexivity. }
    rewrite Hdt.
    split; [|split; [|split; [|split; [|split; [|split]]]]].
    + change (upd (__cpu_logical_map st) 1 0xB 0 = 0xA).
      rewrite upd_other by discriminate. exact Hboot.
    + change (upd (__cpu_logical_map st) 1 0xB 1 = 0xB). apply upd_same.
    + intros i Hi.
      change (upd (__cpu_logical_map st) 1 0xB i = __cpu_logical_map st i).
      now apply upd_other.
    + reflexivity.
    + reflexivity.
    + unfold of_parse_and_init_cpus, dt_cpu_nodes. cbn [firstn fold_left].
      fold A B. rewrite H1, H2. reflexivity.
    + intros more. rewrite <- Hdt. subst dt.
      unfold of_parse_and_init_cpus. apply fold_left_app.
Qed.

End Enumeration.

Lemma arm64_valid_hwid_A : valid_hwid (hdr := arm64_headers) 0xA.
Proof. split; [vm_compute; reflexivity | vm_compute; discriminate]. Qed.

Lemma arm64_valid_hwid_B : valid_hwid (hdr := arm64_headers) 0xB.
Proof. split; [vm_compute; reflexivity | vm_compute; discriminate]. Qed.

(** C6 with the header values of the arm64 tree. *)
Lemma enumerate_duplicate_boot_record_witness :
  let acpi :=
    acpi_table_parse_madt (hdr := arm64_headers) (madt_records 1)
      (two_core_state 1 0xA (2 ^ 64 - 1)) in
  let dt :=
    of_parse_and_init_cpus (hdr := arm64_headers) dt_cpu_nodes
      (two_core_state 1 0xA (2 ^ 64 - 1)) in
  (cpu_logical_map 0 acpi = 0xA /\ cpu_logical_map 1 acpi = 0xB /\
   bootcpu_valid acpi = true /\ cpu_count acpi = 2) /\
  (cpu_logical_map 0 dt = 0xA /\ cpu_logical_map 1 dt = 0xB /\
   bootcpu_valid dt = true /\ cpu_count dt = 3).
Proof.
  destruct (enumerate_duplicate_boot_record (hdr := arm64_headers) 1
              (two_core_state 1 0xA (2 ^ 64 - 1))
              ltac:(vm_compute; reflexivity)
              arm64_valid_hwid_A arm64_valid_hwid_B
              ltac:(vm_compute; discriminate)
              eq_refl eq_refl eq_refl)
    as [(a0 & a1 & _ & av & ac & _) (d0 & d1 & _ & dv & dc & _)].
  split; repeat split; assumption.
Defined.

(** What the two walks print and record in the scenario. *)
Lemma enumerate_duplicate_boot_record_logs :
  klog (acpi_table_parse_madt (hdr := arm64_headers) (madt_records 1)
          (two_core_state 1 0xA (2 ^ 64 - 1)))
  = [ev_early_map_cpu_to_node 0;
     ev_acpi_set_mailbox_entry 1;
     ev_early_map_cpu_to_node 1;
     ev_printk KERN_ERR "duplicate boot CPU MPIDR: 0x%llx in MADT\n"
       [arg_int 0xA]] /\
  klog (of_parse_and_init_cpus (hdr := arm64_headers) dt_cpu_nodes
          (two_core_state 1 0xA (2 ^ 64 - 1)))
  = [ev_early_map_cpu_to_node 0;
     ev_printk KERN_DEBUG "cpu logical map 0x%llx\n" [arg_int 0xB];
     ev_early_map_cpu_to_node 1;
     ev_printk KERN_ERR "%s: duplicate boot cpu reg property in DT\n"
       [arg_str "/cpus/cpu@a2"]].
Proof. split; vm_compute; reflexivity. Qed.

(** A record repeating a secondary identifier is dropped as well. *)
Lemma enumerate_duplicate_secondary_record :
  let st' :=
    acpi_table_parse_madt (hdr := arm64_headers)
      [ {| arm_mpidr := 0xA; flags := 1 |};
        {| arm_mpidr := 0xB; flags := 1 |};
        {| arm_mpidr := 0xB; flags := 1 |};
        {| arm_mpidr := 0xC; flags := 1 |} ]
      (two_core_state 1 0xA (2 ^ 64 - 1)) in
  map (fun i => cpu_logical_map i st') [0; 1; 2; 3]
  = [0xA; 0xB; 0xC; 2 ^ 64 - 1] /\
  cpu_count st' = 3 /\ bootcpu_valid st' = true.
Proof. vm_compute. repeat split. Qed.

(** ** Enumeration: what holds for every sequence of records *)

Section EnumerationInvariants.

Context {hdr : kernel_headers} {firmware : Type}.

Lemma is_mpidr_duplicate_loop_complete fuel i j cpu hwid
  (st : @kstate firmware) :
  i <= j < cpu -> j < NR_CPUS -> cpu_logical_map j st = hwid ->
  j - i < Z.of_nat fuel ->
  is_mpidr_duplicate_loop fuel i cpu hwid st = true.
Proof.
  revert i. induction fuel as [|fuel IH]; intros i Hij Hn Hm Hf; [lia|].
  cbn [is_mpidr_duplicate_loop].
  destruct (Z.ltb_spec i cpu); [|lia].
  destruct (Z.ltb_spec i NR_CPUS); [|lia]. cbn [andb].
  destruct (Z.eqb_spec (cpu_logical_map i st) hwid) as [|Hne]; [reflexivity|].
  assert (i <> j) by congruence.
  apply IH; try assumption; lia.
Qed.

(** [is_mpidr_duplicate] finds exactly the identifiers bound at an index
    from 1 up to, not including, both [cpu] and NR_CPUS. *)
Lemma is_mpidr_duplicate_spec cpu hwid (st : @kstate firmware) :
  is_mpidr_duplicate cpu hwid st = true <->
  exists j, 1 <= j < cpu /\ j < NR_CPUS /\ cpu_logical_map j st = hwid.
Proof.
  split.
  - apply is_mpidr_duplicate_loop_sound.
  - intros (j & Hj & Hn & Hm). unfold is_mpidr_duplicate.
    apply (is_mpidr_duplicate_loop_complete _ 1 j); try assumption; lia.
Qed.

(** X1.  [is_mpidr_duplicate] answers true exactly when some logical index
    from 1 up to, but not including, both [cpu] and NR_CPUS already holds
    the identifier: index 0, the boot core's, is never looked at. *)
Theorem is_mpidr_duplicate_iff cpu hwid (st : @kstate firmware) :
  is_mpidr_duplicate cpu hwid st = true <->
  exists j, 1 <= j < cpu /\ j < NR_CPUS /\ cpu_logical_map j st = hwid.
Proof. apply is_mpidr_duplicate_spec. Qed.

Lemma logical_map_unique_ext (st st' : @kstate firmware) :
  cpu_count st' = cpu_count st ->
  (forall i, cpu_logical_map i st' = cpu_logical_map i st) ->
  logical_map_unique st -> logical_map_unique st'.
Proof.
  intros Hc Hm (H1 & H2 & H3). unfold logical_map_unique.
  rewrite Hc. split; [exact H1|]. split.
  - intros i Hi. rewrite Hm. now apply H2.
  - intros i j Hij. rewrite !Hm. now apply H3.
Qed.

(** Binding a fresh identifier at index [cpu_count] keeps the map
    unique. *)
Lemma logical_map_unique_assign hwid (st st' : @kstate firmware) :
  logical_map_unique st ->
  hwid <> INVALID_HWID ->
  is_mpidr_duplicate (cpu_count st) hwid st = false ->
  cpu_logical_map 0 st <> hwid ->
  cpu_count st < NR_CPUS ->
  cpu_count st' = cpu_count st + 1 ->
  (forall i, cpu_logical_map i st'
             = upd (__cpu_logical_map st) (cpu_count st) hwid i) ->
  logical_map_unique st'.
Proof.
  intros (H1 & H2 & H3) Hinv Hdup Hboot Hroom Hc Hm.
  assert (Hfresh : forall k, 1 <= k < cpu_count st ->
                             cpu_logical_map k st <> hwid).
  { intros k Hk Heq.
    assert (Ht : is_mpidr_duplicate (cpu_count st) hwid st = true).
    { apply is_mpidr_duplicate_spec. exists k. split; [lia|].
      split; [lia | exact Heq]. }
    congruence. }
  unfold logical_map_unique. rewrite Hc. split; [lia|]. split.
  - intros i Hi. rewrite Hm, upd_other by lia. apply H2. lia.
  - intros i j Hij. rewrite !Hm.
    destruct (Z.eq_dec j (cpu_count st)) as [->|Hj].
    + rewrite upd_same, upd_other by lia. intros _.
      destruct (Z.eq_dec i 0) as [->|Hi]; [exact Hboot|].
      apply Hfresh. lia.
    + rewrite (upd_other _ _ _ j) by exact Hj. intros Hvalid.
      assert (j < cpu_count st).
      { destruct (Z.lt_ge_cases j (cpu_count st)) as [|Hge]; [assumption|].
        exfalso. apply Hvalid. apply H2. lia. }
      rewrite upd_other by lia. now apply H3.
Qed.

Lemma wrap_uint_small z : 0 <= z < 2 ^ 32 -> wrap_uint z = z.
Proof. intros Hz. unfold wrap_uint. now apply Z.mod_small. Qed.

(** What one MADT record can change: nothing but the log, or
    [bootcpu_valid], or one fresh binding at index [cpu_count]. *)
Lemma acpi_map_gic_cpu_interface_cases processor (st : @kstate firmware) :
  let st' := acpi_map_gic_cpu_interface processor st in
  (cpu_count st' = cpu_count st /\
   (forall i, cpu_logical_map i st' = cpu_logical_map i st) /\
   (bootcpu_valid st' = bootcpu_valid st \/
    bootcpu_valid st = false /\ bootcpu_valid st' = true /\
    madt_usable processor /\
    arm_mpidr processor = cpu_logical_map 0 st)) \/
  (madt_usable processor /\
   is_mpidr_duplicate (cpu_count st) (arm_mpidr processor) st = false /\
   cpu_logical_map 0 st <> arm_mpidr processor /\
   cpu_count st < NR_CPUS /\
   cpu_count st' = wrap_uint (cpu_count st + 1) /\
   bootcpu_valid st' = bootcpu_valid st /\
   forall i, cpu_logical_map i st'
             = upd (__cpu_logical_map st) (cpu_count st)
                 (arm_mpidr processor) i).
Proof.
  unfold acpi_map_gic_cpu_interface.
  destruct (Z.eqb_spec (Z.land (flags processor) ACPI_MADT_ENABLED) 0);
    [left; cbn; auto|].
  destruct (Z.eqb_spec (Z.land (arm_mpidr processor)
                          (not_u64 MPIDR_HWID_BITMASK)) 0);
    [|left; cbn; auto].
  destruct (Z.eqb_spec (arm_mpidr processor) INVALID_HWID);
    [left; cbn; auto|]. cbn [negb orb].
  assert (Hus : madt_usable processor) by (repeat split; assumption).
  destruct (is_mpidr_duplicate _ _ st) eqn:Hdup; [left; cbn; auto|].
  destruct (Z.eqb_spec (cpu_logical_map 0 st) (arm_mpidr processor)).
  - destruct (bootcpu_valid st) eqn:Hv; [left; cbn; auto|].
    left. cbn. split; [reflexivity|]. split; [reflexivity|].
    right. repeat split; try assumption; try apply Hus. congruence.
  - destruct (Z.geb_spec (cpu_count st) NR_CPUS); [left; cbn; auto|].
    right. cbn. repeat split; try assumption; apply Hus.
Qed.


Lemma acpi_map_gic_cpu_interface_unique processor (st : @kstate firmware) :
  NR_CPUS < 2 ^ 32 -> logical_map_unique st ->
  logical_map_unique (acpi_map_gic_cpu_interface processor st).
Proof.
  intros Hn Hu.
  destruct (acpi_map_gic_cpu_interface_cases processor st)
    as [(Hc & Hm & _)|(Hus & Hdup & Hboot & Hroom & Hc & _ & Hm)].
  - exact (logical_map_unique_ext _ _ Hc Hm Hu).
  - apply (logical_map_unique_assign (arm_mpidr processor) st);
      try assumption; [apply Hus|].
    rewrite Hc. apply wrap_uint_small. destruct Hu as (H1 & _). lia.
Qed.

Lemma logical_map_unique_distinct (st : @kstate firmware) :
  logical_map_unique st ->
  forall i j, 0 <= i -> 0 <= j -> i <> j ->
              cpu_logical_map i st <> INVALID_HWID ->
              cpu_logical_map j st <> INVALID_HWID ->
              cpu_logical_map i st <> cpu_logical_map j st.
Proof.
  intros (_ & _ & H3) i j Hi Hj Hij Hvi Hvj.
  destruct (Z.lt_ge_cases i j).
  - apply H3; [lia | exact Hvj].
  - intros Heq. symmetry in Heq. revert Heq. apply H3; [lia | exact Hvi].
Qed.

(** X2.  The MADT walk keeps hardware identifiers unique: started from a
    map in which no assigned identifier occurs twice, it ends, whatever
    the records (duplicates, disabled or invalid ones included), in a map
    in which any two different logical indices holding an identifier hold
    different ones. *)
Theorem acpi_walk_keeps_identifiers_unique madt (st : @kstate firmware) :
  NR_CPUS < 2 ^ 32 -> logical_map_unique st ->
  let st' := acpi_table_parse_madt madt st in
  logical_map_unique st' /\
  forall i j, 0 <= i -> 0 <= j -> i <> j ->
              cpu_logical_map i st' <> INVALID_HWID ->
              cpu_logical_map j st' <> INVALID_HWID ->
              cpu_logical_map i st' <> cpu_logical_map j st'.
Proof.
  intros Hn Hu st'.
  assert (Hu' : logical_map_unique st').
  { subst st'. unfold acpi_table_parse_madt. revert st Hu.
    induction madt as [|p madt IH]; intros st Hu; cbn [fold_left];
      [exact Hu|].
    apply IH. now apply acpi_map_gic_cpu_interface_unique. }
  split; [exact Hu' | now apply logical_map_unique_distinct].
Qed.

(** X3.  The MADT walk writes the logical map only at indices from the
    initial [cpu_count] up to NR_CPUS - 1: index 0 and every entry bound
    before are never overwritten, nothing is written at or past NR_CPUS,
    and [cpu_count] grows by at most one per record without ever passing
    NR_CPUS. *)
Theorem acpi_walk_writes_in_bounds madt (st : @kstate firmware) :
  NR_CPUS < 2 ^ 32 -> 1 <= cpu_count st <= NR_CPUS ->
  let st' := acpi_table_parse_madt madt st in
  cpu_count st <= cpu_count st' <= NR_CPUS /\
  cpu_count st' <= cpu_count st + Z.of_nat (List.length madt) /\
  cpu_logical_map 0 st' = cpu_logical_map 0 st /\
  forall i, i < cpu_count st \/ NR_CPUS <= i ->
            cpu_logical_map i st' = cpu_logical_map i st.
Proof.
  intros Hn Hc st'. subst st'. unfold acpi_table_parse_madt.
  assert (H : cpu_count st <= cpu_count (fold_left
                (fun s p => acpi_map_gic_cpu_interface p s) madt st)
              <= NR_CPUS /\
              cpu_count (fold_left
                (fun s p => acpi_map_gic_cpu_interface p s) madt st)
              <= cpu_count st + Z.of_nat (List.length madt) /\
              forall i, i < cpu_count st \/ NR_CPUS <= i ->
                cpu_logical_map i (fold_left
                  (fun s p => acpi_map_gic_cpu_interface p s) madt st)
                = cpu_logical_map i st).
  { revert st Hc. induction madt as [|p madt IH]; intros st Hc.
    - cbn. split; [lia|]. split; [lia|]. reflexivity.
    - cbn [fold_left List.length].
      destruct (acpi_map_gic_cpu_interface_cases p st)
        as [(Hc1 & Hm1 & _)|(_ & _ & _ & Hroom & Hc1 & _ & Hm1)].
      + destruct (IH (acpi_map_gic_cpu_interface p st)) as (Ha & Hb & Hd);
          [rewrite Hc1; exact Hc|].
        rewrite Hc1 in Ha, Hb, Hd. split; [exact Ha|]. split; [lia|].
        intros i Hi. rewrite Hd by exact Hi. apply Hm1.
      + rewrite wrap_uint_small in Hc1 by lia.
        destruct (IH (acpi_map_gic_cpu_interface p st)) as (Ha & Hb & Hd);
          [rewrite Hc1; lia|].
        rewrite Hc1 in Ha, Hb, Hd. split; [lia|]. split; [lia|].
        intros i Hi. rewrite Hd by lia. rewrite Hm1.
        rewrite upd_other by lia. reflexivity. }
  destruct H as (Ha & Hb & Hd). split; [exact Ha|]. split; [exact Hb|].
  split; [apply Hd; lia | exact Hd].
Qed.

Lemma acpi_walk_bootcpu_valid_monotone madt (st : @kstate firmware) :
  bootcpu_valid st = true ->
  bootcpu_valid (acpi_table_parse_madt madt st) = true.
Proof.
  unfold acpi_table_parse_madt. revert st.
  induction madt as [|p madt IH]; intros st Hv; cbn [fold_left];
    [exact Hv|].
  apply IH.
  destruct (acpi_map_gic_cpu_interface_cases p st)
    as [(_ & _ & [Hb|(Hf & _)])|(_ & _ & _ & _ & _ & Hb & _)];
    congruence.
Qed.

(** When the MADT walk validates the boot core. *)
Lemma acpi_walk_bootcpu_valid_spec madt (st : @kstate firmware) :
  NR_CPUS < 2 ^ 32 -> logical_map_unique st ->
  bootcpu_valid (acpi_table_parse_madt madt st) = true <->
  bootcpu_valid st = true \/
  exists processor,
    In processor madt /\ madt_usable processor /\
    arm_mpidr processor = cpu_logical_map 0 st.
Proof.
  intros Hn. revert st. induction madt as [|p madt IH]; intros st Hu.
  - cbn. split; [auto|]. intros [H|(q & [] & _)]. exact H.
  - assert (Hu1 := acpi_map_gic_cpu_interface_unique p st Hn Hu).
    assert (Hm0 : cpu_logical_map 0 (acpi_map_gic_cpu_interface p st)
                  = cpu_logical_map 0 st).
    { destruct (acpi_map_gic_cpu_interface_cases p st)
        as [(_ & Hm & _)|(_ & _ & _ & _ & _ & _ & Hm)]; [apply Hm|].
      rewrite Hm. destruct Hu as (H1 & _).
      rewrite upd_other by lia. reflexivity. }
    change (acpi_table_parse_madt (p :: madt) st)
      with (acpi_table_parse_madt madt (acpi_map_gic_cpu_interface p st)).
    rewrite (IH _ Hu1), Hm0. split.
    + intros [Hv|(q & Hin & Hq)].
      * destruct (acpi_map_gic_cpu_interface_cases p st)
          as [(_ & _ & [Hb|(_ & _ & Hus & Hid)])
             |(_ & _ & _ & _ & _ & Hb & _)].
        -- left. congruence.
        -- right. exists p. split; [now left | split; assumption].
        -- left. congruence.
      * right. exists q. split; [now right | exact Hq].
    + intros [Hv|(q & [->|Hin] & Hus & Hid)].
      * left.
        destruct (acpi_map_gic_cpu_interface_cases p st)
          as [(_ & _ & [Hb|(Hf & _)])|(_ & _ & _ & _ & _ & Hb & _)];
          congruence.
      * left. destruct Hus as [Hen Hval].
        assert (Hdup : is_mpidr_duplicate (cpu_count st) (arm_mpidr q) st
                       = false).
        { apply not_true_is_false. intros Hd.
          apply is_mpidr_duplicate_spec in Hd.
          destruct Hd as (j & Hj & _ & Hmj).
          destruct Hu as (_ & _ & H3).
          apply (H3 0 j); [lia | | congruence].
          rewrite Hmj. apply Hval. }
        rewrite (acpi_boot_record q st Hen Hval Hdup (eq_sym Hid)).
        destruct (bootcpu_valid st) eqn:Hv; [exact Hv | reflexivity].
      * right. exists q. split; [exact Hin | split; assumption].
Qed.



(** What one device-tree node can change: it is counted and at most
    logged, or it validates the boot core without being counted, or it is
    counted and bound at index [cpu_count]. *)
Lemma of_parse_cpu_node_cases dn (st : @kstate firmware) :
  let st' := of_parse_cpu_node dn st in
  (cpu_count st' = wrap_uint (cpu_count st + 1) /\
   bootcpu_valid st' = bootcpu_valid st /\
   forall i, cpu_logical_map i st' = cpu_logical_map i st) \/
  (cpu_count st' = cpu_count st /\
   bootcpu_valid st = false /\ bootcpu_valid st' = true /\
   forall i, cpu_logical_map i st' = cpu_logical_map i st) \/
  (exists hwid,
      hwid <> INVALID_HWID /\
      is_mpidr_duplicate (cpu_count st) hwid st = false /\
      cpu_logical_map 0 st <> hwid /\
      cpu_count st < NR_CPUS /\
      cpu_count st' = wrap_uint (cpu_count st + 1) /\
      bootcpu_valid st' = bootcpu_valid st /\
      forall i, cpu_logical_map i st'
                = upd (__cpu_logical_map st) (cpu_count st) hwid i).
Proof.
  unfold of_parse_cpu_node, of_get_cpu_mpidr.
  destruct (reg dn) as [hwid|].
  - destruct (Z.eqb_spec (Z.land hwid (not_u64 MPIDR_HWID_BITMASK)) 0);
      cbn [negb].
    + destruct (Z.eqb_spec hwid INVALID_HWID); [left; cbn; auto|].
      destruct (is_mpidr_duplicate _ hwid st) eqn:Hdup; [left; cbn; auto|].
      destruct (Z.eqb_spec hwid (cpu_logical_map 0 st)).
      * destruct (bootcpu_valid st) eqn:Hv; [left; cbn; auto|].
        right; left. cbn. auto.
      * destruct (Z.geb_spec (cpu_count st) NR_CPUS); [left; cbn; auto|].
        right; right. exists hwid. cbn.
        repeat split; try assumption; try congruence.
    + rewrite Z.eqb_refl. left; cbn; auto.
  - rewrite Z.eqb_refl. left; cbn; auto.
Qed.

Lemma of_walk_invariants cpus (st : @kstate firmware) :
  logical_map_unique st ->
  cpu_count st + Z.of_nat (List.length cpus) < 2 ^ 32 ->
  let st' := of_parse_and_init_cpus cpus st in
  logical_map_unique st' /\
  (forall i, i < cpu_count st \/ NR_CPUS <= i ->
             cpu_logical_map i st' = cpu_logical_map i st) /\
  cpu_count st' + Z.b2z (bootcpu_valid st')
  = cpu_count st + Z.b2z (bootcpu_valid st) + Z.of_nat (List.length cpus) /\
  (bootcpu_valid st = true -> bootcpu_valid st' = true).
Proof.
  unfold of_parse_and_init_cpus. revert st.
  induction cpus as [|dn cpus IH]; intros st Hu Hlen.
  - cbn. split; [exact Hu|]. split; [reflexivity|]. split; [lia | auto].
  - cbn [fold_left List.length] in *.
    assert (H1 : 1 <= cpu_count st) by apply Hu.
    destruct (of_parse_cpu_node_cases dn st)
      as [(Hc & Hb & Hm)|[(Hc & Hf & Ht & Hm)
         |(hwid & Hv & Hdup & Hboot & Hroom & Hc & Hb & Hm)]].
    + rewrite wrap_uint_small in Hc by lia.
      assert (Hu1 : logical_map_unique (of_parse_cpu_node dn st)).
      { destruct Hu as (Ha & Hb2 & Hc2). unfold logical_map_unique.
        rewrite Hc. split; [lia|]. split.
        - intros i Hi. rewrite Hm. apply Hb2. lia.
        - intros i j Hij. rewrite !Hm. now apply Hc2. }
      destruct (IH _ Hu1) as (Ia & Ib & Ic & Id); [rewrite Hc; lia|].
      split; [exact Ia|]. split.
      * intros i Hi. rewrite Ib by (rewrite Hc; lia). apply Hm.
      * split; [rewrite Ic, Hc, Hb; lia|]. intros Hv. apply Id. congruence.
    + assert (Hu1 : logical_map_unique (of_parse_cpu_node dn st))
        by exact (logical_map_unique_ext _ _ Hc Hm Hu).
      destruct (IH _ Hu1) as (Ia & Ib & Ic & Id); [rewrite Hc; lia|].
      split; [exact Ia|]. split.
      * intros i Hi. rewrite Ib by (rewrite Hc; lia). apply Hm.
      * split; [|intros _; now apply Id].
        rewrite Ic, Hc, Hf, Ht. cbn. lia.
    + rewrite wrap_uint_small in Hc by lia.
      assert (Hu1 : logical_map_unique (of_parse_cpu_node dn st))
        by (apply (logical_map_unique_assign hwid st); assumption).
      destruct (IH _ Hu1) as (Ia & Ib & Ic & Id); [rewrite Hc; lia|].
      split; [exact Ia|]. split.
      * intros i Hi. rewrite Ib by (rewrite Hc; lia). rewrite Hm.
        rewrite upd_other by lia. reflexivity.
      * split; [rewrite Ic, Hc, Hb; lia|]. intros Hv2. apply Id. congruence.
Qed.

(** X5.  The device-tree walk keeps hardware identifiers unique as well,
    never overwrites index 0 or an entry bound before, and writes nothing
    at or past NR_CPUS, provided the count of nodes seen stays below
    2^32, where the [unsigned int cpu_count] would wrap. *)
Theorem of_walk_keeps_identifiers_unique cpus (st : @kstate firmware) :
  logical_map_unique st ->
  cpu_count st + Z.of_nat (List.length cpus) < 2 ^ 32 ->
  let st' := of_parse_and_init_cpus cpus st in
  (forall i j, 0 <= i -> 0 <= j -> i <> j ->
               cpu_logical_map i st' <> INVALID_HWID ->
               cpu_logical_map j st' <> INVALID_HWID ->
               cpu_logical_map i st' <> cpu_logical_map j st') /\
  cpu_logical_map 0 st' = cpu_logical_map 0 st /\
  forall i, i < cpu_count st \/ NR_CPUS <= i ->
            cpu_logical_map i st' = cpu_logical_map i st.
Proof.
  intros Hu Hlen st'.
  destruct (of_walk_invariants cpus st Hu Hlen) as (Ia & Ib & _ & _).
  fold st' in Ia, Ib. split; [now apply logical_map_unique_distinct|].
  split; [|exact Ib]. apply Ib. destruct Hu as (H1 & _). lia.
Qed.

(** X6.  The device-tree walk counts every node it is given, dropped ones
    included, except the one node that validates the boot core: the
    growth of [cpu_count] plus the change of [bootcpu_valid] equals the
    number of nodes.  (The MADT walk, by X3, counts bound records
    only.) *)
Theorem of_walk_counts_every_node cpus (st : @kstate firmware) :
  logical_map_unique st ->
  cpu_count st + Z.of_nat (List.length cpus) < 2 ^ 32 ->
  let st' := of_parse_and_init_cpus cpus st in
  cpu_count st' + Z.b2z (bootcpu_valid st')
  = cpu_count st + Z.b2z (bootcpu_valid st) + Z.of_nat (List.length cpus) /\
  (bootcpu_valid st = true -> bootcpu_valid st' = true).
Proof.
  intros Hu Hlen st'.
  destruct (of_walk_invariants cpus st Hu Hlen) as (_ & _ & Ic & Id).
  split; assumption.
Qed.

End EnumerationInvariants.

Lemma two_core_state_unique online :
  logical_map_unique (hdr := arm64_headers)
    (two_core_state online 0xA (2 ^ 64 - 1)).
Proof.
  unfold logical_map_unique. cbn [cpu_count two_core_state].
  split; [lia|]. split.
  - intros i Hi. unfold cpu_logical_map. cbn.
    destruct (Z.eqb_spec i 0); [lia | reflexivity].
  - intros i j Hij Hv. exfalso. apply Hv. unfold cpu_logical_map. cbn.
    destruct (Z.eqb_spec j 0); [lia | reflexivity].
Qed.

(** X2 on a table that repeats a secondary identifier and the boot
    core's. *)
Lemma acpi_walk_keeps_identifiers_unique_witness :
  let st' :=
    acpi_table_parse_madt (hdr := arm64_headers)
      (madt_records 1 ++ [ {| arm_mpidr := 0xB; flags := 1 |} ])
      (two_core_state 1 0xA (2 ^ 64 - 1)) in
  logical_map_unique (hdr := arm64_headers) st' /\
  forall i j, 0 <= i -> 0 <= j -> i <> j ->
              cpu_logical_map i st' <> 2 ^ 64 - 1 ->
              cpu_logical_map j st' <> 2 ^ 64 - 1 ->
              cpu_logical_map i st' <> cpu_logical_map j st'.
Proof.
  apply (acpi_walk_keeps_identifiers_unique (hdr := arm64_headers)
           (madt_records 1 ++ [ {| arm_mpidr := 0xB; flags := 1 |} ])
           (two_core_state 1 0xA (2 ^ 64 - 1))).
  - vm_compute. reflexivity.
  - apply two_core_state_unique.
Defined.

Lemma acpi_walk_writes_in_bounds_witness :
  let st' :=
    acpi_table_parse_madt (hdr := arm64_headers) (madt_records 1)
      (two_core_state 1 0xA (2 ^ 64 - 1)) in
  1 <= cpu_count st' <= 8 /\
  cpu_count st' <= 1 + 3 /\
  cpu_logical_map 0 st' = 0xA /\
  forall i, i < 1 \/ 8 <= i ->
            cpu_logical_map i st'
            = cpu_logical_map i (two_core_state 1 0xA (2 ^ 64 - 1)).
Proof.
  apply (acpi_walk_writes_in_bounds (hdr := arm64_headers) (madt_records 1)
           (two_core_state 1 0xA (2 ^ 64 - 1))).
  - vm_compute. reflexivity.
  - vm_compute. split; discriminate.
Defined.


Lemma of_walk_keeps_identifiers_unique_witness :
  let st' :=
    of_parse_and_init_cpus (hdr := arm64_headers) dt_cpu_nodes
      (two_core_state 1 0xA (2 ^ 64 - 1)) in
  (forall i j, 0 <= i -> 0 <= j -> i <> j ->
               cpu_logical_map i st' <> 2 ^ 64 - 1 ->
               cpu_logical_map j st' <> 2 ^ 64 - 1 ->
               cpu_logical_map i st' <> cpu_logical_map j st') /\
  cpu_logical_map 0 st' = 0xA /\
  forall i, i < 1 \/ 8 <= i ->
            cpu_logical_map i st'
            = cpu_logical_map i (two_core_state 1 0xA (2 ^ 64 - 1)).
Proof.
  apply (of_walk_keeps_identifiers_unique (hdr := arm64_headers)
           dt_cpu_nodes (two_core_state 1 0xA (2 ^ 64 - 1))).
  - apply two_core_state_unique.
  - vm_compute. reflexivity.
Defined.

Lemma of_walk_counts_every_node_witness :
  let st' :=
    of_parse_and_init_cpus (hdr := arm64_headers) dt_cpu_nodes
      (two_core_state 1 0xA (2 ^ 64 - 1)) in
  cpu_count st' + Z.b2z (bootcpu_valid st') = 1 + 0 + 3 /\
  (bootcpu_valid (two_core_state 1 0xA (2 ^ 64 - 1)) = true ->
   bootcpu_valid st' = true).
Proof.
  apply (of_walk_counts_every_node (hdr := arm64_headers)
           dt_cpu_nodes (two_core_state 1 0xA (2 ^ 64 - 1))).
  - apply two_core_state_unique.
  - vm_compute. reflexivity.
Defined.

(** ** Setting up the enumerated cores *)

Section InitCpus.

Context {hdr : kernel_headers} {firmware : Type}.
Variable cpu_ops : Z -> option (@cpu_operations firmware).
Variable ENODEV : Z.
Variable CONFIG_ACPI : bool.
Variable cpu_read_ops : Z -> Z.

(** The walks touch neither the firmware nor the possible mask. *)
Lemma acpi_walk_frame madt (st : @kstate firmware) :
  let st' := acpi_table_parse_madt madt st in
  firmware_state st' = firmware_state st /\
  cpu_possible_mask st' = cpu_possible_mask st /\
  nr_cpu_ids st' = nr_cpu_ids st.
Proof.
  unfold acpi_table_parse_madt. revert st.
  induction madt as [|p madt IH]; intros st; cbn [fold_left]; [auto|].
  destruct (IH (acpi_map_gic_cpu_interface p st)) as (-> & -> & ->).
  unfold acpi_map_gic_cpu_interface.
  repeat match goal with
         | |- context [if ?c then _ else _] => destruct c
         end; cbn; auto.
Qed.

Lemma of_walk_frame cpus (st : @kstate firmware) :
  let st' := of_parse_and_init_cpus cpus st in
  firmware_state st' = firmware_state st /\
  cpu_possible_mask st' = cpu_possible_mask st /\
  nr_cpu_ids st' = nr_cpu_ids st.
Proof.
  unfold of_parse_and_init_cpus. revert st.
  induction cpus as [|dn cpus IH]; intros st; cbn [fold_left]; [auto|].
  destruct (IH (of_parse_cpu_node dn st)) as (-> & -> & ->).
  unfold of_parse_cpu_node, of_get_cpu_mpidr.
  destruct (reg dn);
    repeat match goal with
           | |- context [if ?c then _ else _] => destruct c
           end; cbn; auto.
Qed.

Lemma set_cpu_possible_bits cpu j (st : @kstate firmware) :
  0 <= cpu ->
  cpu_possible j (set_cpu_possible cpu true st)
  = (cpu =? j) || cpu_possible j st.
Proof.
  intros Hc. unfold cpu_possible, set_cpu_possible, cpumask_test_cpu,
    cpumask_set_cpu. cbn. now apply Z.setbit_eqb.
Qed.

(** One turn of the setup loop. *)
Lemma smp_init_cpu_step i (st : @kstate firmware) :
  0 < ENODEV -> 0 <= i ->
  (forall c, cpu_read_ops c = 0 -> exists ops, cpu_ops c = Some ops) ->
  exists st',
    smp_init_cpu cpu_ops ENODEV cpu_read_ops i st = Returns tt st' /\
    nr_cpu_ids st' = nr_cpu_ids st /\
    bootcpu_valid st' = bootcpu_valid st /\
    (forall j, j <> i -> cpu_logical_map j st' = cpu_logical_map j st) /\
    (cpu_logical_map i st' <> INVALID_HWID ->
     cpu_logical_map i st' = cpu_logical_map i st /\
     cpu_possible i st' = true /\ cpu_read_ops i = 0) /\
    (forall j, cpu_possible j st = true -> cpu_possible j st' = true).
Proof.
  intros Hno Hi Hops. unfold smp_init_cpu.
  destruct (Z.eqb_spec (cpu_logical_map i st) INVALID_HWID) as [Hinv|Hv];
    cbn [negb].
  { eexists. split; [reflexivity|]. repeat split; auto. congruence. }
  unfold smp_cpu_setup.
  assert (Hne : (- ENODEV =? 0) = false) by (apply Z.eqb_neq; lia).
  destruct (Z.eqb_spec (cpu_read_ops i) 0) as [Hr|Hr]; cbn [negb].
  - destruct (Hops i Hr) as [ops ->].
    destruct (cpu_init ops i (firmware_state st)) as [ret fw].
    destruct (Z.eqb_spec ret 0) as [->|Hret]; cbn [negb bind].
    + eexists. split; [reflexivity|]. repeat split; auto.
      * rewrite set_cpu_possible_bits by exact Hi.
        now rewrite Z.eqb_refl.
      * intros j Hj. rewrite set_cpu_possible_bits by exact Hi.
        unfold cpu_possible in *. cbn. rewrite Hj. apply orb_true_r.
    + rewrite Hne. cbn [negb]. eexists. split; [reflexivity|].
      split; [reflexivity|]. split; [reflexivity|]. split.
      * intros j Hj. unfold cpu_logical_map. cbn.
        now rewrite upd_other.
      * split; [|auto]. unfold cpu_logical_map. cbn.
        rewrite upd_same. congruence.
  - cbn [bind]. rewrite Hne. cbn [negb]. eexists. split; [reflexivity|].
    split; [reflexivity|]. split; [reflexivity|]. split.
    * intros j Hj. unfold cpu_logical_map. cbn. now rewrite upd_other.
    * split; [|auto]. unfold cpu_logical_map. cbn.
      rewrite upd_same. congruence.
Qed.

Lemma smp_init_cpus_loop_spec l (st : @kstate firmware) :
  0 < ENODEV -> NoDup l -> (forall i, In i l -> 0 <= i) ->
  (forall c, cpu_read_ops c = 0 -> exists ops, cpu_ops c = Some ops) ->
  exists st',
    smp_init_cpus_loop cpu_ops ENODEV cpu_read_ops l st = Returns tt st' /\
    nr_cpu_ids st' = nr_cpu_ids st /\
    bootcpu_valid st' = bootcpu_valid st /\
    (forall j, ~ In j l -> cpu_logical_map j st' = cpu_logical_map j st) /\
    (forall j, In j l -> cpu_logical_map j st' <> INVALID_HWID ->
               cpu_logical_map j st' = cpu_logical_map j st /\
               cpu_possible j st' = true /\ cpu_read_ops j = 0) /\
    (forall j, cpu_possible j st = true -> cpu_possible j st' = true).
Proof.
  intros Hno Hnd Hpos Hops. revert st.
  induction l as [|i l IH]; intros st.
  - eexists. split; [reflexivity|]. split; [reflexivity|].
    split; [reflexivity|]. split; [reflexivity|].
    split; [intros j []|auto].
  - inversion Hnd as [|? ? Hnotin Hnd']; subst.
    destruct (smp_init_cpu_step i st Hno (Hpos i (or_introl eq_refl)) Hops)
      as (st1 & Hstep & Hn1 & Hb1 & Hm1 & Hi1 & Hp1).
    destruct (IH Hnd' (fun j Hj => Hpos j (or_intror Hj)) st1)
      as (st' & Hloop & Hn & Hb & Hm & Hi & Hp).
    exists st'. cbn [smp_init_cpus_loop]. rewrite Hstep. cbn [bind].
    split; [exact Hloop|]. split; [congruence|]. split; [congruence|].
    split; [|split].
    + intros j Hj. rewrite Hm by (intros Hin; apply Hj; now right).
      apply Hm1. intros ->. apply Hj. now left.
    + intros j [<-|Hj] Hv.
      * rewrite (Hm i Hnotin) in Hv |- *.
        destruct (Hi1 Hv) as (Ha & Hb2 & Hc). auto.
      * destruct (Hi j Hj Hv) as (Ha & Hb2 & Hc).
        split; [|auto]. rewrite Ha. apply Hm1. intros ->. contradiction.
    + auto.
Qed.

Lemma secondary_range_In n i : In i (secondary_range n) <-> 1 <= i < n.
Proof.
  unfold secondary_range. rewrite in_map_iff. split.
  - intros (k & <- & Hk). apply in_seq in Hk. lia.
  - intros Hi. exists (Z.to_nat i). split; [lia|]. apply in_seq. lia.
Qed.

Lemma secondary_range_NoDup n : NoDup (secondary_range n).
Proof.
  unfold secondary_range. generalize (seq_NoDup (Z.to_nat n - 1) 1).
  induction (seq 1 (Z.to_nat n - 1)) as [|a l IH]; intros Hnd; cbn.
  - constructor.
  - inversion Hnd as [|? ? Hnotin Hnd']; subst. constructor; [|auto].
    rewrite in_map_iff. intros (b & Hb & Hin).
    assert (b = a) by lia. subst b. contradiction.
Qed.

(** X7.  [smp_init_cpus] returns (provided a core whose operations were
    read has an operations table).  If the boot core was not validated,
    no initialisation hook has run: firmware state and possible mask are
    those on entry.  If it was, every secondary index below [nr_cpu_ids]
    that still holds an identifier is marked possible and had its
    operations read: an index whose operations could not be read no
    longer holds one. *)
Theorem smp_init_cpus_marks_possible acpi_disabled cpus madt
  (st : @kstate firmware) :
  0 < ENODEV ->
  (forall c, cpu_read_ops c = 0 -> exists ops, cpu_ops c = Some ops) ->
  exists st',
    smp_init_cpus cpu_ops ENODEV CONFIG_ACPI cpu_read_ops
      acpi_disabled cpus madt st = Returns tt st' /\
    (bootcpu_valid st' = false ->
     firmware_state st' = firmware_state st /\
     cpu_possible_mask st' = cpu_possible_mask st) /\
    (bootcpu_valid st' = true ->
     forall i, 1 <= i < nr_cpu_ids st' ->
               cpu_logical_map i st' <> INVALID_HWID ->
               cpu_possible i st' = true /\ cpu_read_ops i = 0).
Proof.
  intros Hno Hops. unfold smp_init_cpus.
  set (st1 := if acpi_disabled then of_parse_and_init_cpus cpus st
              else if CONFIG_ACPI then acpi_table_parse_madt madt st
                   else st).
  assert (Hf1 : firmware_state st1 = firmware_state st /\
                cpu_possible_mask st1 = cpu_possible_mask st).
  { subst st1. destruct acpi_disabled.
    - destruct (of_walk_frame cpus st) as (? & ? & _). auto.
    - destruct CONFIG_ACPI; [|auto].
      destruct (acpi_walk_frame madt st) as (? & ? & _). auto. }
  set (st2 := if cpu_count st1 >? nr_cpu_ids st1 then _ else st1).
  assert (Hf2 : firmware_state st2 = firmware_state st /\
                cpu_possible_mask st2 = cpu_possible_mask st).
  { subst st2. destruct (cpu_count st1 >? nr_cpu_ids st1); exact Hf1. }
  destruct (bootcpu_valid st2) eqn:Hv; cbn [negb].
  - destruct (smp_init_cpus_loop_spec (secondary_range (nr_cpu_ids st2)) st2
                Hno (secondary_range_NoDup _)) as
      (st' & Hloop & Hn & Hb & _ & Hi & _); [|exact Hops|].
    { intros i Hi. apply secondary_range_In in Hi. lia. }
    exists st'. split; [exact Hloop|]. split; [congruence|].
    intros _ i Hrange Hvalid. rewrite Hn in Hrange.
    destruct (Hi i (proj2 (secondary_range_In _ i) Hrange) Hvalid)
      as (_ & Hp & Hr).
    auto.
  - eexists. split; [reflexivity|]. cbn. split; [|congruence].
    intros _. exact Hf2.
Qed.

(** X8.  When the MADT holds no enabled record with a valid MPIDR that
    names the boot core, [smp_init_cpus] on the ACPI path enables no
    secondary: it ends with the error "missing boot CPU MPIDR", having
    called no initialisation hook and marked no core possible, however
    many secondaries the table lists. *)
Theorem smp_init_cpus_without_boot_cpu cpus madt (st : @kstate firmware) :
  NR_CPUS < 2 ^ 32 -> logical_map_unique st ->
  CONFIG_ACPI = true ->
  bootcpu_valid st = false ->
  (forall processor, In processor madt -> madt_usable processor ->
                     arm_mpidr processor <> cpu_logical_map 0 st) ->
  exists st',
    smp_init_cpus cpu_ops ENODEV CONFIG_ACPI cpu_read_ops
      false cpus madt st = Returns tt st' /\
    firmware_state st' = firmware_state st /\
    cpu_possible_mask st' = cpu_possible_mask st /\
    exists before,
      klog st' =
      before ++ [ev_printk KERN_ERR
                   "missing boot CPU MPIDR, not enabling secondaries\n" []].
Proof.
  intros Hn Hu Hacpi Hv Hnone. unfold smp_init_cpus. rewrite Hacpi.
  assert (Hb : bootcpu_valid (acpi_table_parse_madt madt st) = false).
  { apply not_true_is_false. intros Ht.
    apply (acpi_walk_bootcpu_valid_spec madt st Hn Hu) in Ht.
    destruct Ht as [Ht|(p & Hin & Hus & Hid)]; [congruence|].
    exact (Hnone p Hin Hus Hid). }
  destruct (acpi_walk_frame madt st) as (Hf & Hp & _).
  set (st1 := acpi_table_parse_madt madt st) in *.
  destruct (cpu_count st1 >? nr_cpu_ids st1); cbn [bootcpu_valid pr_warn emit
    with_klog]; rewrite Hb; cbn [negb];
    (eexists; split; [reflexivity|]; cbn; split; [exact Hf|];
     split; [exact Hp|]; eexists; reflexivity).
Qed.

End InitCpus.

(** X7 on a table of four cores, the operations of core 2 being
    unreadable. *)
Lemma smp_init_cpus_marks_possible_witness :
  exists st',
    smp_init_cpus (hdr := arm64_headers) (all_cpus firmware_call_ops)
      19 true read_ops_but_2 false []
      [ {| arm_mpidr := 0xA; flags := 1 |};
        {| arm_mpidr := 0xB; flags := 1 |};
        {| arm_mpidr := 0xC; flags := 1 |};
        {| arm_mpidr := 0xD; flags := 1 |} ]
      (four_core_state 1 1) = Returns tt st' /\
    (bootcpu_valid st' = false ->
     firmware_state st' = O /\ cpu_possible_mask st' = 1) /\
    (bootcpu_valid st' = true ->
     forall i, 1 <= i < nr_cpu_ids st' ->
               cpu_logical_map i st' <> 2 ^ 64 - 1 ->
               cpu_possible i st' = true /\ read_ops_but_2 i = 0).
Proof.
  apply (smp_init_cpus_marks_possible (hdr := arm64_headers)
           (all_cpus firmware_call_ops) 19 true read_ops_but_2 false []
           [ {| arm_mpidr := 0xA; flags := 1 |};
             {| arm_mpidr := 0xB; flags := 1 |};
             {| arm_mpidr := 0xC; flags := 1 |};
             {| arm_mpidr := 0xD; flags := 1 |} ]
           (four_core_state 1 1)).
  - reflexivity.
  - intros c _. eexists. reflexivity.
Defined.

(** The same run, evaluated: core 2 is invalidated, cores 1 and 3 are
    possible, and two initialisation hooks have run. *)
Lemma smp_init_cpus_four_cores :
  exists st',
    smp_init_cpus (hdr := arm64_headers) (all_cpus firmware_call_ops)
      19 true read_ops_but_2 false []
      [ {| arm_mpidr := 0xA; flags := 1 |};
        {| arm_mpidr := 0xB; flags := 1 |};
        {| arm_mpidr := 0xC; flags := 1 |};
        {| arm_mpidr := 0xD; flags := 1 |} ]
      (four_core_state 1 1) = Returns tt st' /\
    map (fun i => cpu_logical_map i st') [0; 1; 2; 3]
    = [0xA; 0xB; 2 ^ 64 - 1; 0xD] /\
    cpu_possible_mask st' = 11 /\ firmware_state st' = 2%nat.
Proof.
  eexists. split; [vm_compute; reflexivity|].
  repeat split; vm_compute; reflexivity.
Qed.

Lemma four_core_state_unique online active :
  logical_map_unique (hdr := arm64_headers) (four_core_state online active).
Proof.
  unfold logical_map_unique. cbn [cpu_count four_core_state].
  split; [lia|]. split.
  - intros i Hi. unfold cpu_logical_map. cbn.
    destruct (Z.eqb_spec i 0); [lia | reflexivity].
  - intros i j Hij Hv. exfalso. apply Hv. unfold cpu_logical_map. cbn.
    destruct (Z.eqb_spec j 0); [lia | reflexivity].
Qed.

(** X8 on a table that lists two secondaries and not the boot core. *)
Lemma smp_init_cpus_without_boot_cpu_witness :
  exists st',
    smp_init_cpus (hdr := arm64_headers) (all_cpus firmware_call_ops)
      19 true read_ops_but_2 false []
      [ {| arm_mpidr := 0xB; flags := 1 |};
        {| arm_mpidr := 0xC; flags := 1 |} ]
      (four_core_state 1 1) = Returns tt st' /\
    firmware_state st' = O /\
    cpu_possible_mask st' = 1 /\
    exists before,
      klog st' =
      before ++ [ev_printk KERN_ERR
                   "missing boot CPU MPIDR, not enabling secondaries\n" []].
Proof.
  apply (smp_init_cpus_without_boot_cpu (hdr := arm64_headers)
           (all_cpus firmware_call_ops) 19 true read_ops_but_2 []
           [ {| arm_mpidr := 0xB; flags := 1 |};
             {| arm_mpidr := 0xC; flags := 1 |} ]
           (four_core_state 1 1)).
  - vm_compute. reflexivity.
  - apply four_core_state_unique.
  - reflexivity.
  - reflexivity.
  - intros p [<-|[<-|[]]] _; vm_compute; discriminate.
Defined.

(** ** Bring-up: the other ways an attempt ends *)

Section BringUpRest.

Context {hdr : kernel_headers} {cfg : kernel_config} {firmware : Type}.
Variable cpu_ops : Z -> option (@cpu_operations firmware).
Variable ext : @externals firmware.

Lemma wrap_int_small z : - 2 ^ 31 <= z < 2 ^ 31 -> wrap_int z = z.
Proof. intros Hz. unfold wrap_int. rewrite Z.mod_small; lia. Qed.

Lemma secondary_data_clear_frame (st : @kstate firmware) :
  status (secondary_data (secondary_data_clear st))
  = status (secondary_data st) /\
  firmware_state (secondary_data_clear st) = firmware_state st /\
  cpus_stuck_in_kernel (secondary_data_clear st) = cpus_stuck_in_kernel st /\
  klog (secondary_data_clear st) = klog st.
Proof. cbn. auto. Qed.

(** X9.  A timed-out attempt whose BootStatus reads StuckInKernel returns
    -EIO, reports StuckInKernel, attempts no kill (the firmware is left
    alone) and adds one to the stuck-core counter; from then on
    [cpus_are_stuck_in_kernel] answers true on every core.  The counter
    is an [int]: the statement is for values below its maximum. *)
Theorem cpu_up_stuck_in_kernel cpu idle (st st_b : @kstate firmware) :
  headers_sane ->
  boot_secondary cpu_ops cpu idle (secondary_data_publish idle st)
  = Returns 0 st_b ->
  let st_w := wait_for_completion_timeout ext st_b in
  cpu_online cpu st_w = false ->
  boot_status_readback st_w = CPU_STUCK_IN_KERNEL ->
  0 <= cpus_stuck_in_kernel st_w < 2 ^ 31 - 1 ->
  exists st',
    __cpu_up cpu_ops ext cpu idle st = Returns (- EIO) st' /\
    klog st' = klog (failed_to_come_online cpu st_w) ++ [StuckInKernel cpu] /\
    cpus_stuck_in_kernel st' = cpus_stuck_in_kernel st_w + 1 /\
    firmware_state st' = firmware_state st_w /\
    forall any_cpu, cpus_are_stuck_in_kernel cpu_ops any_cpu st' = true.
Proof.
  intros Hsane Hboot st_w Hoff Hrb Hcnt.
  rewrite (cpu_up_released cpu_ops ext _ _ _ _ Hboot). cbv zeta.
  fold st_w. rewrite Hoff.
  destruct (failed_to_come_online_frame cpu st_w) as (Hs & He & Hf & Hc).
  unfold cpu_up_classify.
  rewrite boot_status_readback_failed, Hrb.
  set (st_f := failed_to_come_online cpu st_w) in *. clearbody st_f.
  cbn [secondary_data_clear with_secondary_data secondary_data status].
  rewrite Hs.
  unfold headers_sane in Hsane.
  assert (Hio : (- EIO =? 0) = false) by (apply Z.eqb_neq; lia).
  assert (Hst : (status (secondary_data st_w) =? 0) = false).
  { apply Z.eqb_neq. unfold boot_status_readback in Hrb.
    destruct (Z.eqb_spec (status (secondary_data st_w)) CPU_MMU_OFF); lia. }
  rewrite Hio, Hst. cbn [negb andb].
  destruct (Z.eqb_spec CPU_STUCK_IN_KERNEL CPU_KILL_ME); [lia|].
  rewrite Z.eqb_refl. eexists. split; [reflexivity|].
  cbn -[wrap_int].
  split; [reflexivity|]. rewrite Hc, Hf.
  split; [apply wrap_int_small; lia|]. split; [reflexivity|].
  intros any_cpu. unfold cpus_are_stuck_in_kernel.
  cbn -[wrap_int num_possible_cpus have_cpu_die].
  rewrite wrap_int_small by lia.
  destruct (Z.eqb_spec (cpus_stuck_in_kernel st_w + 1) 0); [lia|].
  reflexivity.
Qed.

(** X10.  A timed-out attempt whose BootStatus reads none of KillMe,
    StuckInKernel and PanicKernel returns -EIO without attempting a kill
    and without touching the stuck-core counter.  The value read back is
    logged as an unknown state, unless the status word reads zero (the
    core reported success and yet is not online): then nothing is logged
    beyond the failure to come online. *)
Theorem cpu_up_unclassified_failure cpu idle (st st_b : @kstate firmware) :
  headers_sane ->
  boot_secondary cpu_ops cpu idle (secondary_data_publish idle st)
  = Returns 0 st_b ->
  let st_w := wait_for_completion_timeout ext st_b in
  cpu_online cpu st_w = false ->
  boot_status_readback st_w <> CPU_KILL_ME ->
  boot_status_readback st_w <> CPU_STUCK_IN_KERNEL ->
  boot_status_readback st_w <> CPU_PANIC_KERNEL ->
  exists st',
    __cpu_up cpu_ops ext cpu idle st = Returns (- EIO) st' /\
    klog st' =
    klog (failed_to_come_online cpu st_w)
    ++ (if status (secondary_data st_w) =? 0 then []
        else [ev_printk KERN_ERR "CPU%u: failed in unknown state : 0x%lx\n"
                [arg_int cpu; arg_int (boot_status_readback st_w)]]) /\
    cpus_stuck_in_kernel st' = cpus_stuck_in_kernel st_w /\
    firmware_state st' = firmware_state st_w.
Proof.
  intros Hsane Hboot st_w Hoff Hk Hs Hp.
  rewrite (cpu_up_released cpu_ops ext _ _ _ _ Hboot). cbv zeta.
  fold st_w. rewrite Hoff.
  destruct (failed_to_come_online_frame cpu st_w) as (Hst & He & Hf & Hc).
  unfold cpu_up_classify.
  rewrite boot_status_readback_failed.
  set (st_f := failed_to_come_online cpu st_w) in *. clearbody st_f.
  cbn [secondary_data_clear with_secondary_data secondary_data status].
  rewrite Hst.
  unfold headers_sane in Hsane.
  assert (Hio : (- EIO =? 0) = false) by (apply Z.eqb_neq; lia).
  rewrite Hio. cbn [negb andb].
  destruct (status (secondary_data st_w) =? 0); cbn [negb].
  - eexists. split; [reflexivity|]. cbn.
    rewrite app_nil_r. auto.
  - apply Z.eqb_neq in Hk, Hs, Hp. rewrite Hk, Hs, Hp.
    eexists. split; [reflexivity|]. cbn. auto.
Qed.

(** X11.  On a core whose operations have no boot hook, [__cpu_up] fails
    with -EOPNOTSUPP at once: it never waits, leaves the firmware, the
    online mask and the stuck-core counter as they were, logs the refusal
    and leaves the BootStatus word at MmuOff. *)
Theorem cpu_up_without_boot_hook cpu ops idle (st : @kstate firmware) :
  headers_sane ->
  cpu_ops cpu = Some ops -> cpu_boot ops = None ->
  exists st',
    __cpu_up cpu_ops ext cpu idle st = Returns (- EOPNOTSUPP) st' /\
    - EOPNOTSUPP <> 0 /\
    klog st' =
    klog st ++ [ev_flush_dcache_secondary_data;
                BootRefused cpu (- EOPNOTSUPP)] /\
    firmware_state st' = firmware_state st /\
    cpu_online_mask st' = cpu_online_mask st /\
    cpus_stuck_in_kernel st' = cpus_stuck_in_kernel st /\
    status (secondary_data st') = CPU_MMU_OFF.
Proof.
  intros Hsane Hops Hboot.
  assert (Hno : - EOPNOTSUPP <> 0) by (unfold headers_sane in Hsane; lia).
  assert (Hb : boot_secondary cpu_ops cpu idle
                 (secondary_data_publish idle st)
               = Returns (- EOPNOTSUPP) (secondary_data_publish idle st)).
  { unfold boot_secondary. now rewrite Hops, Hboot. }
  rewrite (cpu_up_refused cpu_ops ext _ _ _ _ _ Hb Hno).
  eexists. split; [reflexivity|]. split; [exact Hno|]. cbn.
  rewrite <- app_assoc. repeat split.
Qed.

End BringUpRest.

(** X9 on a platform whose secondary reports StuckInKernel. *)
Lemma cpu_up_stuck_in_kernel_witness :
  exists st',
    __cpu_up (hdr := arm64_headers) (cfg := hotplug_config)
      (all_cpus firmware_call_ops)
      (quiet_externals (update_cpu_boot_status 2))
      1 idle_task (two_core_state 1 0xA (2 ^ 64 - 1))
    = Returns (-5) st' /\
    klog st' =
    [ev_flush_dcache_secondary_data;
     ev_printk KERN_CRIT "CPU%u: failed to come online\n" [arg_int 1];
     StuckInKernel 1] /\
    cpus_stuck_in_kernel st' = 0 + 1 /\
    firmware_state st' = 1%nat /\
    forall any_cpu,
      cpus_are_stuck_in_kernel (cfg := hotplug_config)
        (all_cpus firmware_call_ops) any_cpu st' = true.
Proof.
  apply (cpu_up_stuck_in_kernel (hdr := arm64_headers)
           (cfg := hotplug_config) (all_cpus firmware_call_ops)
           (quiet_externals (update_cpu_boot_status 2))
           1 idle_task (two_core_state 1 0xA (2 ^ 64 - 1))
           (with_firmware_state 1%nat
              (secondary_data_publish (hdr := arm64_headers) idle_task
                 (two_core_state 1 0xA (2 ^ 64 - 1))))
           arm64_headers_sane).
  - vm_compute. reflexivity.
  - vm_compute. reflexivity.
  - vm_compute. reflexivity.
  - vm_compute. split; [discriminate | reflexivity].
Defined.

(** X10 on a platform whose secondary never leaves MmuOff, the early
    status word reading zero. *)
Lemma cpu_up_unclassified_failure_witness :
  exists st',
    __cpu_up (hdr := arm64_headers) (cfg := hotplug_config)
      (all_cpus firmware_call_ops) (quiet_externals (fun st => st))
      1 idle_task (two_core_state 1 0xA (2 ^ 64 - 1))
    = Returns (-5) st' /\
    klog st' =
    [ev_flush_dcache_secondary_data;
     ev_printk KERN_CRIT "CPU%u: failed to come online\n" [arg_int 1];
     ev_printk KERN_ERR "CPU%u: failed in unknown state : 0x%lx\n"
       [arg_int 1; arg_int 0]] /\
    cpus_stuck_in_kernel st' = 0 /\
    firmware_state st' = 1%nat.
Proof.
  apply (cpu_up_unclassified_failure (hdr := arm64_headers)
           (cfg := hotplug_config) (all_cpus firmware_call_ops)
           (quiet_externals (fun st => st))
           1 idle_task (two_core_state 1 0xA (2 ^ 64 - 1))
           (with_firmware_state 1%nat
              (secondary_data_publish (hdr := arm64_headers) idle_task
                 (two_core_state 1 0xA (2 ^ 64 - 1))))
           arm64_headers_sane).
  - vm_compute. reflexivity.
  - vm_compute. reflexivity.
  - vm_compute. discriminate.
  - vm_compute. discriminate.
  - vm_compute. discriminate.
Defined.

(** X11 on a core whose operations lack the boot hook. *)
Lemma cpu_up_without_boot_hook_witness :
  exists st',
    __cpu_up (hdr := arm64_headers) (cfg := hotplug_config)
      (all_cpus no_boot_ops) (quiet_externals (fun st => st))
      1 idle_task (two_core_state 1 0xA (2 ^ 64 - 1))
    = Returns (-95) st' /\
    -95 <> 0 /\
    klog st' = [ev_flush_dcache_secondary_data; BootRefused 1 (-95)] /\
    firmware_state st' = O /\
    cpu_online_mask st' = 1 /\
    cpus_stuck_in_kernel st' = 0 /\
    status (secondary_data st') = -1.
Proof.
  apply (cpu_up_without_boot_hook (hdr := arm64_headers)
           (cfg := hotplug_config) (all_cpus no_boot_ops)
           (quiet_externals (fun st => st)) 1 no_boot_ops idle_task
           (two_core_state 1 0xA (2 ^ 64 - 1)) arm64_headers_sane);
    reflexivity.
Defined.

(** ** Hotplug: taking a core down *)

Section HotplugRest.

Context {hdr : kernel_headers} {cfg : kernel_config} {firmware : Type}.
Variable cpu_ops : Z -> option (@cpu_operations firmware).
Variable cpu_wait_death :
  Z -> Z -> @kstate firmware -> bool * @kstate firmware.

(** X12.  When the pre-disable check passes, [__cpu_disable] returns 0
    having cleared the online bit of the core it runs on and of no other
    core, and having asked once for the interrupts of that core to be
    migrated away; the active mask is not its business. *)
Theorem cpu_disable_takes_offline this_cpu (st st1 : @kstate firmware) :
  op_cpu_disable cpu_ops this_cpu st = Returns 0 st1 ->
  exists st',
    __cpu_disable cpu_ops this_cpu st = Returns 0 st' /\
    cpu_online this_cpu st' = false /\
    (forall c, c <> this_cpu -> cpu_online c st' = cpu_online c st) /\
    klog st' = klog st ++ [ev_irq_migrate_all_off_this_cpu this_cpu] /\
    cpu_active_mask st' = cpu_active_mask st /\
    firmware_state st' = firmware_state st1.
Proof.
  intros Hop.
  destruct (op_cpu_disable_returns cpu_ops this_cpu st)
    as (ret & st1' & Hop' & Hfw).
  rewrite Hop in Hop'. injection Hop' as <- <-.
  unfold __cpu_disable. rewrite Hop. cbn [bind Z.eqb negb].
  eexists. split; [reflexivity|]. rewrite Hfw.
  unfold cpu_online, cpumask_test_cpu. cbn.
  split; [apply Z.clearbit_eq|]. split; [|auto].
  intros c Hc. apply Z.clearbit_neq. congruence.
Qed.

Lemma op_cpu_kill_masks cpu (st : @kstate firmware) :
  let st' := final_state (op_cpu_kill cpu_ops cpu st) in
  cpu_online_mask st' = cpu_online_mask st /\
  cpu_active_mask st' = cpu_active_mask st.
Proof.
  unfold op_cpu_kill.
  destruct CONFIG_HOTPLUG_CPU; [|cbn; auto].
  destruct (cpu_ops cpu) as [ops|]; [|cbn; auto].
  destruct (cpu_kill ops) as [kill|]; [|cbn; auto].
  destruct (kill cpu (firmware_state st)); cbn; auto.
Qed.

(** X13.  [__cpu_die] never escalates.  If the core did not report its
    death within the five seconds, it is logged and the kill confirmation
    is not attempted.  If it did, the kill confirmation is attempted once
    and a failure is only logged as a warning.  Either way the call
    returns and leaves the stuck-core counter and the online mask as the
    wait left them. *)
Theorem cpu_die_never_escalates cpu ops (st st_d : @kstate firmware) died :
  cpu_ops cpu = Some ops ->
  cpu_wait_death cpu 5 st = (died, st_d) ->
  exists st',
    __cpu_die cpu_ops cpu_wait_death cpu st = Returns tt st' /\
    cpus_stuck_in_kernel st' = cpus_stuck_in_kernel st_d /\
    cpu_online_mask st' = cpu_online_mask st_d /\
    (died = false ->
     firmware_state st' = firmware_state st_d /\
     klog st' =
     klog st_d
     ++ [ev_printk KERN_CRIT "CPU%u: cpu didn't die\n" [arg_int cpu]]) /\
    (died = true ->
     exists err st_k,
       op_cpu_kill cpu_ops cpu
         (pr_debug "CPU%u: shutdown\n" [arg_int cpu] st_d)
       = Returns err st_k /\
       firmware_state st' = firmware_state st_k /\
       klog st' =
       klog st_d
       ++ [ev_printk KERN_DEBUG "CPU%u: shutdown\n" [arg_int cpu]]
       ++ (if err =? 0 then []
           else [ev_printk KERN_WARNING
                   "CPU%d may not have shut down cleanly: %d\n"
                   [arg_int cpu; arg_int err]])).
Proof.
  intros Hops Hwait. unfold __cpu_die. rewrite Hwait.
  destruct died; cbn [negb].
  - set (st_s := pr_debug "CPU%u: shutdown\n" [arg_int cpu] st_d).
    destruct (op_cpu_kill_returns cpu_ops cpu ops st_s Hops)
      as (err & st_k & Hkill).
    pose proof (op_cpu_kill_frame cpu_ops cpu st_s) as (_ & Hlog & Hcnt).
    pose proof (op_cpu_kill_masks cpu st_s) as (Hon & _).
    rewrite Hkill in Hlog, Hcnt, Hon. cbn [final_state] in Hlog, Hcnt, Hon.
    rewrite Hkill. cbn [bind].
    destruct (err =? 0) eqn:Herr; cbn [negb];
      (eexists; split; [reflexivity|]; cbn;
       split; [exact Hcnt|]; split; [exact Hon|];
       split; [discriminate|]; intros _;
       exists err, st_k; split; [reflexivity|]; split; [reflexivity|];
       rewrite Herr, Hlog; cbn; rewrite <- ?app_assoc, ?app_nil_r;
       reflexivity).
  - eexists. split; [reflexivity|]. cbn.
    split; [reflexivity|]. split; [reflexivity|].
    split; [auto | discriminate].
Qed.

End HotplugRest.

(** X12 on a platform with every hotplug hook. *)
Lemma cpu_disable_takes_offline_witness :
  exists st',
    __cpu_disable (hdr := arm64_headers) (all_cpus firmware_call_ops) 1
      (two_core_state 3 0xA (2 ^ 64 - 1)) = Returns 0 st' /\
    cpu_online 1 st' = false /\
    (forall c, c <> 1 ->
               cpu_online c st'
               = cpu_online c (two_core_state 3 0xA (2 ^ 64 - 1))) /\
    klog st' = [ev_irq_migrate_all_off_this_cpu 1] /\
    cpu_active_mask st' = 3 /\
    firmware_state st' = 1%nat.
Proof.
  apply (cpu_disable_takes_offline (hdr := arm64_headers)
           (all_cpus firmware_call_ops) 1
           (two_core_state 3 0xA (2 ^ 64 - 1))
           (with_firmware_state 1%nat (two_core_state 3 0xA (2 ^ 64 - 1)))).
  vm_compute. reflexivity.
Defined.

(** X13 on a core that dies but whose kill confirmation times out. *)
Lemma cpu_die_never_escalates_witness :
  exists st',
    __cpu_die (hdr := arm64_headers) (cfg := hotplug_config)
      (all_cpus kill_failing_ops) (death_reported true) 1
      (two_core_state 1 0xA (2 ^ 64 - 1)) = Returns tt st' /\
    cpus_stuck_in_kernel st' = 0 /\
    cpu_online_mask st' = 1 /\
    klog st' =
    [ev_printk KERN_DEBUG "CPU%u: shutdown\n" [arg_int 1];
     ev_printk KERN_WARNING "CPU%d may not have shut down cleanly: %d\n"
       [arg_int 1; arg_int (-110)]].
Proof.
  destruct (cpu_die_never_escalates (hdr := arm64_headers)
              (cfg := hotplug_config) (all_cpus kill_failing_ops)
              (death_reported true) 1 kill_failing_ops
              (two_core_state 1 0xA (2 ^ 64 - 1))
              (two_core_state 1 0xA (2 ^ 64 - 1)) true eq_refl eq_refl)
    as (st' & Hret & Hcnt & Hon & _ & Hdied).
  exists st'. split; [exact Hret|]. split; [exact Hcnt|].
  split; [exact Hon|].
  destruct (Hdied eq_refl) as (err & st_k & Hkill & _ & Hlog).
  rewrite Hlog. vm_compute in Hkill. injection Hkill as <- _.
  reflexivity.
Defined.

(** ** IPIs: sending and receiving *)

Section IpiRest.

Context {hdr : kernel_headers} {cfg : kernel_config} {firmware : Type}.
Variable ext : @externals firmware.

(** What the common broadcast path does to the log and the flags. *)
Lemma smp_cross_call_common_flags mask func (st : @kstate firmware) :
  let st' := smp_cross_call_common mask func st in
  klog st' =
  klog st ++ [ev_trace_ipi_raise mask func; ev_smp_cross_call mask func] /\
  (forall cpu,
      pending_ipi st' cpu = true <->
      pending_ipi st cpu = true \/
      (0 <= cpu < nr_cpu_ids st /\ Z.testbit mask cpu = true)) /\
  (mask = 0 -> forall cpu, pending_ipi st' cpu = pending_ipi st cpu).
Proof.
  intros st'.
  destruct (smp_cross_call_common_marks_pending mask func st)
    as (st1 & Heq & _ & Hp & Hlog & Hpend).
  fold st' in Heq. rewrite <- Heq in Hlog, Hpend.
  assert (Hiff : forall cpu,
             pending_ipi st' cpu = true <->
             pending_ipi st cpu = true \/
             (0 <= cpu < nr_cpu_ids st /\ Z.testbit mask cpu = true)).
  { intros cpu. rewrite Hpend. apply Hp. }
  split; [exact Hlog|]. split; [exact Hiff|].
  intros -> cpu. specialize (Hiff cpu). rewrite Z.bits_0 in Hiff.
  destruct (pending_ipi st' cpu), (pending_ipi st cpu); try reflexivity.
  - destruct (proj1 Hiff eq_refl) as [H|[_ H]]; discriminate H.
  - exact (proj2 Hiff (or_introl eq_refl)).
Qed.

(** X14.  [smp_cross_call_common] raises exactly one cross-call, with the
    mask and kind it was given, and sets the pending flag of exactly the
    cores below [nr_cpu_ids] whose mask bit is set, leaving every other
    flag as it was.  For an empty mask no flag changes and the one
    cross-call is still raised. *)
Theorem smp_cross_call_common_effect mask func (st : @kstate firmware) :
  let st' := smp_cross_call_common mask func st in
  klog st' =
  klog st ++ [ev_trace_ipi_raise mask func; ev_smp_cross_call mask func] /\
  (forall cpu,
      pending_ipi st' cpu = true <->
      pending_ipi st cpu = true \/
      (0 <= cpu < nr_cpu_ids st /\ Z.testbit mask cpu = true)) /\
  (mask = 0 -> forall cpu, pending_ipi st' cpu = pending_ipi st cpu).
Proof. apply smp_cross_call_common_flags. Qed.

Lemma cpumask_of_bits cpu c : 0 <= cpu ->
  Z.testbit (cpumask_of cpu) c = (cpu =? c).
Proof.
  intros Hc. unfold cpumask_of. rewrite Z.setbit_eqb by exact Hc.
  rewrite Z.bits_0. apply orb_false_r.
Qed.

(** X15.  A single-core call-function IPI touches the pending flag of the
    target only: it is set when the target is below [nr_cpu_ids]; for a
    target at or past [nr_cpu_ids] the cross-call is raised all the same
    but no flag is set. *)
Theorem send_single_ipi_marks_target cpu (st : @kstate firmware) :
  0 <= cpu ->
  let st' := arch_send_call_function_single_ipi cpu st in
  (forall c, c <> cpu -> pending_ipi st' c = pending_ipi st c) /\
  (cpu < nr_cpu_ids st -> pending_ipi st' cpu = true) /\
  (nr_cpu_ids st <= cpu -> pending_ipi st' cpu = pending_ipi st cpu) /\
  klog st' =
  klog st ++ [ev_trace_ipi_raise (cpumask_of cpu) IPI_CALL_FUNC;
              ev_smp_cross_call (cpumask_of cpu) IPI_CALL_FUNC].
Proof.
  intros Hc st'.
  destruct (smp_cross_call_common_flags (cpumask_of cpu) IPI_CALL_FUNC st)
    as (Hlog & Hiff & _).
  fold (arch_send_call_function_single_ipi cpu st) in Hlog, Hiff.
  fold st' in Hlog, Hiff.
  assert (Hsame : forall c,
             (0 <= c < nr_cpu_ids st /\ Z.testbit (cpumask_of cpu) c = true
              -> False) ->
             pending_ipi st' c = pending_ipi st c).
  { intros c Hno. specialize (Hiff c).
    destruct (pending_ipi st' c), (pending_ipi st c); try reflexivity.
    - destruct (proj1 Hiff eq_refl) as [H|H]; [discriminate H | tauto].
    - exact (proj2 Hiff (or_introl eq_refl)). }
  split; [|split; [|split]].
  - intros c Hne. apply Hsame. rewrite cpumask_of_bits by exact Hc.
    intros [_ H]. apply Z.eqb_eq in H. congruence.
  - intros Hlt. apply Hiff. right. split; [lia|].
    rewrite cpumask_of_bits by exact Hc. apply Z.eqb_refl.
  - intros Hge. apply Hsame. intros [H _]. lia.
  - exact Hlog.
Qed.

Lemma handle_IPI_quiet fuel this_cpu ipinr r (st : @kstate firmware) :
  ipinr = IPI_WAKEUP \/ ipinr < 0 \/ 6 < ipinr ->
  exists st',
    handle_IPI ext fuel this_cpu ipinr r st = Returns tt st' /\
    pending_ipi st' = upd (pending_ipi st) this_cpu false /\
    backtrace_mask st' = backtrace_mask st /\
    (forall c, __irq_regs st' c = __irq_regs st c) /\
    ipi_irqs st' =
    (if wrap_uint ipinr <? NR_IPI then
       upd (ipi_irqs st) this_cpu
         (upd (ipi_irqs st this_cpu) ipinr
            (wrap_uint (ipi_irqs st this_cpu ipinr + 1)))
     else ipi_irqs st) /\
    klog st' =
    klog st
    ++ (if wrap_uint ipinr <? NR_IPI then [ev_trace_ipi_entry ipinr]
        else [])
    ++ (if ipinr =? IPI_WAKEUP then []
        else [ev_printk KERN_CRIT "CPU%u: Unknown IPI message 0x%x\n"
                [arg_int this_cpu; arg_int ipinr]])
    ++ (if wrap_uint ipinr <? NR_IPI then [ev_trace_ipi_exit ipinr]
        else []).
Proof.
  intros Hkind. unfold handle_IPI, handle_IPI_dispatch.
  unfold IPI_RESCHEDULE, IPI_CALL_FUNC, IPI_CPU_STOP, IPI_TIMER,
    IPI_IRQ_WORK, IPI_WAKEUP, IPI_CPU_BACKTRACE in *.
  assert (H0 : (ipinr =? 0) = false) by (apply Z.eqb_neq; lia).
  assert (H1 : (ipinr =? 1) = false) by (apply Z.eqb_neq; lia).
  assert (H2 : (ipinr =? 2) = false) by (apply Z.eqb_neq; lia).
  assert (H3 : (ipinr =? 3) = false) by (apply Z.eqb_neq; lia).
  assert (H4 : (ipinr =? 4) = false) by (apply Z.eqb_neq; lia).
  assert (H6 : (ipinr =? 6) = false) by (apply Z.eqb_neq; lia).
  rewrite H0, H1, H2, H3, H4, H6, !andb_false_r.
  assert (Hregs : forall (f : Z -> option pt_regs) c v,
             upd (upd f c v) c (f c) = fun j => upd (upd f c v) c (f c) j)
    by reflexivity.
  destruct (ipinr =? 5), (wrap_uint ipinr <? NR_IPI); cbn [bind];
    (eexists; split; [reflexivity|]; cbn;
     split; [reflexivity|]; split; [reflexivity|];
     split; [intros c; unfold upd; destruct (c =? this_cpu) eqn:Hc;
             [apply Z.eqb_eq in Hc; now subst | reflexivity]|];
     split; [reflexivity|];
     rewrite <- ?app_assoc, ?app_nil_r; reflexivity).
Qed.

Lemma smp_cross_call_common_irq_regs mask func (st : @kstate firmware) :
  __irq_regs (smp_cross_call_common mask func st) = __irq_regs st.
Proof.
  unfold smp_cross_call_common, for_each_cpu. cbn.
  generalize (cpu_range (nr_cpu_ids st)). intros l. revert st.
  induction l as [|a l IH]; intros st; cbn; [reflexivity|].
  rewrite IH. destruct (cpumask_test_cpu a mask); reflexivity.
Qed.

(** X16.  Send and receive compose: after a wake-up IPI is sent to a mask,
    a target below [nr_cpu_ids] has its pending flag set; once that core
    has handled the IPI its flag is clear again, the flags of the other
    cores (still-pending targets included) are as the sender left them,
    and the interrupted register pointer of every core is as before. *)
Theorem wakeup_sent_then_handled fuel mask cpu r (st : @kstate firmware) :
  0 <= cpu < nr_cpu_ids st -> Z.testbit mask cpu = true ->
  let sent := arch_send_wakeup_ipi_mask mask st in
  pending_ipi sent cpu = true /\
  exists st',
    handle_IPI ext fuel cpu IPI_WAKEUP r sent = Returns tt st' /\
    pending_ipi st' cpu = false /\
    (forall c, c <> cpu -> pending_ipi st' c = pending_ipi sent c) /\
    (forall c, __irq_regs st' c = __irq_regs st c).
Proof.
  intros Hcpu Hbit sent.
  destruct (smp_cross_call_common_flags mask IPI_WAKEUP st)
    as (_ & Hiff & _).
  fold (arch_send_wakeup_ipi_mask mask st) in Hiff. fold sent in Hiff.
  split; [apply Hiff; right; split; assumption|].
  destruct (handle_IPI_quiet fuel cpu IPI_WAKEUP r sent (or_introl eq_refl))
    as (st' & Hret & Hp & _ & Hregs & _).
  exists st'. split; [exact Hret|]. rewrite Hp. split; [apply upd_same|].
  split; [intros c Hc; now apply upd_other|].
  intros c. rewrite Hregs. subst sent. unfold arch_send_wakeup_ipi_mask.
  now rewrite smp_cross_call_common_irq_regs.
Qed.

(** X17.  For every IPI number but Stop, whatever the callbacks run from
    the handler do to the state, [handle_IPI] returns with the interrupted
    register pointer of its core put back to the value it had on
    entry. *)
Theorem handle_IPI_restores_irq_regs fuel this_cpu ipinr r
  (st : @kstate firmware) :
  ipinr <> IPI_CPU_STOP ->
  exists st',
    handle_IPI ext fuel this_cpu ipinr r st = Returns tt st' /\
    __irq_regs st' this_cpu = __irq_regs st this_cpu.
Proof.
  intros Hstop. unfold handle_IPI.
  match goal with
  | |- exists st', bind (handle_IPI_dispatch _ _ _ _ _ ?s) _ = _ /\ _ =>
      destruct (handle_IPI_dispatch_returns ext fuel this_cpu ipinr r s Hstop)
        as (st1 & Hret)
  end.
  rewrite Hret. cbn [bind]. eexists. split; [reflexivity|].
  cbn. apply upd_same.
Qed.

(** X18.  An IPI number that is no message kind and is not below NR_IPI
    as an unsigned number (any negative number, for one) is reported as
    unknown and otherwise ignored: no counter moves, nothing is traced,
    the outstanding backtrace set is untouched; the pending flag of the
    core is cleared all the same. *)
Theorem handle_IPI_unknown_number fuel this_cpu ipinr r
  (st : @kstate firmware) :
  ipinr < 0 \/ 6 < ipinr -> NR_IPI <= wrap_uint ipinr ->
  exists st',
    handle_IPI ext fuel this_cpu ipinr r st = Returns tt st' /\
    klog st' =
    klog st ++ [ev_printk KERN_CRIT "CPU%u: Unknown IPI message 0x%x\n"
                  [arg_int this_cpu; arg_int ipinr]] /\
    ipi_irqs st' = ipi_irqs st /\
    backtrace_mask st' = backtrace_mask st /\
    pending_ipi st' this_cpu = false.
Proof.
  intros Hkind Hrange.
  destruct (handle_IPI_quiet fuel this_cpu ipinr r st (or_intror Hkind))
    as (st' & Hret & Hp & Hb & _ & Hirq & Hlog).
  exists st'. split; [exact Hret|].
  destruct (Z.ltb_spec (wrap_uint ipinr) NR_IPI); [lia|].
  assert (Hw : (ipinr =? IPI_WAKEUP) = false)
    by (apply Z.eqb_neq; unfold IPI_WAKEUP; lia).
  rewrite Hw in Hlog. cbn in Hlog.
  split; [exact Hlog|]. split; [exact Hirq|]. split; [exact Hb|].
  rewrite Hp. apply upd_same.
Qed.


(** X19.  A timer IPI on a kernel built without
    CONFIG_GENERIC_CLOCKEVENTS_BROADCAST, and an IRQ-work IPI on one built
    without CONFIG_IRQ_WORK, are counted and traced like any message kind
    but then reported as unknown: the callback is not run, whatever it
    is. *)
Theorem handle_IPI_kind_compiled_out fuel this_cpu ipinr r
  (st : @kstate firmware) :
  (ipinr = IPI_TIMER /\ CONFIG_GENERIC_CLOCKEVENTS_BROADCAST = false) \/
  (ipinr = IPI_IRQ_WORK /\ CONFIG_IRQ_WORK = false) ->
  ipinr < NR_IPI ->
  exists st',
    (forall callbacks : @externals firmware,
        handle_IPI callbacks fuel this_cpu ipinr r st = Returns tt st') /\
    klog st' =
    klog st ++ [ev_trace_ipi_entry ipinr;
                ev_printk KERN_CRIT "CPU%u: Unknown IPI message 0x%x\n"
                  [arg_int this_cpu; arg_int ipinr];
                ev_trace_ipi_exit ipinr] /\
    ipi_irqs st' this_cpu ipinr
    = wrap_uint (ipi_irqs st this_cpu ipinr + 1) /\
    pending_ipi st' this_cpu = false.
Proof.
  intros Hkind Hrange.
  assert (Hw : wrap_uint ipinr = ipinr).
  { destruct Hkind as [[-> _]|[-> _]]; reflexivity. }
  assert (Hlt : (wrap_uint ipinr <? NR_IPI) = true)
    by (rewrite Hw; now apply Z.ltb_lt).
  unfold handle_IPI, handle_IPI_dispatch. rewrite Hlt.
  destruct Hkind as [[-> Hc]|[-> Hc]]; rewrite Hc;
    change (IPI_TIMER =? IPI_RESCHEDULE) with false;
    change (IPI_TIMER =? IPI_CALL_FUNC) with false;
    change (IPI_TIMER =? IPI_CPU_STOP) with false;
    change (IPI_TIMER =? IPI_IRQ_WORK) with false;
    change (IPI_TIMER =? IPI_WAKEUP) with false;
    change (IPI_TIMER =? IPI_CPU_BACKTRACE) with false;
    change (IPI_IRQ_WORK =? IPI_RESCHEDULE) with false;
    change (IPI_IRQ_WORK =? IPI_CALL_FUNC) with false;
    change (IPI_IRQ_WORK =? IPI_CPU_STOP) with false;
    change (IPI_IRQ_WORK =? IPI_TIMER) with false;
    change (IPI_IRQ_WORK =? IPI_WAKEUP) with false;
    change (IPI_IRQ_WORK =? IPI_CPU_BACKTRACE) with false;
    rewrite ?andb_false_r; cbn [andb bind];
    (eexists; split; [intros callbacks; reflexivity|]; cbn;
     split; [rewrite <- !app_assoc; reflexivity|];
     split; [now rewrite !upd_same | apply upd_same]).
Qed.

(** X20.  [ipi_cpu_backtrace] takes the core out of the outstanding set
    and no other core; a second backtrace IPI on the same core, or one
    on a core that was never outstanding, changes nothing at all, so no
    core dumps its registers twice in one session. *)
Theorem ipi_cpu_backtrace_once cpu r (st : @kstate firmware) :
  let st' := ipi_cpu_backtrace cpu r st in
  cpumask_test_cpu cpu (backtrace_mask st') = false /\
  (forall c, c <> cpu ->
             cpumask_test_cpu c (backtrace_mask st')
             = cpumask_test_cpu c (backtrace_mask st)) /\
  ipi_cpu_backtrace cpu r st' = st' /\
  (cpumask_test_cpu cpu (backtrace_mask st) = false -> st' = st).
Proof.
  intros st'. subst st'. unfold ipi_cpu_backtrace.
  destruct (cpumask_test_cpu cpu (backtrace_mask st)) eqn:Hin.
  - cbn [backtrace_mask with_backtrace_mask]. unfold cpumask_test_cpu,
      cpumask_clear_cpu.
    rewrite Z.clearbit_eq. split; [reflexivity|]. split.
    + intros c Hc. apply Z.clearbit_neq. congruence.
    + split; [reflexivity | discriminate].
  - rewrite Hin. split; [reflexivity|]. split; [reflexivity|]. auto.
Qed.

Lemma backtrace_wait_empty (callbacks : @externals firmware) n i
  (st : @kstate firmware) :
  backtrace_mask st = 0 -> backtrace_wait callbacks n i st = st.
Proof.
  intros Hz. destruct n; cbn; [reflexivity|].
  unfold cpumask_empty. now rewrite Hz.
Qed.

(** X21.  When no core but the caller is online, a backtrace of all cores
    dumps the caller and ends at once: no cross-call is raised, no delay
    is made whatever the rest of the system does, no pending flag
    changes, and the token is free again. *)
Theorem backtrace_alone this_cpu (st : @kstate firmware) :
  Z.testbit (backtrace_flag st) 0 = false ->
  cpumask_clear_cpu this_cpu (cpu_online_mask st) = 0 ->
  exists st',
    (forall others : @externals firmware,
        smp_send_all_cpu_backtrace others this_cpu st = st') /\
    klog st' =
    klog st
    ++ [ev_printk KERN_INFO "Backtrace for cpu %d (current):\n"
          [arg_int this_cpu];
        ev_dump_stack;
        ev_printk KERN_INFO "\nsending IPI to all other CPUs:\n" []] /\
    backtrace_mask st' = 0 /\
    Z.testbit (backtrace_flag st') 0 = false /\
    pending_ipi st' = pending_ipi st.
Proof.
  intros Hfree Halone.
  set (st1 := backtrace_request this_cpu
                (with_backtrace_flag (Z.setbit (backtrace_flag st) 0) st)).
  assert (Hreq : st1 =
    pr_info "\nsending IPI to all other CPUs:\n" []
      (emit ev_dump_stack
         (pr_info "Backtrace for cpu %d (current):\n" [arg_int this_cpu]
            (with_backtrace_mask 0
               (with_backtrace_flag (Z.setbit (backtrace_flag st) 0) st))))).
  { subst st1. unfold backtrace_request.
    cbn [with_backtrace_mask with_backtrace_flag backtrace_mask
         cpu_online_mask pr_info emit with_klog].
    rewrite Halone. reflexivity. }
  exists (with_backtrace_flag (Z.clearbit (backtrace_flag st1) 0) st1).
  split.
  - intros others. unfold smp_send_all_cpu_backtrace. rewrite Hfree.
    cbv zeta. fold st1. rewrite backtrace_wait_empty; [reflexivity|].
    rewrite Hreq. reflexivity.
  - rewrite Hreq. cbn -[Z.testbit]. rewrite <- !app_assoc.
    split; [reflexivity|]. split; [reflexivity|].
    split; [apply Z.clearbit_eq | reflexivity].
Qed.

End IpiRest.

(** X15 for core 1 of a two-core system. *)
Lemma send_single_ipi_marks_target_witness :
  let st' :=
    arch_send_call_function_single_ipi 1
      (two_core_state 3 0xA (2 ^ 64 - 1)) in
  (forall c, c <> 1 -> pending_ipi st' c = false) /\
  (1 < 2 -> pending_ipi st' 1 = true) /\
  (2 <= 1 -> pending_ipi st' 1 = false) /\
  klog st' =
  [ev_trace_ipi_raise (cpumask_of 1) IPI_CALL_FUNC;
   ev_smp_cross_call (cpumask_of 1) IPI_CALL_FUNC].
Proof.
  apply (send_single_ipi_marks_target 1
           (two_core_state 3 0xA (2 ^ 64 - 1))).
  discriminate.
Defined.

(** X16 for a wake-up of both cores, handled by core 1. *)
Lemma wakeup_sent_then_handled_witness :
  let sent :=
    arch_send_wakeup_ipi_mask 3 (two_core_state 3 0xA (2 ^ 64 - 1)) in
  pending_ipi sent 1 = true /\
  exists st',
    handle_IPI (hdr := arm64_headers) (cfg := hotplug_config)
      (quiet_externals (fun s => s)) 0 1 IPI_WAKEUP no_regs sent
    = Returns tt st' /\
    pending_ipi st' 1 = false /\
    (forall c, c <> 1 -> pending_ipi st' c = pending_ipi sent c) /\
    (forall c, __irq_regs st' c = None).
Proof.
  apply (wakeup_sent_then_handled (hdr := arm64_headers)
           (cfg := hotplug_config) (quiet_externals (fun s => s))
           0 3 1 no_regs (two_core_state 3 0xA (2 ^ 64 - 1))).
  - vm_compute. split; [discriminate | reflexivity].
  - reflexivity.
Defined.

(** X17 for a call-function IPI whose callback overwrites the register
    pointers. *)
Lemma handle_IPI_restores_irq_regs_witness :
  exists st',
    handle_IPI (hdr := arm64_headers) (cfg := hotplug_config)
      {| scheduler_ipi := fun s => s;
         generic_smp_call_function_interrupt :=
           with_irq_regs (fun _ => Some no_regs);
         tick_receive_broadcast := fun s => s;
         irq_work_run := fun s => s;
         wait_for_completion_timeout := fun s => s;
         mdelay := fun _ s => s |}
      0 1 IPI_CALL_FUNC no_regs (two_core_state 3 0xA (2 ^ 64 - 1))
    = Returns tt st' /\
    __irq_regs st' 1 = None.
Proof.
  apply (handle_IPI_restores_irq_regs (hdr := arm64_headers)
           (cfg := hotplug_config)).
  discriminate.
Defined.

(** X18 for the IPI number -1. *)
Lemma handle_IPI_unknown_number_witness :
  exists st',
    handle_IPI (hdr := arm64_headers) (cfg := hotplug_config)
      (quiet_externals (fun s => s)) 0 1 (-1) no_regs
      (two_core_state 3 0xA (2 ^ 64 - 1)) = Returns tt st' /\
    klog st' =
    [ev_printk KERN_CRIT "CPU%u: Unknown IPI message 0x%x\n"
       [arg_int 1; arg_int (-1)]] /\
    ipi_irqs st' = ipi_irqs (two_core_state 3 0xA (2 ^ 64 - 1)) /\
    backtrace_mask st' = 0 /\
    pending_ipi st' 1 = false.
Proof.
  apply (handle_IPI_unknown_number (hdr := arm64_headers)
           (cfg := hotplug_config) (quiet_externals (fun s => s))
           0 1 (-1) no_regs (two_core_state 3 0xA (2 ^ 64 - 1))).
  - left. reflexivity.
  - vm_compute. discriminate.
Defined.

(** X19 for a timer IPI on a kernel without broadcast clock events. *)
Lemma handle_IPI_kind_compiled_out_witness :
  exists st',
    (forall callbacks : @externals nat,
        handle_IPI (hdr := arm64_headers)
          (cfg := {| CONFIG_HOTPLUG_CPU := true;
                     CONFIG_ARM64_52BIT_VA := false;
                     CONFIG_GENERIC_CLOCKEVENTS_BROADCAST := false;
                     CONFIG_IRQ_WORK := true |})
          callbacks 0 1 IPI_TIMER no_regs
          (two_core_state 3 0xA (2 ^ 64 - 1)) = Returns tt st') /\
    klog st' =
    [ev_trace_ipi_entry IPI_TIMER;
     ev_printk KERN_CRIT "CPU%u: Unknown IPI message 0x%x\n"
       [arg_int 1; arg_int IPI_TIMER];
     ev_trace_ipi_exit IPI_TIMER] /\
    ipi_irqs st' 1 IPI_TIMER = wrap_uint (0 + 1) /\
    pending_ipi st' 1 = false.
Proof.
  apply (handle_IPI_kind_compiled_out (hdr := arm64_headers)
           (cfg := {| CONFIG_HOTPLUG_CPU := true;
                      CONFIG_ARM64_52BIT_VA := false;
                      CONFIG_GENERIC_CLOCKEVENTS_BROADCAST := false;
                      CONFIG_IRQ_WORK := true |})
           0 1 IPI_TIMER no_regs (two_core_state 3 0xA (2 ^ 64 - 1))).
  - left. split; reflexivity.
  - reflexivity.
Defined.

(** X21 for a system whose only online core is the caller. *)
Lemma backtrace_alone_witness :
  exists st',
    (forall others : @externals nat,
        smp_send_all_cpu_backtrace others 0
          (two_core_state 1 0xA (2 ^ 64 - 1)) = st') /\
    klog st' =
    [ev_printk KERN_INFO "Backtrace for cpu %d (current):\n" [arg_int 0];
     ev_dump_stack;
     ev_printk KERN_INFO "\nsending IPI to all other CPUs:\n" []] /\
    backtrace_mask st' = 0 /\
    Z.testbit (backtrace_flag st') 0 = false /\
    pending_ipi st' = pending_ipi (two_core_state 1 0xA (2 ^ 64 - 1)).
Proof.
  apply (backtrace_alone 0 (two_core_state 1 0xA (2 ^ 64 - 1)));
    reflexivity.
Defined.

(** ** Stopping the other cores *)

Section SendStop.

Context {firmware : Type}.
Variable USEC_PER_SEC : Z.
Variable udelay : nat -> @kstate firmware -> @kstate firmware.

(** X22.  [smp_send_stop] never signals the core it runs on.  With no
    other core online it sends nothing.  Otherwise it raises one Stop
    cross-call whose mask is the online mask minus the caller, after
    setting the pending flag of every other online core below
    [nr_cpu_ids]; the caller's own flag is left as it was. *)
Theorem smp_send_stop_spares_caller this_cpu (st : @kstate firmware) :
  let st1 := smp_send_stop_request this_cpu st in
  pending_ipi st1 this_cpu = pending_ipi st this_cpu /\
  (num_other_online_cpus this_cpu st = 0 -> st1 = st) /\
  (num_other_online_cpus this_cpu st <> 0 ->
   let mask := cpumask_clear_cpu this_cpu (cpu_online_mask st) in
   Z.testbit mask this_cpu = false /\
   (forall c, 0 <= c < nr_cpu_ids st -> c <> this_cpu ->
              cpu_online c st = true -> pending_ipi st1 c = true) /\
   klog st1 =
   klog st
   ++ match system_state st with
      | SYSTEM_BOOTING | SYSTEM_RUNNING =>
          [ev_printk KERN_CRIT "SMP: stopping secondary CPUs\n" []]
      | _ => []
      end
   ++ [ev_trace_ipi_raise mask IPI_CPU_STOP;
       ev_smp_cross_call mask IPI_CPU_STOP]).
Proof.
  intros st1. subst st1. unfold smp_send_stop_request.
  destruct (Z.eqb_spec (num_other_online_cpus this_cpu st) 0) as [Hz|Hnz];
    cbn [negb].
  { split; [reflexivity|]. split; [reflexivity | contradiction]. }
  set (mask := cpumask_clear_cpu this_cpu (cpu_online_mask st)).
  set (st0 := match system_state st with
              | SYSTEM_BOOTING | SYSTEM_RUNNING =>
                  pr_crit "SMP: stopping secondary CPUs\n" [] st
              | _ => st
              end).
  assert (Hst0 : pending_ipi st0 = pending_ipi st /\
                 nr_cpu_ids st0 = nr_cpu_ids st /\
                 klog st0 =
                 klog st
                 ++ match system_state st with
                    | SYSTEM_BOOTING | SYSTEM_RUNNING =>
                        [ev_printk KERN_CRIT
                           "SMP: stopping secondary CPUs\n" []]
                    | _ => []
                    end).
  { subst st0. destruct (system_state st); cbn; rewrite ?app_nil_r; auto. }
  destruct Hst0 as (Hp0 & Hn0 & Hl0).
  destruct (smp_cross_call_common_flags mask IPI_CPU_STOP st0)
    as (Hlog & Hiff & _).
  assert (Hself : Z.testbit mask this_cpu = false)
    by apply Z.clearbit_eq.
  split.
  - specialize (Hiff this_cpu). rewrite Hself, Hp0 in Hiff.
    destruct (pending_ipi _ this_cpu), (pending_ipi st this_cpu);
      try reflexivity.
    + destruct (proj1 Hiff eq_refl) as [H|[_ H]]; discriminate H.
    + exact (proj2 Hiff (or_introl eq_refl)).
  - split; [intros Hz; contradiction|]. intros _.
    split; [exact Hself|]. split.
    + intros c Hc Hne Hon. apply Hiff. right. rewrite Hn0.
      split; [exact Hc|]. subst mask. unfold cpumask_clear_cpu.
      rewrite Z.clearbit_neq by congruence. exact Hon.
    + rewrite Hlog, Hl0, <- app_assoc. reflexivity.
Qed.

Lemma smp_send_stop_wait_bounded this_cpu n i (st : @kstate firmware) :
  exists k,
    (k <= n)%nat /\
    smp_send_stop_wait udelay this_cpu n i st = stop_delays udelay k i st /\
    ((k < n)%nat ->
     num_other_active_cpus this_cpu (stop_delays udelay k i st) = 0) /\
    (forall j, (j < k)%nat ->
               num_other_active_cpus this_cpu (stop_delays udelay j i st)
               <> 0).
Proof.
  revert i st. induction n as [|n IH]; intros i st.
  - exists O. split; [lia|]. split.
    + cbn. destruct (_ =? 0); reflexivity.
    + split; lia.
  - cbn [smp_send_stop_wait].
    destruct (Z.eqb_spec (num_other_active_cpus this_cpu st) 0) as [Hz|Hnz].
    + exists O. cbn. split; [lia|]. split; [reflexivity|].
      split; [intros _; exact Hz | lia].
    + destruct (IH (S i) (udelay i st)) as (k & Hk & Hw & He & Hb).
      exists (S k). cbn [stop_delays].
      split; [lia|]. split; [exact Hw|]. split.
      * intros Hlt. apply He. lia.
      * intros [|j] Hj; cbn [stop_delays]; [exact Hnz|]. apply Hb. lia.
Qed.

(** X23.  The wait of [smp_send_stop] is bounded: it makes a delay of one
    microsecond only while another core is still active, USEC_PER_SEC of
    them at most, and the warning is logged exactly when another core is
    still active at the end.  On a system where the caller is the only
    online and the only active core the call changes nothing. *)
Theorem smp_send_stop_bounded this_cpu (st : @kstate firmware) :
  let st1 := smp_send_stop_request this_cpu st in
  (exists k,
      (k <= Z.to_nat USEC_PER_SEC)%nat /\
      let st2 := stop_delays udelay k 0 st1 in
      ((k < Z.to_nat USEC_PER_SEC)%nat ->
       num_other_active_cpus this_cpu st2 = 0) /\
      (forall j, (j < k)%nat ->
                 num_other_active_cpus this_cpu (stop_delays udelay j 0 st1)
                 <> 0) /\
      smp_send_stop USEC_PER_SEC udelay this_cpu st =
      if num_other_active_cpus this_cpu st2 =? 0 then st2
      else pr_warn "SMP: failed to stop secondary CPUs %*pbl\n"
             [arg_int (nr_cpu_ids st2); arg_int (cpu_online_mask st2)] st2) /\
  (num_other_online_cpus this_cpu st = 0 ->
   num_other_active_cpus this_cpu st = 0 ->
   smp_send_stop USEC_PER_SEC udelay this_cpu st = st).
Proof.
  intros st1.
  destruct (smp_send_stop_wait_bounded this_cpu (Z.to_nat USEC_PER_SEC) 0 st1)
    as (k & Hk & Hw & He & Hb).
  assert (Hrun :
    smp_send_stop USEC_PER_SEC udelay this_cpu st =
    if num_other_active_cpus this_cpu (stop_delays udelay k 0 st1) =? 0
    then stop_delays udelay k 0 st1
    else pr_warn "SMP: failed to stop secondary CPUs %*pbl\n"
           [arg_int (nr_cpu_ids (stop_delays udelay k 0 st1));
            arg_int (cpu_online_mask (stop_delays udelay k 0 st1))]
           (stop_delays udelay k 0 st1)).
  { unfold smp_send_stop. fold st1. rewrite Hw.
    destruct (_ =? 0); reflexivity. }
  split.
  - exists k. split; [exact Hk|]. cbv zeta.
    split; [exact He|]. split; [exact Hb | exact Hrun].
  - intros Hon Hact.
    assert (Hst1 : st1 = st).
    { subst st1. unfold smp_send_stop_request. now rewrite Hon. }
    destruct k as [|k].
    + rewrite Hrun. cbn [stop_delays]. rewrite Hst1, Hact. reflexivity.
    + exfalso. apply (Hb O); [lia|]. cbn [stop_delays]. now rewrite Hst1.
Qed.

End SendStop.

(** Core 0 stops core 1, which goes inactive during the first delay. *)
Lemma smp_send_stop_two_cores :
  let st' :=
    smp_send_stop 1000000 (fun _ => with_cpu_active_mask 1) 0
      (two_core_state 3 0xA (2 ^ 64 - 1)) in
  klog st' =
  [ev_printk KERN_CRIT "SMP: stopping secondary CPUs\n" [];
   ev_trace_ipi_raise 2 IPI_CPU_STOP;
   ev_smp_cross_call 2 IPI_CPU_STOP] /\
  pending_ipi st' 0 = false /\ pending_ipi st' 1 = true /\
  cpu_active_mask st' = 1.
Proof. vm_compute. repeat split. Qed.

(** ** Interrupt statistics *)

Section IrqStat.

Context {hdr : kernel_headers} {cfg : kernel_config} {firmware : Type}.
Variable ext : @externals firmware.

Lemma cpu_range_NoDup n : NoDup (cpu_range n).
Proof.
  unfold cpu_range. generalize (seq_NoDup (Z.to_nat n) 0).
  induction (seq 0 (Z.to_nat n)) as [|a l IH]; intros Hnd; cbn.
  - constructor.
  - inversion Hnd as [|? ? Hnotin Hnd']; subst. constructor; [|auto].
    rewrite in_map_iff. intros (b & Hb & Hin).
    assert (b = a) by lia. subst b. contradiction.
Qed.

(** A sum of 32-bit counters that fits in 64 bits is not wrapped. *)
Lemma stat_sum_no_wrap (f : Z -> Z) l a :
  (forall i, In i l -> 0 <= f i < 2 ^ 32) ->
  0 <= a -> a + Z.of_nat (List.length l) * 2 ^ 32 <= 2 ^ 64 ->
  fold_left (fun sum i => (sum + f i) mod 2 ^ 64) l a
  = fold_left (fun sum i => sum + f i) l a.
Proof.
  revert a. induction l as [|x l IH]; intros a Hf Ha Hfit; [reflexivity|].
  cbn [fold_left]. cbn [List.length] in Hfit.
  assert (Hx : 0 <= f x < 2 ^ 32) by (apply Hf; now left).
  rewrite Z.mod_small by nia.
  apply IH; [intros i Hi; apply Hf; now right | lia | nia].
Qed.

Lemma stat_sum_shift (f : Z -> Z) l a b :
  fold_left (fun sum i => sum + f i) l (a + b)
  = fold_left (fun sum i => sum + f i) l a + b.
Proof.
  revert a. induction l as [|x l IH]; intros a; cbn; [reflexivity|].
  replace (a + b + f x) with (a + f x + b) by lia. apply IH.
Qed.

Lemma stat_sum_bump (f : Z -> Z) k v l a :
  NoDup l ->
  fold_left (fun sum i => sum + upd f k v i) l a
  = fold_left (fun sum i => sum + f i) l a
    + (if existsb (Z.eqb k) l then v - f k else 0).
Proof.
  intros Hnd. revert a. induction Hnd as [|x l Hnotin Hnd IH]; intros a.
  - cbn. lia.
  - cbn [fold_left existsb]. rewrite IH.
    destruct (Z.eqb_spec k x) as [->|Hne].
    + rewrite upd_same. cbn [orb].
      assert (Hex : existsb (Z.eqb x) l = false).
      { apply not_true_is_false. intros H. apply existsb_exists in H.
        destruct H as (y & Hy & Heq). apply Z.eqb_eq in Heq. subst y.
        contradiction. }
      rewrite Hex.
      replace (a + v) with (a + f x + (v - f x)) by lia.
      rewrite stat_sum_shift. lia.
    + rewrite upd_other by congruence. cbn [orb]. reflexivity.
Qed.

(** The counters after an IPI other than Stop, when the callbacks leave
    them alone. *)
Lemma handle_IPI_counters fuel this_cpu ipinr r (st : @kstate firmware) :
  ipinr <> IPI_CPU_STOP ->
  (forall s, ipi_irqs (scheduler_ipi ext s) = ipi_irqs s) ->
  (forall s, ipi_irqs (generic_smp_call_function_interrupt ext s)
             = ipi_irqs s) ->
  (forall s, ipi_irqs (tick_receive_broadcast ext s) = ipi_irqs s) ->
  (forall s, ipi_irqs (irq_work_run ext s) = ipi_irqs s) ->
  exists st',
    handle_IPI ext fuel this_cpu ipinr r st = Returns tt st' /\
    ipi_irqs st' =
    if wrap_uint ipinr <? NR_IPI then
      upd (ipi_irqs st) this_cpu
        (upd (ipi_irqs st this_cpu) ipinr
           (wrap_uint (ipi_irqs st this_cpu ipinr + 1)))
    else ipi_irqs st.
Proof.
  intros Hstop Hs Hc Ht Hw. apply Z.eqb_neq in Hstop.
  unfold handle_IPI, handle_IPI_dispatch. rewrite Hstop.
  destruct (wrap_uint ipinr <? NR_IPI);
    destruct (ipinr =? IPI_RESCHEDULE);
    [eexists; split; [reflexivity|]; cbn; now rewrite Hs| |
     eexists; split; [reflexivity|]; cbn; now rewrite Hs|];
    (destruct (ipinr =? IPI_CALL_FUNC);
     [eexists; split; [reflexivity|]; cbn; now rewrite Hc|];
     destruct (CONFIG_GENERIC_CLOCKEVENTS_BROADCAST && _);
     [eexists; split; [reflexivity|]; cbn; now rewrite Ht|];
     destruct (CONFIG_IRQ_WORK && _);
     [eexists; split; [reflexivity|]; cbn; now rewrite Hw|];
     destruct (ipinr =? IPI_WAKEUP);
     [eexists; split; [reflexivity|]; reflexivity|];
     destruct (ipinr =? IPI_CPU_BACKTRACE);
     [|eexists; split; [reflexivity|]; reflexivity];
     eexists; split; [reflexivity|]; cbn;
     unfold ipi_cpu_backtrace; destruct (cpumask_test_cpu _ _);
     reflexivity).
Qed.

(** X24.  [smp_irq_stat_cpu] counts the IPIs a core has handled: when the
    callbacks leave the counters alone and no counter is at its 32-bit
    limit, handling any IPI other than Stop whose number is below NR_IPI
    raises the total of the handling core by exactly one and leaves the
    total of every other core unchanged. *)
Theorem smp_irq_stat_cpu_counts fuel this_cpu ipinr r
  (st : @kstate firmware) :
  0 <= ipinr < NR_IPI -> NR_IPI <= 2 ^ 32 -> ipinr <> IPI_CPU_STOP ->
  (forall i, 0 <= ipi_irqs st this_cpu i < 2 ^ 32) ->
  ipi_irqs st this_cpu ipinr < 2 ^ 32 - 1 ->
  (forall s, ipi_irqs (scheduler_ipi ext s) = ipi_irqs s) ->
  (forall s, ipi_irqs (generic_smp_call_function_interrupt ext s)
             = ipi_irqs s) ->
  (forall s, ipi_irqs (tick_receive_broadcast ext s) = ipi_irqs s) ->
  (forall s, ipi_irqs (irq_work_run ext s) = ipi_irqs s) ->
  exists st',
    handle_IPI ext fuel this_cpu ipinr r st = Returns tt st' /\
    smp_irq_stat_cpu this_cpu st' = smp_irq_stat_cpu this_cpu st + 1 /\
    forall c, c <> this_cpu ->
              smp_irq_stat_cpu c st' = smp_irq_stat_cpu c st.
Proof.
  intros Hrange Hn Hstop Hbound Hroom Hs Hc Ht Hw.
  destruct (handle_IPI_counters fuel this_cpu ipinr r st Hstop Hs Hc Ht Hw)
    as (st' & Hret & Hirq).
  exists st'. split; [exact Hret|].
  assert (Hwr : wrap_uint ipinr = ipinr)
    by (apply wrap_uint_small; lia).
  rewrite Hwr in Hirq.
  destruct (Z.ltb_spec ipinr NR_IPI); [|lia].
  unfold smp_irq_stat_cpu. rewrite Hirq. split.
  - rewrite upd_same.
    rewrite wrap_uint_small by (specialize (Hbound ipinr); lia).
    assert (Hlen : Z.of_nat (List.length (cpu_range NR_IPI)) = NR_IPI).
    { unfold cpu_range. rewrite length_map, length_seq. lia. }
    rewrite (stat_sum_no_wrap (ipi_irqs st this_cpu));
      [|intros i _; apply Hbound | lia | rewrite Hlen; nia].
    rewrite stat_sum_no_wrap;
      [|intros i _; unfold upd; destruct (i =? ipinr);
        [specialize (Hbound ipinr); lia | apply Hbound]
       | lia | rewrite Hlen; nia].
    rewrite stat_sum_bump by apply cpu_range_NoDup.
    assert (Hex : existsb (Z.eqb ipinr) (cpu_range NR_IPI) = true).
    { apply existsb_exists. exists ipinr. split; [|apply Z.eqb_refl].
      apply cpu_range_In. exact Hrange. }
    rewrite Hex. lia.
  - intros c Hne. rewrite upd_other by exact Hne. reflexivity.
Qed.

End IrqStat.

(** X24 for a wake-up IPI handled by core 1. *)
Lemma smp_irq_stat_cpu_counts_witness :
  exists st',
    handle_IPI (hdr := arm64_headers) (cfg := hotplug_config)
      (quiet_externals (fun s => s)) 0 1 IPI_WAKEUP no_regs
      (two_core_state 3 0xA (2 ^ 64 - 1)) = Returns tt st' /\
    smp_irq_stat_cpu (hdr := arm64_headers) 1 st'
    = smp_irq_stat_cpu (hdr := arm64_headers) 1
        (two_core_state 3 0xA (2 ^ 64 - 1)) + 1 /\
    forall c, c <> 1 ->
              smp_irq_stat_cpu (hdr := arm64_headers) c st'
              = smp_irq_stat_cpu (hdr := arm64_headers) c
                  (two_core_state 3 0xA (2 ^ 64 - 1)).
Proof.
  apply (smp_irq_stat_cpu_counts (hdr := arm64_headers)
           (cfg := hotplug_config) (quiet_externals (fun s => s))
           0 1 IPI_WAKEUP no_regs (two_core_state 3 0xA (2 ^ 64 - 1)));
    try reflexivity.
  - vm_compute. split; [discriminate | reflexivity].
  - vm_compute. discriminate.
  - discriminate.
  - intros i. vm_compute. split; [discriminate | reflexivity].
Defined.
